(* ===== verification/_CoqProject ===== *)
-Q . S2P
Prelude.v
Float32.v
StdLevels.v
InterpCheck.v
Loops.v
LoopsWf.v
InterpEffects.v
InterpCounting.v
Profiles.v
InterpTyping.v
InterpSafety.v
InterpSpec.v
InterpNumerics.v
Background.v
BigGap.v
ObsOperator.v
OperatorCalls.v
Publication.v
Lifecycle.v
Scenarios.v
