(* ===== verification/Prelude.v ===== *)
(** * Verification of the UFO profile interpolation check and ObsOperator

    ** The program

    The repository holds two C++ translation units of the JEDI/UFO
    observation-operator library:

    - [src/unnamed/part_000] is [ProfileCheckInterpolation.cc]: the
      quality-control check [ProfileCheckInterpolation::runCheck], which
      compares the temperature observed at each standard pressure level of
      a sounding with the value interpolated (linearly in log-pressure)
      between the nearest significant levels below and above, and
      [ProfileCheckInterpolation::fillValidator], which publishes the
      computed arrays to the profile data handler.
    - [src/src/ufo/ObsOperator.cc]: the wrapper class [ObsOperator], which
      delegates to a concrete operator made by a factory and, when a bias
      correction is present, computes and saves the bias predictors.

    The check is one object in a chain: the profile data handler owns the
    vectors of a sounding by name; [runCheck] borrows eight of them,
    calls [calcStdLevels] of its base class [ProfileStandardLevels] to
    classify the levels, loops over the standard levels, and leaves its
    findings in the flags and counters of the handler and in its own
    members; [fillValidator] then moves the members into the handler.
    The specification of the repository (spec.md) describes this check;
    it does not mention [ObsOperator].

    ** The files

    - [Prelude] (this file): the C++ semantics shared by all components.
    - [Float32]: the types [float] and [double] and their operations.
    - [StdLevels]: the members of [ProfileStandardLevels] and the
      interface of [calcStdLevels] ([Classifier], [ClassifierOk]).
    - [InterpCheck]: [runCheck], lines 25-141 of part_000.  [State] holds
      the vectors the method binds at lines 29-46, the inherited members
      ([levels]), the members [LevErrors_] and [tInterp_], and the log.
      The definitions follow the statements: [anyVectorEmpty] and
      [allVectorsSameSize] (48-57), [correctVector] (59-60), [isSurface]
      (72), [roundedHPa] (76), [selectBigGap] (80-86), [tooFewSig] (88),
      [noBracket] (90), [gapTooBig] (92-94), [interpolate] (96-99),
      [tolerance] and [exceedsTolerance] (102-106), [flagFailure]
      (107-137) with the debug lines it logs ([centralLine] 123-129,
      [bracketLine] 130-137, [failureLines]), [checkLevel] (the loop
      body), [checkLevels] (the loop), [countObs] (140), [checkProfile]
      (59-140) and [runCheck].
    - [Loops]: the two [for] loops written with their [int] counters
      and fuel ([forInt], [scanBands]), and their agreement with the
      recursions of [InterpCheck].
    - [LoopsWf]: the same loops by well-founded recursion on the
      distance of the counter from its bound ([forIntWf],
      [scanBandsWf]), and the method built from them ([runCheckWf]).
    - [InterpEffects]: what the check writes, as a function of the list
      of failed tests ([effects]), level by level and for the method.
    - [InterpCounting]: the conservation laws that tie the counters
      and the level errors of a call to each other ([balance]).
    - [Profiles]: the three counters as the handler keeps them from
      one profile to the next ([counters], [withCounters]), and states
      of the check up to the counters ([sameButCounters]).
    - [InterpTyping]: the values of type [int] stay in the range of
      [int] ([int_typed]).
    - [InterpSafety]: the conditions under which the call returns.
    - [InterpSpec]: the specification [verdict] / [specState] of the
      check and the proof that [runCheck] refines it; the guards; the
      independence of the order of the standard levels; the interpolated
      values level by level; a second run.
    - [InterpNumerics]: what the floating-point test does on profiles
      of one temperature and on values that are not numbers.
    - [Background]: states of the check up to the model background
      ([sameBut]), an equivalence that every step of [runCheck]
      respects.
    - [BigGap]: the scan of the band table as a search.
    - [ObsOperator]: the class [ufo::ObsOperator] of ObsOperator.cc, with
      the observation space as a store of named groups and the
      collaborators as functions.
    - [OperatorCalls]: [ObsOperator::simulateObs] as the sequence of
      its calls on the collaborators, an interaction tree
      ([simulateObsT] over the events [callE]); the runs of a tree
      ([runs], [runCalls]).
    - [Publication]: the profile data handler as a finite map, the
      constructor of the check ([ProfileCheck.new], lines 16-23),
      [runCheck] against the handler ([ProfileCheck.runOnHandler]) and
      [fillValidator], lines 143-156; handlers up to the names the
      check reads ([agree]).
    - [Lifecycle]: the two methods as the steps of a relation on the
      pair of the handler and the members of the check ([step], [exec],
      [execAll]), for any sequence of calls, from the configuration the
      constructor leaves.
    - [Scenarios]: the scenarios of the specification and the inputs at
      which the theorems are applied.

    ** The theorems

    - Functional behaviour: [runCheck_effects] gives the flags, level
      errors and counters after a call in terms of the failed tests
      the log records; [checkLevels_level_outcome] reads it level by
      level;
      [checkLevel_failure_guards] is the condition under which an
      iteration counts a failure and [checkLevel_evaluated] what an
      iteration past the guards writes; [checkLevel_surface] and
      [runCheck_nothing_evaluated] are the skip cases;
      [runCheck_invalid_input] the early returns.
    - Refinement: [runCheck_refines] shows that the in-place loop
      computes [specState], each verdict being a function of the profile
      as it was before the call, the log included: the four lines of
      each failure with the values they print ([verdictLines]).  It
      needs the interpolation bit and the
      surface bit to be different bits, because the loop reads flags it
      has written.  [checkLevels_order_independent] follows.
      [runCheck_total] joins refinement and safety: under [ready] the
      call returns [specState].  [runCheck_tInterp] reads [tInterp_]
      level by level, and [runCheck_rerun] shows what a second run
      reproduces (flags, level errors, values) and what it counts again
      (the three counters).
    - Independence of the background: [runCheck_background], two runs
      on profiles that differ in [tBkg] fault alike or return the same
      flags, counters, level errors and interpolated values; the proof
      takes the two runs through the method step by step, each bind
      respecting [res_rel] ([res_rel_bind], [foldM_res_rel]).
    - Independence of the profiles: [profiles_commute], two profiles
      checked under one handler have the same flags, level errors,
      interpolated values and log in either order, and leave the same
      counters.  The method reads a counter only to increment it, so
      two runs from states that differ in the counters decide alike
      and count alike ([runCheck_counters]); they need not fault
      alike, and are related by [res_sim] ([res_sim_bind],
      [foldM_res_sim]).
    - Safety: [runCheck_safe] shows that a call meeting [ready] returns
      when the classification does and honours [ClassifierOk]: every
      index is in range, no [int] overflows, the conversion of the
      pressure is defined.  [selectBigGap_short_table],
      [runCheck_counter_missing] and [checkLevel_bad_pressure] show
      three conditions of [ready] to be needed: each gives inputs that
      pass the validation of lines 48-57 and make the call undefined.
      [check_then_publish_returns] is the same for the sequence of the
      two methods on the handler.
    - Types: [runCheck_int_typed], the flags, counters and level errors
      stay in the range of [int].
    - Termination: [checkLevelsLoop_terminates] and
      [selectBigGapLoop_selectBigGap], the loops with their counters
      return what the recursions return once the fuel covers their
      bound.  [runCheckWf_runCheck]: the method with both loops
      written with their counters, as total functions defined by
      well-founded recursion, is [runCheck].
    - Numerics: [round_half_away_nearest], the integer that [std::round]
      yields is a nearest one; [roundedHPa_boundaries] and
      [refTable_monotone], the conversion to hPa and the selected gap
      for every whole pressure up to 1100 hPa, by evaluation;
      [runCheck_isothermal], a profile of one temperature is never
      flagged, whatever its pressures and its classification, because
      the value interpolated between equal values is that value, a
      zero or a NaN; [checkLevel_nan_unflagged], a level whose
      observation or bracket observation is a NaN is evaluated and
      never flagged, [>] being false on a NaN.
    - Invariants: [reachable_evolves], by induction on the sequence of
      steps: after any calls the handler holds the inputs it held, flag
      words have at most gained the interpolation bit and counters have
      not decreased.  It rests on [runCheck_changes] for one call of
      [runCheck].  [constructed_invariant] starts from the
      configuration the constructor leaves: the band tables stay those
      the constructor was given and the two result vectors are both
      empty or both of the size of the profile.  [steps_execAll]
      relates the step relation to the executable [execAll];
      [check_then_publish] is the intended sequence of the two calls;
      [runCheck_rebinds] shows that binding the references again reads
      back the state the method left.
    - The band table: [selectBigGap_first_band], the scan is a
      first-match search ([selectBigGap_at], [selectBigGap_none]);
      [selectedBand_decreasing], on a table whose
      levels decrease the selected band is the greatest level at most
      the rounded pressure (by the transitivity of [<=] on [float],
      [SFleb_trans]); [describedBand_differs], the rule as the
      specification words it selects another band for every pressure
      below the first level.
    - Conservation: [runCheck_conservation], the level errors of a
      call add up to three per failure counted in [NumInterpErrors[0]]
      less one per level, the two global counters grow by the same
      amount, and [NumInterpErrObs[0]] grows by one exactly when that
      amount is not zero; by the loop invariant [balance].
    - [ObsOperator]: [simulateObs_delegates], [simulateObs_without_bias],
      [simulateObs_with_bias], [simulateObs_idempotent], for
      collaborators that are functions.  [simulateObsT_calls] lists the
      runs of the method for collaborators of any kind: the calls, their
      order and the answers they pass on; [simulateObsT_terminates]
      bounds a run by twelve calls in every environment; and
      [simulateObsT_refines] shows that the interpretation of the
      calls by the functions is [ObsOperator.simulateObs].
    - Publication: [fillValidator_publishes] (what is stored, and that
      nothing else changes), [fillValidator_once],
      [runCheck_handler_frame] (the names [runCheck] writes) and
      [runOnHandler_local] (the names it reads: the result is the same
      on handlers that [agree] on them, stated with [res_rel]).
    - Concrete runs ([Scenarios]): the scenarios of the specification
      evaluated on the model, and the inputs on which the code faults.

    ** Assumptions and bounds

    - [float] is IEEE 754 binary32 and [double] binary64, evaluated in
      round-to-nearest-even without excess precision or contraction;
      the options, [StandardLevels_], [BigGaps_] and [LogP_] are [float]s.
    - [int] has 32 bits.  Reading or writing a vector out of range,
      overflowing an [int] and converting to [int] a value outside its
      range are undefined in C++: the model makes them faults, and a
      theorem that a call returns excludes them.  [assign] with a
      negative count is the fault [LengthError].
    - The loops are bounded by the data ([NumStd_] iterations, one scan
      of the band table each), so the definitions of [InterpCheck] are
      structural recursions over [seqZ] and over the table and need no
      fuel.  [Loops] gives the same loops with an [int] counter and
      fuel: fuel [NumStd_] for the outer loop and the length of
      [StandardLevels_] for the scan is enough, because each round
      increments the counter and the loop ends when it reaches the
      bound; the bound being at most [INT_MAX], the increment cannot
      overflow.  [LoopsWf] needs no fuel: the measure of a loop is the
      distance of its counter from its bound, which an increment that
      does not fault reduces.
    - [simulateObs] has no loop: a run makes two calls without a bias
      correction and twelve with one, so fuel 13 is enough for
      [runCalls] (one step more for the return), in every environment.
    - The evaluations over a range of pressures cover 0 to 1100 hPa,
      beyond the highest pressure of a sounding at the surface; they
      say nothing outside that range.
    - The flag bits, the missing-value indicator and [t0c] are
      parameters ([Constants]); no theorem depends on their values
      except through the stated hypothesis that the two bits differ.
      [t0c] is taken to be a [double], so that the temperatures of the
      debug lines are computed in [double].
    - A vector that has been moved from is empty; the vectors
      [LevErrors_] and [tInterp_] of a check that has just been
      constructed are empty.
    - The log holds each message as an event with the values it
      prints, not the characters.

    ** Not modelled

    [calcStdLevels] and [correctVector] are defined outside the sources:
    the former is an interface with a contract (the specification gives
    its output contract and no algorithm), the latter is modelled from
    the specification (element-wise sum).  The registration of the
    check with its factory (lines 13-14) is the construction of a
    static [ProfileCheckMaker], which is outside the sources and which
    the specification leaves out; no code of the sources reads the
    table it fills.  The constructor of [ProfileStandardLevels], to
    which the constructor of the check forwards the options, is a
    parameter of [ProfileCheck.new].  The destructor of [ObsOperator]
    (line 31) has an empty body.  The rendering of the numbers of the
    log messages as text (lines 120-137) belongs to the stream
    library: the log holds the values.  The
    classes of oops, ioda and eckit that the two files only call are
    parameters.  The numerical quality of the interpolation (the
    distance between the [float] result and the real-number formula) is
    not addressed.

    ** This file

    [Prelude] is the C++ semantics layer shared by every component:

    - [result]: the outcome of a C++ computation, either a value or a
      [fault] (behaviour the C++ standard leaves undefined, or an
      exception that no code of the repository catches), and
      [res_rel], results up to a relation on their values, for which
      the bind of [result] is [Proper], and [res_sim], which relates
      the values of two computations when both return;
    - vectors ([std::vector<T>]) as lists indexed by [Z], with
      [operator[]] out of range a fault ([vec_get], [vec_set]) and
      [assign(n, x)] ([vec_assign]);
    - [int] as [Z] restricted to [int_range], with [++] a fault on
      overflow ([int_incr]) and [|], [&] as [Z.lor], [Z.land];
    - the tactics and the hint database [ufo] used by all files. *)

From Stdlib Require Import ZArith Lia.
From stdpp Require Import base tactics option list numbers sorting.

#[local] Open Scope Z_scope.
#[global] Set Warnings "-clear-no-such-hyp".

(** ** Faults and results *)

(** What can go wrong in the C++ code without being handled by it. *)
Inductive fault : Type :=
| OutOfBounds        (* operator[] past the end of a vector *)
| BadIntConversion   (* floating value not representable in the target int *)
| SignedOverflow     (* signed integer overflow *)
| LengthError.       (* std::vector::assign with a negative count *)

Inductive result (A : Type) : Type :=
| Ok (a : A)
| Fault (f : fault).
Arguments Ok {A} a.
Arguments Fault {A} f.

#[global] Instance fault_eq_dec : EqDecision fault.
Proof. solve_decision. Defined.

#[global] Instance result_eq_dec `{EqDecision A} : EqDecision (result A).
Proof. solve_decision. Defined.

#[global] Instance result_ret : MRet result := @Ok.

#[global] Instance result_bind : MBind result := λ A B f m,
  match m with Ok a => f a | Fault e => Fault e end.

#[global] Instance result_fmap : FMap result := λ A B f m,
  match m with Ok a => Ok (f a) | Fault e => Fault e end.

Definition is_Ok {A} (m : result A) : Prop := ∃ a, m = Ok a.

Definition is_Okb {A} (m : result A) : bool :=
  match m with Ok _ => true | Fault _ => false end.

(** Monadic left fold: the model of a [for] loop whose body may fault. *)
Fixpoint foldM {A S} (body : A → S → result S) (l : list A) (s : S) : result S :=
  match l with
  | [] => Ok s
  | a :: l' => s' ← body a s; foldM body l' s'
  end.

(** Monadic map: the results of [f] on the elements of [l], in order. *)
Fixpoint mapM {A B} (f : A → result B) (l : list A) : result (list B) :=
  match l with
  | [] => Ok []
  | a :: l' => b ← f a; bs ← mapM f l'; Ok (b :: bs)
  end.

(** ** Vectors *)

Declare Scope vec_scope.
Delimit Scope vec_scope with vec.

(** [v[i]] with an [int] or [size_t] index: a negative [int] converts to a
    huge [size_t], so it is out of range like any index past the end. *)
Definition vec_get {A} (v : list A) (i : Z) : result A :=
  if decide (0 ≤ i) then
    match v !! Z.to_nat i with
    | Some x => Ok x
    | None => Fault OutOfBounds
    end
  else Fault OutOfBounds.

(** [v[i] = x]. *)
Definition vec_set {A} (v : list A) (i : Z) (x : A) : result (list A) :=
  if decide (0 ≤ i < Z.of_nat (length v)) then Ok (<[Z.to_nat i := x]> v)
  else Fault OutOfBounds.

(** [v.assign(n, x)] with [n] an [int]. *)
Definition vec_assign {A} (n : Z) (x : A) : result (list A) :=
  if decide (0 ≤ n) then Ok (replicate (Z.to_nat n) x) else Fault LengthError.

(** The entry a read of [v[i]] that is in range yields: the form the
    specifications use, where the reads are known to be in range. *)
Definition vec_at `{Inhabited A} (v : list A) (i : Z) : A := v !!! Z.to_nat i.

Notation "v .[ i ]" := (vec_get v i)
  (at level 1, left associativity, format "v .[ i ]") : vec_scope.

(** ** The type [int] *)

Definition INT_MIN : Z := - 2 ^ 31.
Definition INT_MAX : Z := 2 ^ 31 - 1.

Definition int_range (z : Z) : Prop := INT_MIN ≤ z ≤ INT_MAX.

#[global] Instance int_range_dec z : Decision (int_range z).
Proof. unfold int_range. apply _. Defined.

(** [x++] on an [int]. *)
Definition int_incr (z : Z) : result Z :=
  if decide (z < INT_MAX) then Ok (z + 1) else Fault SignedOverflow.

(** [v[i]++] on a vector of [int]. *)
Definition vec_incr (v : list Z) (i : Z) : result (list Z) :=
  x ← vec_get v i; x' ← int_incr x; vec_set v i x'.

(** [v[i] |= m] on a vector of [int]. *)
Definition vec_or (v : list Z) (i : Z) (m : Z) : result (list Z) :=
  x ← vec_get v i; vec_set v i (Z.lor x m).

(** ** Tactics *)

(** Case analysis on the first [result] or [decide] that blocks the goal or
    a hypothesis. *)
Ltac case_res :=
  match goal with
  | H : context [match ?m with Ok _ => _ | Fault _ => _ end] |- _ =>
      let E := fresh "E" in destruct m eqn:E
  | |- context [match ?m with Ok _ => _ | Fault _ => _ end] =>
      let E := fresh "E" in destruct m eqn:E
  end.

Ltac res_simpl :=
  repeat match goal with
  | H : Ok _ = Ok _ |- _ => injection H as H
  | H : Fault _ = Ok _ |- _ => discriminate H
  | H : Ok _ = Fault _ |- _ => discriminate H
  | H : is_Ok (Fault _) |- _ => destruct H as [? H]; discriminate H
  | |- is_Ok (Ok _) => eexists; reflexivity
  end.

Create HintDb ufo discriminated.

(** ** Lemmas on results *)

Section result_lemmas.
Context {A B : Type}.
Implicit Types (m : result A) (f : A → result B).

Lemma bind_Ok m f b : m ≫= f = Ok b ↔ ∃ a, m = Ok a ∧ f a = Ok b.
Proof.
  destruct m as [a|e]; simpl; split.
  - eauto.
  - by intros (? & [= ->] & ?).
  - done.
  - by intros (? & ? & ?).
Qed.

Lemma bind_Ok_l m f a : m = Ok a → m ≫= f = f a.
Proof. by intros ->. Qed.

(** Binds of one computation with continuations that agree. *)
Lemma mbind_ext m f g : (∀ a, f a = g a) → m ≫= f = m ≫= g.
Proof. intros H. destruct m; simpl; auto. Qed.

Lemma bind_is_Ok m f : is_Ok (m ≫= f) ↔ ∃ a, m = Ok a ∧ is_Ok (f a).
Proof.
  unfold is_Ok. split.
  - intros [b (a & ? & ?)%bind_Ok]. eauto.
  - intros (a & -> & b & ?). eauto.
Qed.

Lemma is_Ok_Ok (a : A) : is_Ok (Ok a).
Proof. by exists a. Qed.

Lemma is_Ok_Fault (e : fault) : ¬ is_Ok (@Fault A e).
Proof. by intros [? ?]. Qed.

Lemma is_Okb_spec m : is_Okb m = true ↔ is_Ok m.
Proof. destruct m; simpl; split; try done; [by eexists | by intros [? ?]]. Qed.

End result_lemmas.

#[export] Hint Resolve is_Ok_Ok : ufo.

(** ** Results up to a relation *)

(** Two computations fault alike or return values related by [R]. *)
Definition res_rel {A} (R : relation A) : relation (result A) :=
  λ m m', match m, m' with
          | Ok a, Ok a' => R a a'
          | Fault e, Fault e' => e = e'
          | _, _ => False
          end.

#[global] Instance res_rel_refl {A} (R : relation A) `{!Reflexive R} : Reflexive (res_rel R).
Proof. intros [a|e]; simpl; done. Qed.

#[global] Instance res_rel_sym {A} (R : relation A) `{!Symmetric R} : Symmetric (res_rel R).
Proof. intros [a|e] [a'|e'] H; simpl in *; first [done|by symmetry]. Qed.

#[global] Instance res_rel_trans {A} (R : relation A) `{!Transitive R} :
  Transitive (res_rel R).
Proof.
  intros [a|e] [a'|e'] [a''|e''] H H'; simpl in *; first [done|by etrans|congruence].
Qed.

#[global] Instance res_rel_equiv {A} (R : relation A) `{!Equivalence R} :
  Equivalence (res_rel R).
Proof. split; apply _. Qed.

(** A bind respects [res_rel] when its continuation does. *)
#[global] Instance mbind_res_rel {A B} (R : relation A) (S : relation B) :
  Proper ((R ==> res_rel S) ==> res_rel R ==> res_rel S) (mbind (M := result)).
Proof.
  intros f g Hfg [a|e] [a'|e'] Hm; simpl in *; try done. by apply Hfg.
Qed.

(** The form in which a proof applies it to a goal. *)
Lemma res_rel_bind {A B} (R : relation A) (S : relation B) (m m' : result A)
    (f g : A → result B) :
  res_rel R m m' → (∀ a a', R a a' → res_rel S (f a) (g a')) →
  res_rel S (m ≫= f) (m' ≫= g).
Proof. intros Hm Hfg. by apply (mbind_res_rel R S). Qed.

(** A loop respects [res_rel] when its body does. *)
#[global] Instance foldM_res_rel {A St} (R : relation St) :
  Proper (pointwise_relation A (R ==> res_rel R) ==> eq ==> R ==> res_rel R) foldM.
Proof.
  intros f g Hfg l ? <-. induction l as [|x l IH]; intros s s' Hs; simpl; [done|].
  eapply res_rel_bind; [by apply Hfg|]. apply IH.
Qed.

(** Reads of vectors of one size fault alike. *)
Lemma vec_get_same_length {A} (v v' : list A) i :
  length v = length v' → res_rel (λ _ _, True) (vec_get v i) (vec_get v' i).
Proof.
  intros Hlen. unfold vec_get. case_decide; [|done].
  destruct (v !! Z.to_nat i) eqn:Hv, (v' !! Z.to_nat i) eqn:Hv'; simpl; try done.
  - apply lookup_lt_Some in Hv. apply lookup_ge_None in Hv'. lia.
  - apply lookup_lt_Some in Hv'. apply lookup_ge_None in Hv. lia.
Qed.

(** Two computations return values related by [R] if both return:
    the relation between runs of which one may fault where the other
    does not. *)
Definition res_sim {A} (R : relation A) : relation (result A) :=
  λ m m', match m, m' with Ok a, Ok a' => R a a' | _, _ => True end.

Lemma res_sim_Ok {A} (R : relation A) (m m' : result A) a a' :
  res_sim R m m' → m = Ok a → m' = Ok a' → R a a'.
Proof. by intros H -> ->. Qed.

Lemma res_sim_True {A} (m m' : result A) : res_sim (λ _ _, True) m m'.
Proof. by destruct m, m'. Qed.

Lemma res_sim_bind {A B} (R : relation A) (S : relation B) (m m' : result A)
    (f g : A → result B) :
  res_sim R m m' → (∀ a a', R a a' → res_sim S (f a) (g a')) →
  res_sim S (m ≫= f) (m' ≫= g).
Proof. destruct m, m'; simpl; auto; intros _ _; by destruct (f _). Qed.

#[global] Instance foldM_res_sim {A St} (R : relation St) :
  Proper (pointwise_relation A (R ==> res_sim R) ==> eq ==> R ==> res_sim R) foldM.
Proof.
  intros f g Hfg l ? <-. induction l as [|x l IH]; intros s s' Hs; simpl; [done|].
  eapply res_sim_bind; [by apply Hfg|]. apply IH.
Qed.

(** Takes the two sides of a goal that relates two computations through
    the steps they share. *)
Ltac both :=
  repeat (simpl; match goal with
    | |- _ (mbind _ ?m) (mbind _ ?m) => destruct m
    | |- _ (match ?m with _ => _ end) (match ?m with _ => _ end) => destruct m
    end); simpl; try done.

(** Names the fields of two records related by a record of equations
    and identifies the fields that are equal. *)
Ltac same_fields H :=
  match type of H with
  | _ ?st ?st' => destruct st, st'; destruct H; simpl in *; subst
  end.

(** Inversion of a bind that returned: names the intermediate value. *)
Ltac inv_bind H :=
  let a := fresh "a" in
  let Ha := fresh "H" a in
  apply bind_Ok in H as (a & Ha & H).

(** One step through a computation that returned: names the value of
    the first bind, or discards the branch of the first test when
    returning there contradicts the context. *)
Ltac peel H :=
  match type of H with
  | (_ ≫= _) = Ok _ => inv_bind H
  | (if ?b then _ else _) = Ok _ => destruct b eqn:?; [by injection H as <-|]
  end.

(** ** Loops *)

Section foldM_lemmas.
Context {A S : Type}.
Implicit Types (body : A → S → result S) (l : list A) (s : S).

Lemma foldM_app body l1 l2 s :
  foldM body (l1 ++ l2) s = foldM body l1 s ≫= foldM body l2.
Proof.
  revert s. induction l1 as [|a l1 IH]; intros s; simpl; [done|].
  destruct (body a s); simpl; auto.
Qed.

(** Invariant rule: a property preserved by every iteration that returns
    holds of the loop's result. *)
Lemma foldM_invariant (P : S → Prop) body l s s' :
  (∀ a t t', a ∈ l → P t → body a t = Ok t' → P t') →
  P s → foldM body l s = Ok s' → P s'.
Proof.
  revert s. induction l as [|a l IH]; intros s Hbody Hs; simpl.
  - by intros [= <-].
  - intros (t & Ht & Hl)%bind_Ok. apply (IH t); auto.
    + intros b u u' Hb. apply Hbody. by right.
    + apply (Hbody a s t); auto. by left.
Qed.

(** Two bodies that agree on the states of an invariant give the same
    loop. *)
Lemma foldM_ext_inv (P : S → Prop) body body' l s :
  (∀ a t, P t → body' a t = body a t) →
  (∀ a t t', P t → body a t = Ok t' → P t') →
  P s → foldM body' l s = foldM body l s.
Proof.
  intros Heq Hinv. revert s. induction l as [|a l IH]; intros s Hs; simpl; [done|].
  rewrite Heq by done. destruct (body a s) as [t|e] eqn:Ht; simpl; eauto.
Qed.

(** Relational variant, indexed by the number of iterations done. *)
Lemma foldM_invariant_idx (P : nat → S → Prop) body l s s' :
  (∀ i a t t', l !! i = Some a → P i t → body a t = Ok t' → P (Datatypes.S i) t') →
  P 0%nat s → foldM body l s = Ok s' → P (length l) s'.
Proof.
  revert P s. induction l as [|a l IH]; intros P s Hbody Hs; simpl.
  - by intros [= <-].
  - intros (t & Ht & Hl)%bind_Ok.
    apply (IH (λ i, P (Datatypes.S i)) t); [|by apply (Hbody 0%nat a s t)|done].
    intros i b u u' Hb. by apply (Hbody (Datatypes.S i)).
Qed.

(** Progress rule: if every iteration returns from a state satisfying the
    invariant, the loop returns. *)
Lemma foldM_is_Ok (P : nat → S → Prop) body l s :
  (∀ i a t, l !! i = Some a → P i t →
     ∃ t', body a t = Ok t' ∧ P (Datatypes.S i) t') →
  P 0%nat s → ∃ s', foldM body l s = Ok s' ∧ P (length l) s'.
Proof.
  revert P s. induction l as [|a l IH]; intros P s Hbody Hs; simpl.
  - eauto.
  - destruct (Hbody 0%nat a s) as (t & -> & Ht); auto. simpl.
    apply (IH (λ i, P (Datatypes.S i)) t); [|done].
    intros i b u Hb. by apply (Hbody (Datatypes.S i)).
Qed.

End foldM_lemmas.

Section mapM_lemmas.
Context {A B : Type}.
Implicit Types (f g : A → result B) (l : list A).

Lemma omap_cons_option_list {D E} (h : D → option E) d ds :
  omap h (d :: ds) = option_list (h d) ++ omap h ds.
Proof. simpl. by destruct (h d). Qed.

Lemma mapM_ext f g l :(∀ a, a ∈ l → f a = g a) → mapM f l = mapM g l.
Proof.
  induction l as [|a l IH]; intros Hfg; simpl; [done|].
  rewrite (Hfg a) by left. rewrite IH; [done|]. intros b Hb. apply Hfg. by right.
Qed.

Lemma mapM_length f l bs : mapM f l = Ok bs → length bs = length l.
Proof.
  revert bs. induction l as [|a l IH]; intros bs; simpl.
  - by intros [= <-].
  - intros (b & _ & (bs' & Hbs' & [= <-])%bind_Ok)%bind_Ok. simpl. f_equal. auto.
Qed.

Lemma mapM_lookup f l bs (i : nat) a :
  mapM f l = Ok bs → l !! i = Some a → ∃ b, bs !! i = Some b ∧ f a = Ok b.
Proof.
  revert bs i. induction l as [|a' l IH]; intros bs i; simpl; [done|].
  intros (b & Hb & (bs' & Hbs' & [= <-])%bind_Ok)%bind_Ok.
  destruct i as [|i]; simpl.
  - intros [= ->]. eauto.
  - eauto.
Qed.

Lemma mapM_cons_Ok f a l bs :
  mapM f (a :: l) = Ok bs ↔ ∃ b bs', f a = Ok b ∧ mapM f l = Ok bs' ∧ bs = b :: bs'.
Proof.
  simpl. rewrite bind_Ok. split.
  - intros (b & Hb & (bs' & Hbs' & [= <-])%bind_Ok). eauto.
  - intros (b & bs' & Hb & Hbs' & ->). exists b. split; [done|]. by rewrite Hbs'.
Qed.

(** Whether every element maps to a value does not depend on the order,
    and the values are those of the elements. *)
Lemma mapM_Permutation f l l' bs :
  l ≡ₚ l' → mapM f l = Ok bs → ∃ bs', mapM f l' = Ok bs' ∧ bs ≡ₚ bs'.
Proof.
  intros Hp. revert bs. induction Hp as [|a l l' _ IH|a a' l|l l' l'' _ IH1 _ IH2]; intros bs.
  - intros [= <-]. by exists [].
  - intros (b & bs' & Hb & (cs & Hcs & Hp)%IH & ->)%mapM_cons_Ok.
    exists (b :: cs). split; [|by constructor]. apply mapM_cons_Ok. eauto.
  - intros (b & ? & Hb & (b' & bs' & Hb' & Hbs' & ->)%mapM_cons_Ok & ->)%mapM_cons_Ok.
    exists (b' :: b :: bs'). split; [|by constructor].
    apply mapM_cons_Ok. do 2 eexists. split; [done|]. split; [|done].
    apply mapM_cons_Ok. eauto.
  - intros (cs & Hcs & Hp1)%IH1. apply IH2 in Hcs as (ds & Hds & Hp2).
    exists ds. split; [done|by etrans].
Qed.

End mapM_lemmas.

(** ** Lemmas on vectors *)

Section vec_lemmas.
Context {A : Type}.
Implicit Types (v : list A) (i j : Z) (x : A).

Lemma vec_get_Ok v i x :
  vec_get v i = Ok x ↔ 0 ≤ i ∧ v !! Z.to_nat i = Some x.
Proof.
  unfold vec_get. case_decide; [|split; [done|lia]].
  destruct (v !! Z.to_nat i); split; try done.
  - by intros [= ->].
  - by intros [_ [= ->]].
  - by intros [_ ?].
Qed.

Lemma vec_get_is_Ok v i : is_Ok (vec_get v i) ↔ 0 ≤ i < Z.of_nat (length v).
Proof.
  unfold is_Ok. setoid_rewrite vec_get_Ok. split.
  - intros (x & ? & Hx%lookup_lt_Some). lia.
  - intros [? ?]. destruct (lookup_lt_is_Some_2 v (Z.to_nat i)) as [x Hx]; [lia|eauto].
Qed.

Lemma vec_get_bound v i x : vec_get v i = Ok x → 0 ≤ i < Z.of_nat (length v).
Proof. intros H. apply vec_get_is_Ok. by exists x. Qed.

Lemma vec_set_Ok v i x v' :
  vec_set v i x = Ok v' ↔ 0 ≤ i < Z.of_nat (length v) ∧ v' = <[Z.to_nat i := x]> v.
Proof. unfold vec_set. case_decide; naive_solver. Qed.

Lemma vec_set_is_Ok v i x : is_Ok (vec_set v i x) ↔ 0 ≤ i < Z.of_nat (length v).
Proof. unfold is_Ok. setoid_rewrite vec_set_Ok. naive_solver. Qed.

Lemma vec_set_length v i x v' : vec_set v i x = Ok v' → length v' = length v.
Proof. intros [_ ->]%vec_set_Ok. apply length_insert. Qed.

Lemma vec_get_set_eq v i x v' : vec_set v i x = Ok v' → vec_get v' i = Ok x.
Proof.
  intros [Hi ->]%vec_set_Ok. apply vec_get_Ok. split; [lia|].
  apply list_lookup_insert_eq. lia.
Qed.

Lemma vec_get_set_ne v i j x v' :
  vec_set v i x = Ok v' → i ≠ j → vec_get v' j = vec_get v j.
Proof.
  intros [Hi ->]%vec_set_Ok Hne. unfold vec_get. case_decide; [|done].
  rewrite list_lookup_insert_ne; [done|lia].
Qed.

Lemma vec_set_lookup v i x v' (k : nat) :
  vec_set v i x = Ok v' →
  v' !! k = if decide (k = Z.to_nat i) then Some x else v !! k.
Proof.
  intros [Hi ->]%vec_set_Ok. case_decide as Hk.
  - subst k. apply list_lookup_insert_eq. lia.
  - by apply list_lookup_insert_ne.
Qed.

Lemma vec_assign_Ok n x v :
  vec_assign n x = Ok v ↔ 0 ≤ n ∧ v = replicate (Z.to_nat n) x.
Proof. unfold vec_assign. case_decide; naive_solver. Qed.

Lemma vec_assign_length n x v : vec_assign n x = Ok v → Z.of_nat (length v) = n.
Proof. intros [? ->]%vec_assign_Ok. rewrite length_replicate. lia. Qed.

Lemma vec_get_at `{!Inhabited A} v i x : vec_get v i = Ok x → vec_at v i = x.
Proof. intros [_ H]%vec_get_Ok. by apply list_lookup_total_correct. Qed.

End vec_lemmas.

(** ** Lemmas on [int] *)

Lemma int_incr_Ok z z' : int_incr z = Ok z' ↔ z < INT_MAX ∧ z' = z + 1.
Proof. unfold int_incr. case_decide; naive_solver. Qed.

Lemma int_incr_range z z' : int_range z → int_incr z = Ok z' → int_range z'.
Proof. unfold int_range. intros ? [? ->]%int_incr_Ok. lia. Qed.

(** [|] and [&] of two [int]s are [int]s: an [int] is a [Z] whose bits
    from position 31 on are all equal, and the two's complement bit
    operations of [Z] keep that. *)
Lemma int_range_shiftr z : int_range z ↔ Z.shiftr z 31 = 0 ∨ Z.shiftr z 31 = -1.
Proof.
  unfold int_range, INT_MIN, INT_MAX. rewrite Z.shiftr_div_pow2 by lia.
  change (2 ^ 31) with 2147483648.
  pose proof (Z.div_mod z 2147483648 ltac:(lia)).
  pose proof (Z.mod_pos_bound z 2147483648 ltac:(lia)).
  lia.
Qed.

Lemma int_range_lor a b : int_range a → int_range b → int_range (Z.lor a b).
Proof.
  rewrite !int_range_shiftr, Z.shiftr_lor. intros [-> | ->] [-> | ->]; auto.
Qed.

Lemma int_range_land a b : int_range a → int_range b → int_range (Z.land a b).
Proof.
  rewrite !int_range_shiftr, Z.shiftr_land. intros [-> | ->] [-> | ->]; auto.
Qed.

#[export] Hint Resolve int_range_lor int_range_land int_incr_range : ufo.

(** ** Sorted lists *)

(** In a strongly sorted list the relation holds between the entries at
    two increasing positions. *)
Lemma StronglySorted_lookup {A} (R : relation A) (l : list A) i j x y :
  StronglySorted R l → l !! i = Some x → l !! j = Some y → (i < j)%nat → R x y.
Proof.
  intros Hs Hi Hj Hij. rewrite <-(take_drop j l) in Hs.
  eapply StronglySorted_app_1_elem_of; [done| |]; apply list_elem_of_lookup.
  - exists i. by rewrite lookup_take_lt.
  - exists 0%nat. by rewrite lookup_drop, Nat.add_0_r.
Qed.

(** ** Checks over a range of integers *)

(** A boolean test evaluated on every integer of a range holds of each. *)
Lemma forallb_seqZ (f : Z → bool) (a n z : Z) :
  forallb f (seqZ a n) = true → a ≤ z < a + n → f z = true.
Proof.
  rewrite forallb_forall. intros H Hz. apply H, list_elem_of_In, elem_of_seqZ. lia.
Qed.
