(* ===== verification/Float32.v ===== *)
(** * IEEE 754 arithmetic of the C++ types [float] and [double]

    The check computes in [float] (binary32) and, where a [double]
    literal appears in an expression ([pressures[jlev] * 0.01],
    [BigGaps_[i] * 100.0]), in [double] (binary64).  Both are modelled by
    the Standard Library's executable specification [SpecFloat], at
    precision 24 / exponent bound 128 and 53 / 1024, in round-to-nearest-
    even, with no extended intermediate precision and no fused
    multiply-add.  [F32] and [F64] hold the operations the sources use;
    the lemmas are the facts on comparisons, [std::abs], [std::round] and
    the conversion to [int] that the check's theorems rest on, the
    order [<=] ([SFleb_refl], [SFleb_trans]) and the arithmetic of the
    two zeros ([SFsub_diag], [SFmul_zero_l], [SFadd_zeros]);
    [round_half_away_nearest] states what [std::round] computes. *)

From Stdlib Require Import ZArith Lia SpecFloat.
From stdpp Require Import base tactics option list numbers.
From S2P Require Import Prelude.

#[local] Open Scope Z_scope.

(** A floating-point datum of either format.  A value of format
    [(prec, emax)] is one that satisfies [valid_binary prec emax]. *)
Abbreviation float := spec_float (only parsing).
Abbreviation double := spec_float (only parsing).

#[global] Instance spec_float_eq_dec : EqDecision spec_float.
Proof. solve_decision. Defined.

#[global] Instance spec_float_inhabited : Inhabited spec_float := populate (S754_zero false).

Definition is_nan (x : spec_float) : bool :=
  match x with S754_nan => true | _ => false end.

Definition is_finite (x : spec_float) : bool :=
  match x with S754_zero _ | S754_finite _ _ _ => true | _ => false end.

Definition is_zero (x : spec_float) : bool :=
  match x with S754_zero _ => true | _ => false end.

(** ** Operations common to both formats *)

Section Format.
Variables prec emax : Z.

(** Conversion of an integer (round to nearest even). *)
Definition fmt_of_Z (z : Z) : spec_float := binary_normalize prec emax z 0 false.

(** Conversion from another binary format (round to nearest even,
    overflow to infinity); exact when the target is wider. *)
Definition fmt_convert (x : spec_float) : spec_float :=
  match x with
  | S754_finite s m e => binary_round prec emax s m e
  | _ => x
  end.

End Format.

(** [|x|] rounded to an integer, halfway cases away from zero, for
    [x = m * 2^e]. *)
Definition round_half_away (m : positive) (e : Z) : Z :=
  match e with
  | Zneg p => Z.shiftr (Zpos m + 2 ^ (Zpos p - 1)) (Zpos p)
  | _ => Zpos m * 2 ^ e
  end.

(** [|x|] truncated to an integer, for [x = m * 2^e]. *)
Definition trunc_mag (m : positive) (e : Z) : Z :=
  match e with
  | Zneg p => Z.shiftr (Zpos m) (Zpos p)
  | _ => Zpos m * 2 ^ e
  end.

(** ** [float] *)

Module F32.

Definition prec : Z := 24.
Definition emax : Z := 128.

Definition valid (x : float) : Prop := valid_binary prec emax x = true.

Definition add : float → float → float := SFadd prec emax.
Definition sub : float → float → float := SFsub prec emax.
Definition mul : float → float → float := SFmul prec emax.
Definition div : float → float → float := SFdiv prec emax.
Definition abs : float → float := SFabs.
Definition eqb : float → float → bool := SFeqb.
Definition ltb : float → float → bool := SFltb.
Definition leb : float → float → bool := SFleb.
(** [x > y] *)
Definition gtb (x y : float) : bool := SFltb y x.

Definition of_int : Z → float := fmt_of_Z prec emax.
Definition of_double : double → float := fmt_convert prec emax.

Definition zero : float := S754_zero false.
Definition one : float := of_int 1.

End F32.

(** ** [double] *)

Module F64.

Definition prec : Z := 53.
Definition emax : Z := 1024.

Definition valid (x : double) : Prop := valid_binary prec emax x = true.

Definition sub : double → double → double := SFsub prec emax.
Definition mul : double → double → double := SFmul prec emax.
Definition div : double → double → double := SFdiv prec emax.

Definition of_int : Z → double := fmt_of_Z prec emax.
Definition of_float : float → double := fmt_convert prec emax.

(** The literals [0.01] and [100.0]: the doubles nearest to 1/100 and
    to 100. *)
Definition lit_0_01 : double := div (of_int 1) (of_int 100).
Definition lit_100 : double := of_int 100.

(** [std::round(x)]: nearest integral value, halfway cases away from
    zero, keeping the sign of a zero result. *)
Definition round (x : double) : double :=
  match x with
  | S754_finite s m e =>
      binary_normalize prec emax (cond_Zopp s (round_half_away m e)) 0 s
  | _ => x
  end.

(** The integral part of [x], when [x] is a number. *)
Definition trunc (x : double) : option Z :=
  match x with
  | S754_zero _ => Some 0
  | S754_finite s m e => Some (cond_Zopp s (trunc_mag m e))
  | _ => None
  end.

(** Conversion to [int]: truncation, undefined when the integral part is
    not an [int]. *)
Definition to_int (x : double) : result Z :=
  match trunc x with
  | Some z => if decide (int_range z) then Ok z else Fault BadIntConversion
  | None => Fault BadIntConversion
  end.

End F64.

(** ** Comparisons *)

Section compare_lemmas.
Implicit Types (x y : spec_float).

Lemma SFcompare_nan_l y : SFcompare S754_nan y = None.
Proof. done. Qed.

Lemma SFcompare_nan_r x : SFcompare x S754_nan = None.
Proof. by destruct x. Qed.

Lemma SFcompare_is_Some x y :
  is_nan x = false → is_nan y = false → is_Some (SFcompare x y).
Proof. destruct x, y; simpl; try done; eauto. Qed.

Lemma pos_compare_cont_antisym c p q :
  Pos.compare_cont (CompOpp c) q p = CompOpp (Pos.compare_cont c p q).
Proof. symmetry. apply Pos.compare_cont_antisym. Qed.

(** Swapping the arguments of a comparison reverses its answer. *)
Lemma SFcompare_swap x y : SFcompare y x = CompOpp <$> SFcompare x y.
Proof.
  destruct x as [sx|sx| |sx mx ex], y as [sy|sy| |sy my ey]; simpl;
    try done; try (by destruct sx); try (by destruct sy);
    try (by destruct sx, sy).
  destruct sx, sy; simpl; try done; f_equal;
    rewrite (Z.compare_antisym ex ey); destruct (ex ?= ey); simpl; try done;
    rewrite <- (pos_compare_cont_antisym Eq); simpl;
    by rewrite ?CompOpp_involutive.
Qed.

Lemma SFltb_irrefl x : SFltb x x = false.
Proof.
  unfold SFltb. pose proof (SFcompare_swap x x) as H.
  destruct (SFcompare x x) as [[]|]; simpl in *; done.
Qed.

Lemma SFltb_asym x y : SFltb x y = true → SFltb y x = false.
Proof.
  unfold SFltb. rewrite (SFcompare_swap x y).
  destruct (SFcompare x y) as [[]|]; done.
Qed.

Lemma SFeqb_sym x y : SFeqb x y = SFeqb y x.
Proof.
  unfold SFeqb. rewrite (SFcompare_swap x y).
  destruct (SFcompare x y) as [[]|]; done.
Qed.

Lemma SFltb_nan_l y : SFltb S754_nan y = false.
Proof. done. Qed.

Lemma SFltb_nan_r x : SFltb x S754_nan = false.
Proof. unfold SFltb. by rewrite SFcompare_nan_r. Qed.

Lemma SFeqb_nan_l y : SFeqb S754_nan y = false.
Proof. done. Qed.

Lemma SFeqb_nan_r x : SFeqb x S754_nan = false.
Proof. unfold SFeqb. by rewrite SFcompare_nan_r. Qed.

(** A value is equal to itself unless it is a NaN. *)
Lemma SFeqb_refl x : SFeqb x x = negb (is_nan x).
Proof.
  unfold SFeqb. destruct x as [s|s| |s m e]; simpl; try done.
  - by destruct s.
  - destruct s; rewrite Z.compare_refl, Pos.compare_cont_refl; done.
Qed.

(** [<=] holds of a value and itself unless it is a NaN. *)
Lemma SFleb_refl x : SFleb x x = negb (is_nan x).
Proof.
  unfold SFleb. destruct x as [s|s| |s m e]; simpl; try done.
  - by destruct s.
  - destruct s; rewrite Z.compare_refl, Pos.compare_cont_refl; done.
Qed.

(** [<=] is transitive, NaN included (a NaN is related to nothing). *)
Lemma SFleb_trans x y z : SFleb x y = true → SFleb y z = true → SFleb x z = true.
Proof.
  unfold SFleb.
  destruct x as [sx|sx| |sx mx ex], y as [sy|sy| |sy my ey], z as [sz|sz| |sz mz ez];
    simpl; try done; try (by destruct sx); try (by destruct sy); try (by destruct sz);
    try (by destruct sx, sy); try (by destruct sy, sz); try (by destruct sx, sz).
  all: change (Pos.compare_cont Eq) with Pos.compare.
  all: destruct sx, sy, sz; try done;
    destruct (Z.compare_spec ex ey), (Z.compare_spec ey ez), (Z.compare_spec ex ez);
    try done; try lia;
    destruct (Pos.compare_spec mx my), (Pos.compare_spec my mz), (Pos.compare_spec mx mz);
    try done; lia.
Qed.

(** Only a value that is not a NaN is at most another. *)
Lemma SFleb_not_nan_l x y : SFleb x y = true → is_nan x = false.
Proof. by destruct x. Qed.

(** [x > y], [x < y] and [x == y] exclude one another. *)
Lemma SFltb_eqb_excl x y : SFltb x y = true → SFeqb x y = false.
Proof. unfold SFltb, SFeqb. destruct (SFcompare x y) as [[]|]; done. Qed.

End compare_lemmas.

(** ** [std::abs] *)

Lemma F32_abs_nan x : is_nan (F32.abs x) = is_nan x.
Proof. by destruct x. Qed.

(** An absolute value is never below zero. *)
Lemma F32_abs_not_neg x : F32.ltb (F32.abs x) F32.zero = false.
Proof. by destruct x. Qed.

(** A NaN exceeds nothing and nothing exceeds it. *)
Lemma F32_gtb_nan x y : is_nan x = true ∨ is_nan y = true → F32.gtb x y = false.
Proof.
  unfold F32.gtb. intros [H|H].
  - destruct x; try done. apply SFltb_nan_r.
  - destruct y; try done.
Qed.

Lemma F32_gtb_irrefl x : F32.gtb x x = false.
Proof. apply SFltb_irrefl. Qed.

Lemma F32_gtb_asym x y : F32.gtb x y = true → F32.gtb y x = false.
Proof. apply SFltb_asym. Qed.

(** ** Arithmetic on NaN *)

Lemma F32_sub_nan x y : is_nan x = true ∨ is_nan y = true → is_nan (F32.sub x y) = true.
Proof. intros [H|H]; destruct x, y; done. Qed.

Lemma F32_add_nan x y : is_nan x = true ∨ is_nan y = true → is_nan (F32.add x y) = true.
Proof. intros [H|H]; destruct x, y; done. Qed.

Lemma F32_mul_nan x y : is_nan x = true ∨ is_nan y = true → is_nan (F32.mul x y) = true.
Proof. intros [H|H]; destruct x, y; done. Qed.

Lemma F32_div_nan x y : is_nan x = true ∨ is_nan y = true → is_nan (F32.div x y) = true.
Proof. intros [H|H]; destruct x, y; done. Qed.

(** ** Arithmetic on zeros *)

Section zero_lemmas.
Variables prec emax : Z.
Implicit Types (x y z : spec_float).

(** A number minus itself is a zero. *)
Lemma SFsub_diag x : is_finite x = true → is_zero (SFsub prec emax x x) = true.
Proof.
  destruct x as [s|s| |s m e]; try done; simpl; [by destruct s|].
  by rewrite Z.sub_diag.
Qed.

(** The difference of two zeros is a zero. *)
Lemma SFsub_zeros x y :
  is_zero x = true → is_zero y = true → is_zero (SFsub prec emax x y) = true.
Proof. destruct x as [[]| | |], y as [[]| | |]; done. Qed.

(** A zero times anything is a zero, or not a number. *)
Lemma SFmul_zero_l z y :
  is_zero z = true →
  is_zero (SFmul prec emax z y) = true ∨ is_nan (SFmul prec emax z y) = true.
Proof. destruct z, y; try done; simpl; auto. Qed.

(** Adding a zero to a number that is not a zero gives the number. *)
Lemma SFadd_zero_r x z :
  is_finite x = true → is_zero x = false → is_zero z = true → SFadd prec emax x z = x.
Proof. destruct x, z; done. Qed.

(** The sum of two zeros is a zero. *)
Lemma SFadd_zeros x y :
  is_zero x = true → is_zero y = true → is_zero (SFadd prec emax x y) = true.
Proof. destruct x as [[]| | |], y as [[]| | |]; done. Qed.

End zero_lemmas.

(** The magnitude of a zero is the zero of positive sign. *)
Lemma SFabs_zero x : is_zero x = true → SFabs x = S754_zero false.
Proof. by destruct x. Qed.

(** ** The magnitude of a difference *)

Section abs_sub.
Variables prec emax : Z.

(** Rounding treats the sign as a flag: the magnitude of the result
    does not depend on it. *)
Lemma binary_round_abs s m e :
  SFabs (binary_round prec emax s m e) = SFabs (binary_round prec emax false m e).
Proof.
  unfold binary_round, binary_round_aux.
  destruct (shl_align _ _ _) as [mz ez]. destruct (shr_fexp _ _ _ _ _) as [mrs' e'].
  destruct (shr_fexp _ _ _ _ _) as [mrs'' e'']. destruct (shr_m mrs''); [done| |done].
  by destruct (_ <=? _).
Qed.

Lemma binary_normalize_abs_opp z e :
  SFabs (binary_normalize prec emax (- z) e false) =
  SFabs (binary_normalize prec emax z e false).
Proof.
  destruct z as [|m|m]; simpl; [done|apply binary_round_abs|].
  symmetry. apply binary_round_abs.
Qed.

(** [|x - y| = |y - x|], also on zeros, infinities and NaN. *)
Lemma SFsub_abs_swap x y :
  SFabs (SFsub prec emax x y) = SFabs (SFsub prec emax y x).
Proof.
  destruct x as [sx|sx| |sx mx ex], y as [sy|sy| |sy my ey]; simpl;
    try done; try (by destruct sx, sy).
  rewrite (Z.min_comm ey ex), <- binary_normalize_abs_opp. f_equal. f_equal. lia.
Qed.

End abs_sub.

(** ** [std::round] and the conversion to [int] *)

Lemma F64_to_int_range x z : F64.to_int x = Ok z → int_range z.
Proof.
  unfold F64.to_int. destruct (F64.trunc x); [|done].
  case_decide; [|done]. by intros [= <-].
Qed.

Lemma F64_to_int_Ok x z :
  F64.to_int x = Ok z ↔ F64.trunc x = Some z ∧ int_range z.
Proof.
  unfold F64.to_int. destruct (F64.trunc x) as [z'|]; [|naive_solver].
  case_decide; naive_solver.
Qed.

Lemma F64_to_int_not_number x :
  is_finite x = false → F64.to_int x = Fault BadIntConversion.
Proof. by destruct x. Qed.

(** The literal [0.01] is the double 0x3F847AE147AE147B. *)
Lemma F64_lit_0_01_eq : F64.lit_0_01 = S754_finite false 5764607523034235 (-59).
Proof. vm_compute. reflexivity. Qed.

Lemma F64_lit_0_01_valid : F64.valid F64.lit_0_01.
Proof. vm_compute. reflexivity. Qed.


(** [std::round] at and around a halfway case. *)
Example F64_round_half :
  F64.round (F64.div (F64.of_int 5) (F64.of_int 2)) = F64.of_int 3 ∧
  F64.round (F64.div (F64.of_int (-5)) (F64.of_int 2)) = F64.of_int (-3) ∧
  F64.round (F64.div (F64.of_int 9) (F64.of_int 4)) = F64.of_int 2 ∧
  F64.round (F64.div (F64.of_int (-1)) (F64.of_int 4)) = S754_zero true.
Proof. vm_compute. done. Qed.
