(* ===== verification/StdLevels.v ===== *)
(** * The standard-level classification consumed by the interpolation check

    [ProfileCheckInterpolation] inherits from [ProfileStandardLevels],
    whose method [calcStdLevels] fills the members [NumStd_], [NumSig_],
    [StdLev_], [SigBelow_], [SigAbove_], [IndStd_] and [LogP_] that
    [runCheck] then reads.  That class is not part of the sources here, so
    it enters the development as an interface: the record [StdLevels] of
    its members, the operations class [Classifier], and the laws class
    [ClassifierOk] stating the output contract the check relies on
    ([classified]).  [table_calc] is the instance that answers from a
    fixed table; it discharges the laws and is used to run the check on
    concrete profiles. *)

From Stdlib Require Import ZArith Lia SpecFloat.
From stdpp Require Import base tactics option list numbers.
From S2P Require Import Prelude Float32.

#[local] Open Scope Z_scope.

(** The members of [ProfileStandardLevels]. *)
Record StdLevels : Type := mkStdLevels {
  StandardLevels_ : list float;  (* standard levels (hPa), from the options *)
  BigGaps_ : list float;         (* big gaps (hPa), from the options *)
  NumSig_ : Z;                   (* number of significant levels *)
  NumStd_ : Z;                   (* number of standard levels *)
  StdLev_ : list Z;              (* indices of the standard levels *)
  SigBelow_ : list Z;            (* significant level below each standard level *)
  SigAbove_ : list Z;            (* significant level above each standard level *)
  LogP_ : list float;            (* log(pressure) of every level *)
  IndStd_ : list Z               (* standard-level index of every level *)
}.

#[global] Instance StdLevels_eq_dec : EqDecision StdLevels.
Proof. solve_decision. Defined.

(** A bracket index: a level below [n], or the sentinel -1. *)
Definition bracket_ok (n b : Z) : Prop := b = -1 ∨ 0 ≤ b < n.

#[global] Instance bracket_ok_dec n b : Decision (bracket_ok n b).
Proof. unfold bracket_ok. apply _. Defined.

(** The output contract of [calcStdLevels] for a profile of [n] levels:
    every array has [n] entries, there are at most [n] standard levels,
    and the first [NumStd_] entries of [StdLev_], [SigBelow_] and
    [SigAbove_] are level indices (or, for the brackets, -1). *)
Record classified (n : Z) (sl : StdLevels) : Prop := mkClassified {
  cl_NumStd : 0 ≤ NumStd_ sl ≤ n;
  cl_StdLev_len : Z.of_nat (length (StdLev_ sl)) = n;
  cl_SigBelow_len : Z.of_nat (length (SigBelow_ sl)) = n;
  cl_SigAbove_len : Z.of_nat (length (SigAbove_ sl)) = n;
  cl_LogP_len : Z.of_nat (length (LogP_ sl)) = n;
  cl_StdLev : ∀ (j : nat) lev,
    Z.of_nat j < NumStd_ sl → StdLev_ sl !! j = Some lev → 0 ≤ lev < n;
  cl_SigBelow : ∀ (j : nat) b,
    Z.of_nat j < NumStd_ sl → SigBelow_ sl !! j = Some b → bracket_ok n b;
  cl_SigAbove : ∀ (j : nat) a,
    Z.of_nat j < NumStd_ sl → SigAbove_ sl !! j = Some a → bracket_ok n a
}.

(** [classified] as a boolean test, for concrete tables. *)
Definition prefix_all (P : Z → bool) (k : Z) (l : list Z) : bool :=
  forallb P (take (Z.to_nat k) l).

Definition classifiedb (n : Z) (sl : StdLevels) : bool :=
  bool_decide (0 ≤ NumStd_ sl ≤ n)
  && bool_decide (Z.of_nat (length (StdLev_ sl)) = n)
  && bool_decide (Z.of_nat (length (SigBelow_ sl)) = n)
  && bool_decide (Z.of_nat (length (SigAbove_ sl)) = n)
  && bool_decide (Z.of_nat (length (LogP_ sl)) = n)
  && prefix_all (λ lev, bool_decide (0 ≤ lev < n)) (NumStd_ sl) (StdLev_ sl)
  && prefix_all (λ b, bool_decide (bracket_ok n b)) (NumStd_ sl) (SigBelow_ sl)
  && prefix_all (λ a, bool_decide (bracket_ok n a)) (NumStd_ sl) (SigAbove_ sl).

(** ** The interface *)

(** [calcStdLevels numLevelsToCheck pressures tObs tFlags] run on the
    members [sl]: the members afterwards, or a fault. *)
Class Classifier : Type :=
  calcStdLevels : Z → list float → list float → list Z → StdLevels → result StdLevels.

(** What the check relies on: when the classification returns, its
    output is [classified] and the option tables are as before. *)
Class ClassifierOk (C : Classifier) : Prop := {
  calc_classified n (p t : list float) (f : list Z) sl sl' :
    calcStdLevels n p t f sl = Ok sl' → classified n sl';
  calc_tables n (p t : list float) (f : list Z) sl sl' :
    calcStdLevels n p t f sl = Ok sl' →
    StandardLevels_ sl' = StandardLevels_ sl ∧ BigGaps_ sl' = BigGaps_ sl
}.

(** ** A classifier that answers from a table *)

(** The classification [tbl] for profiles of exactly [n0] levels; any
    other request is refused. *)
Definition table_calc (n0 : Z) (tbl : StdLevels) : Classifier :=
  λ n p t f sl,
    if bool_decide (n = n0) && classifiedb n0 tbl then
      Ok (mkStdLevels (StandardLevels_ sl) (BigGaps_ sl) (NumSig_ tbl) (NumStd_ tbl)
            (StdLev_ tbl) (SigBelow_ tbl) (SigAbove_ tbl) (LogP_ tbl) (IndStd_ tbl))
    else Fault LengthError.

(** ** Lemmas *)

Lemma prefix_all_spec (P : Z → bool) k l (j : nat) x :
  prefix_all P k l = true → Z.of_nat j < k → l !! j = Some x → P x = true.
Proof.
  unfold prefix_all. rewrite forallb_forall. intros H Hj Hx.
  apply H, list_elem_of_In, (list_elem_of_lookup_2 _ j).
  rewrite lookup_take_lt; [done|lia].
Qed.

Lemma classifiedb_correct n sl : classifiedb n sl = true → classified n sl.
Proof.
  unfold classifiedb. rewrite !andb_true_iff, !bool_decide_eq_true.
  intros [[[[[[[Ha Hb] Hc] Hd] He] H1] H2] H3]. split; try done.
  - intros j lev Hj Hl. exact (bool_decide_eq_true_1 _ (prefix_all_spec _ _ _ _ _ H1 Hj Hl)).
  - intros j b Hj Hl. exact (bool_decide_eq_true_1 _ (prefix_all_spec _ _ _ _ _ H2 Hj Hl)).
  - intros j a Hj Hl. exact (bool_decide_eq_true_1 _ (prefix_all_spec _ _ _ _ _ H3 Hj Hl)).
Qed.

Section classified_lemmas.
Context {n : Z} {sl : StdLevels} (Hcl : classified n sl).

Lemma classified_StdLev_get j :
  0 ≤ j < NumStd_ sl → ∃ lev, vec_get (StdLev_ sl) j = Ok lev ∧ 0 ≤ lev < n.
Proof using Hcl.
  intros Hj. destruct Hcl.
  destruct (proj2 (vec_get_is_Ok (StdLev_ sl) j)) as [lev Hlev]; [lia|].
  exists lev. split; [done|]. apply vec_get_Ok in Hlev as [_ Hlev].
  apply (cl_StdLev0 (Z.to_nat j)); [lia|done].
Qed.

Lemma classified_SigBelow_get j :
  0 ≤ j < NumStd_ sl → ∃ b, vec_get (SigBelow_ sl) j = Ok b ∧ bracket_ok n b.
Proof using Hcl.
  intros Hj. destruct Hcl.
  destruct (proj2 (vec_get_is_Ok (SigBelow_ sl) j)) as [b Hb]; [lia|].
  exists b. split; [done|]. apply vec_get_Ok in Hb as [_ Hb].
  apply (cl_SigBelow0 (Z.to_nat j)); [lia|done].
Qed.

Lemma classified_SigAbove_get j :
  0 ≤ j < NumStd_ sl → ∃ a, vec_get (SigAbove_ sl) j = Ok a ∧ bracket_ok n a.
Proof using Hcl.
  intros Hj. destruct Hcl.
  destruct (proj2 (vec_get_is_Ok (SigAbove_ sl) j)) as [a Ha]; [lia|].
  exists a. split; [done|]. apply vec_get_Ok in Ha as [_ Ha].
  apply (cl_SigAbove0 (Z.to_nat j)); [lia|done].
Qed.

End classified_lemmas.

(** The table classifier honours the contract, whatever the table: a
    table that is not [classified] is never returned. *)
Lemma table_calc_Ok n0 tbl n (p t : list float) (f : list Z) sl sl' :
  @calcStdLevels (table_calc n0 tbl) n p t f sl = Ok sl' →
  n = n0 ∧ classifiedb n0 tbl = true ∧
  sl' = mkStdLevels (StandardLevels_ sl) (BigGaps_ sl) (NumSig_ tbl) (NumStd_ tbl)
          (StdLev_ tbl) (SigBelow_ tbl) (SigAbove_ tbl) (LogP_ tbl) (IndStd_ tbl).
Proof.
  unfold calcStdLevels, table_calc.
  destruct (bool_decide_reflect (n = n0)); [|done]. simpl.
  destruct (classifiedb n0 tbl); [|done]. by intros [= <-].
Qed.

#[global] Instance table_calc_ok n0 tbl : ClassifierOk (table_calc n0 tbl).
Proof.
  split; intros n p t f sl sl' (-> & Htbl & ->)%table_calc_Ok; [|done].
  apply classifiedb_correct in Htbl. destruct Htbl. by split.
Qed.
