(* ===== verification/InterpCheck.v ===== *)
(** * The interpolation check: [ProfileCheckInterpolation::runCheck]

    The model of [runCheck] ([src/unnamed/part_000], lines 25-141),
    statement by statement.  [State] gathers what the method reads and
    writes: the vectors it obtains from the profile data handler, the
    members of its base class [ProfileStandardLevels] ([levels]), its own
    members [LevErrors_] and [tInterp_], and the messages it logs.  One
    definition models each group of statements of the loop body
    ([roundedHPa], [selectBigGap], [tooFewSig], [noBracket], [gapTooBig],
    [interpolate], [exceedsTolerance], [flagFailure]); [checkLevel] is the
    loop body, [checkLevels] the loop and [runCheck] the method.  The
    log is a list of [Event]s, one per message, each with the values
    the message prints: [centralLine] and [bracketLine] compute those of
    the debug lines of a failure (lines 123-137), pressures in hPa and
    temperatures in degrees Celsius, both in [double]. *)

From Stdlib Require Import ZArith Lia SpecFloat.
From stdpp Require Import base tactics option list numbers.
From S2P Require Import Prelude Float32 StdLevels.

#[local] Open Scope Z_scope.

(** ** Configuration *)

(** The options of [ProfileConsistencyCheckParameters] that the check
    reads through [options_]. *)
Record Options : Type := mkOptions {
  ICheck_BigGapInit : float;       (* default big gap (Pa) *)
  ICheck_TInterpTol : float;       (* tolerance of the check (K) *)
  ICheck_TolRelaxPThresh : float;  (* pressure (Pa) below which the tolerance is relaxed *)
  ICheck_TolRelax : float          (* relaxation factor *)
}.

(** The constants the check names: two bits of [ufo::FlagsProfile], the
    missing-value indicator and [ufo::Constants::t0c], the temperature
    in K of 0 degrees Celsius, a [double]. *)
Record Constants : Type := mkConstants {
  SurfaceLevelFlag : Z;
  InterpolationFlag : Z;
  missingValueFloat : float;
  t0c : double
}.

(** ** State *)

(** Messages sent to [oops::Log], each with the values it prints: a
    pressure in hPa and temperatures in degrees Celsius are [double]s,
    the residual [tInterp - tObs] is a [float]. *)
Inductive Event : Type :=
| DebugCheck                          (* " Interpolation check" *)
| WarnEmpty                           (* "At least one vector is empty. ..." *)
| WarnSize                            (* "Not all vectors have the same size. ..." *)
| DebugFailed (jlev SigB SigA : Z)    (* " -> Failed interpolation check for levels ..." *)
| DebugCentral (jlev : Z) (P tObsC tBkgC tInterpC : double) (residual : float)
                                      (* " -> Level jlev: P = ... tInterp - tObs = ..." *)
| DebugBracket (lev : Z) (P tObsC tBkgC : double).
                                      (* " -> Level lev: P = ..., tObs = ..., tBkg = ..." *)

#[global] Instance Event_eq_dec : EqDecision Event.
Proof. solve_decision. Defined.

Record State : Type := mkState {
  (* vectors of [profileDataHandler_] *)
  pressures : list float;
  tObs : list float;
  tBkg : list float;
  tFlags : list Z;
  NumAnyErrors : list Z;
  NumInterpErrors : list Z;
  NumInterpErrObs : list Z;
  tObsCorrection : list float;
  (* members of [ProfileStandardLevels] *)
  levels : StdLevels;
  (* members of [ProfileCheckInterpolation] *)
  LevErrors_ : list Z;
  tInterp_ : list float;
  (* [oops::Log], oldest message first *)
  log : list Event
}.

#[global] Instance State_eq_dec : EqDecision State.
Proof. solve_decision. Defined.

Definition set_tFlags (v : list Z) (st : State) : State :=
  mkState (pressures st) (tObs st) (tBkg st) v (NumAnyErrors st) (NumInterpErrors st)
    (NumInterpErrObs st) (tObsCorrection st) (levels st) (LevErrors_ st) (tInterp_ st) (log st).

Definition set_NumAnyErrors (v : list Z) (st : State) : State :=
  mkState (pressures st) (tObs st) (tBkg st) (tFlags st) v (NumInterpErrors st)
    (NumInterpErrObs st) (tObsCorrection st) (levels st) (LevErrors_ st) (tInterp_ st) (log st).

Definition set_NumInterpErrors (v : list Z) (st : State) : State :=
  mkState (pressures st) (tObs st) (tBkg st) (tFlags st) (NumAnyErrors st) v
    (NumInterpErrObs st) (tObsCorrection st) (levels st) (LevErrors_ st) (tInterp_ st) (log st).

Definition set_NumInterpErrObs (v : list Z) (st : State) : State :=
  mkState (pressures st) (tObs st) (tBkg st) (tFlags st) (NumAnyErrors st) (NumInterpErrors st)
    v (tObsCorrection st) (levels st) (LevErrors_ st) (tInterp_ st) (log st).

Definition set_levels (sl : StdLevels) (st : State) : State :=
  mkState (pressures st) (tObs st) (tBkg st) (tFlags st) (NumAnyErrors st) (NumInterpErrors st)
    (NumInterpErrObs st) (tObsCorrection st) sl (LevErrors_ st) (tInterp_ st) (log st).

Definition set_LevErrors (v : list Z) (st : State) : State :=
  mkState (pressures st) (tObs st) (tBkg st) (tFlags st) (NumAnyErrors st) (NumInterpErrors st)
    (NumInterpErrObs st) (tObsCorrection st) (levels st) v (tInterp_ st) (log st).

Definition set_tInterp (v : list float) (st : State) : State :=
  mkState (pressures st) (tObs st) (tBkg st) (tFlags st) (NumAnyErrors st) (NumInterpErrors st)
    (NumInterpErrObs st) (tObsCorrection st) (levels st) (LevErrors_ st) v (log st).

Definition add_log (e : Event) (st : State) : State :=
  mkState (pressures st) (tObs st) (tBkg st) (tFlags st) (NumAnyErrors st) (NumInterpErrors st)
    (NumInterpErrObs st) (tObsCorrection st) (levels st) (LevErrors_ st) (tInterp_ st)
    (log st ++ [e]).

(** Several messages, in order. *)
Definition add_logs (es : list Event) (st : State) : State :=
  mkState (pressures st) (tObs st) (tBkg st) (tFlags st) (NumAnyErrors st) (NumInterpErrors st)
    (NumInterpErrObs st) (tObsCorrection st) (levels st) (LevErrors_ st) (tInterp_ st)
    (log st ++ es).

(** ** Preflight validation and bias correction *)

(** [oops::anyVectorEmpty(pressures, tObs, tBkg, tFlags, tObsCorrection)] *)
Definition anyVectorEmpty (st : State) : bool :=
  bool_decide (pressures st = []) || bool_decide (tObs st = [])
  || bool_decide (tBkg st = []) || bool_decide (tFlags st = [])
  || bool_decide (tObsCorrection st = []).

(** [oops::allVectorsSameSize(pressures, tObs, tBkg, tFlags, tObsCorrection)] *)
Definition allVectorsSameSize (st : State) : bool :=
  bool_decide (length (tObs st) = length (pressures st))
  && bool_decide (length (tBkg st) = length (pressures st))
  && bool_decide (length (tFlags st) = length (pressures st))
  && bool_decide (length (tObsCorrection st) = length (pressures st)).

(** [correctVector(v1, v2, vout)] of [ProfileCheckBase]: [vout] is the
    elementwise sum. *)
Definition correctVector (v1 v2 : list float) : list float :=
  zip_with F32.add v1 v2.

(** ** The loop body, statement by statement *)

Section RunCheck.
Context {C : Classifier}.
Variables (opts : Options) (K : Constants).

(** [tFlags[jlev] & ufo::FlagsProfile::SurfaceLevelFlag] as a condition. *)
Definition isSurface (flag : Z) : bool :=
  negb (Z.land flag (SurfaceLevelFlag K) =? 0).

(** [pressures[jlev] * 0.01]: the pressure in hPa, a [double]. *)
Definition hPa (p : float) : double := F64.mul (F64.of_float p) F64.lit_0_01.

(** [int IPStd = std::round(pressures[jlev] * 0.01)]: the product and the
    rounding are in [double]. *)
Definition roundedHPa (p : float) : result Z := F64.to_int (F64.round (hPa p)).

(** [BigGaps_[i] * 100.0] stored in the [float] [BigGap]. *)
Definition gapInPa (g : float) : float :=
  F32.of_double (F64.mul (F64.of_float g) F64.lit_100).

(** The scan of [StandardLevels_] from index [i] on, [levels] being the
    entries not yet visited: the first entry that is [<= IPStd] selects
    [BigGaps_[i]] and ends the scan. *)
Fixpoint bigGapFrom (levs : list float) (i : Z) (gaps : list float)
    (IPStd : Z) (BigGap : float) : result float :=
  match levs with
  | [] => Ok BigGap
  | l :: levs' =>
      if F32.leb l (F32.of_int IPStd) then g ← vec_get gaps i; Ok (gapInPa g)
      else bigGapFrom levs' (i + 1) gaps IPStd BigGap
  end.

Definition selectBigGap (sl : StdLevels) (IPStd : Z) : result float :=
  bigGapFrom (StandardLevels_ sl) 0 (BigGaps_ sl) IPStd (ICheck_BigGapInit opts).

(** [NumSig_ < std::max(3, NumStd_ / 2)] *)
Definition tooFewSig (sl : StdLevels) : bool :=
  NumSig_ sl <? Z.max 3 (Z.quot (NumStd_ sl) 2).

(** [SigB == -1 || SigA == -1] *)
Definition noBracket (SigB SigA : Z) : bool := (SigB =? -1) || (SigA =? -1).

(** [pressures[SigB] - PStd > BigGap || PStd - pressures[SigA] > BigGap
    || LogP_[SigB] == LogP_[SigA]], operands evaluated left to right and
    only as far as needed. *)
Definition gapTooBig (st : State) (SigB SigA : Z) (PStd BigGap : float) : result bool :=
  pB ← vec_get (pressures st) SigB;
  if F32.gtb (F32.sub pB PStd) BigGap then Ok true else
  pA ← vec_get (pressures st) SigA;
  if F32.gtb (F32.sub PStd pA) BigGap then Ok true else
  lB ← vec_get (LogP_ (levels st)) SigB;
  lA ← vec_get (LogP_ (levels st)) SigA;
  Ok (F32.eqb lB lA).

(** Equation 3.3a: the position of the standard level between its
    brackets, in log-pressure. *)
Definition ratio (lj lB lA : float) : float :=
  F32.div (F32.sub lj lB) (F32.sub lA lB).

(** Equation 3.3b. *)
Definition interpValue (tB tA r : float) : float :=
  F32.add tB (F32.mul (F32.sub tA tB) r).

(** The value stored in [tInterp_[jlev]]. *)
Definition interpolate (st : State) (tObsFinal : list float) (jlev SigB SigA : Z) :
    result float :=
  lj ← vec_get (LogP_ (levels st)) jlev;
  lB ← vec_get (LogP_ (levels st)) SigB;
  lA ← vec_get (LogP_ (levels st)) SigA;
  tB ← vec_get tObsFinal SigB;
  tA ← vec_get tObsFinal SigA;
  Ok (interpValue tB tA (ratio lj lB lA)).

(** [options_.ICheck_TInterpTol.value() * TolRelax] *)
Definition tolerance (PStd : float) : float :=
  let TolRelax :=
    if F32.ltb PStd (ICheck_TolRelaxPThresh opts) then ICheck_TolRelax opts
    else F32.one in
  F32.mul (ICheck_TInterpTol opts) TolRelax.

(** [std::abs(tObsFinal[jlev] - tInterp_[jlev]) > tolerance] *)
Definition exceedsTolerance (tj ti PStd : float) : bool :=
  F32.gtb (F32.abs (F32.sub tj ti)) (tolerance PStd).

(** [x - ufo::Constants::t0c]: a temperature in degrees Celsius, a
    [double]. *)
Definition celsius (t : float) : double := F64.sub (F64.of_float t) (t0c K).

(** The debug line of the standard level of a failed test (lines
    123-129): pressure, corrected observation, background, interpolated
    value and residual. *)
Definition centralLine (st : State) (tObsFinal : list float) (jlev : Z) : result Event :=
  p ← vec_get (pressures st) jlev;
  t ← vec_get tObsFinal jlev;
  b ← vec_get (tBkg st) jlev;
  ti ← vec_get (tInterp_ st) jlev;
  Ok (DebugCentral jlev (hPa p) (celsius t) (celsius b) (celsius ti) (F32.sub ti t)).

(** The debug line of a bracket (lines 130-133 and 134-137): pressure,
    corrected observation and background. *)
Definition bracketLine (st : State) (tObsFinal : list float) (lev : Z) : result Event :=
  p ← vec_get (pressures st) lev;
  t ← vec_get tObsFinal lev;
  b ← vec_get (tBkg st) lev;
  Ok (DebugBracket lev (hPa p) (celsius t) (celsius b)).

(** The four debug lines of a failed test (lines 120-137). *)
Definition failureLines (st : State) (tObsFinal : list float) (jlev SigB SigA : Z) :
    result (list Event) :=
  c ← centralLine st tObsFinal jlev;
  b ← bracketLine st tObsFinal SigB;
  a ← bracketLine st tObsFinal SigA;
  Ok [DebugFailed jlev SigB SigA; c; b; a].

(** The body of the [if] on a failed test: counters, flags, level errors
    and the debug lines. *)
Definition flagFailure (tObsFinal : list float) (jlev SigB SigA : Z) (s : State * Z) :
    result (State * Z) :=
  let '(st, NumErrors) := s in
  nae ← vec_incr (NumAnyErrors st) 0;
  nie ← vec_incr (NumInterpErrors st) 0;
  NumErrors' ← int_incr NumErrors;
  f1 ← vec_or (tFlags st) jlev (InterpolationFlag K);
  f2 ← vec_or f1 SigB (InterpolationFlag K);
  f3 ← vec_or f2 SigA (InterpolationFlag K);
  e1 ← vec_incr (LevErrors_ st) jlev;
  e2 ← vec_incr e1 SigB;
  e3 ← vec_incr e2 SigA;
  lines ← failureLines st tObsFinal jlev SigB SigA;
  Ok (add_logs lines
        (set_LevErrors e3 (set_tFlags f3
           (set_NumInterpErrors nie (set_NumAnyErrors nae st)))),
      NumErrors').

(** One iteration of the loop over the standard levels. *)
Definition checkLevel (tObsFinal : list float) (jlevstd : Z) (s : State * Z) :
    result (State * Z) :=
  let '(st, NumErrors) := s in
  jlev ← vec_get (StdLev_ (levels st)) jlevstd;
  flag ← vec_get (tFlags st) jlev;
  if isSurface flag then Ok s else
  SigB ← vec_get (SigBelow_ (levels st)) jlevstd;
  SigA ← vec_get (SigAbove_ (levels st)) jlevstd;
  PStd ← vec_get (pressures st) jlev;
  IPStd ← roundedHPa PStd;
  BigGap ← selectBigGap (levels st) IPStd;
  if tooFewSig (levels st) then Ok s else
  if noBracket SigB SigA then Ok s else
  skip ← gapTooBig st SigB SigA PStd BigGap;
  if skip : bool then Ok s else
  v ← interpolate st tObsFinal jlev SigB SigA;
  ti ← vec_set (tInterp_ st) jlev v;
  tj ← vec_get tObsFinal jlev;
  ti_j ← vec_get ti jlev;
  if exceedsTolerance tj ti_j PStd
  then flagFailure tObsFinal jlev SigB SigA (set_tInterp ti st, NumErrors)
  else Ok (set_tInterp ti st, NumErrors).

(** [for (int jlevstd = 0; jlevstd < NumStd_; ++jlevstd)], from
    [NumErrors = 0]. *)
Definition checkLevels (tObsFinal : list float) (st : State) : result (State * Z) :=
  foldM (checkLevel tObsFinal) (seqZ 0 (NumStd_ (levels st))) (st, 0).

(** [if (NumErrors > 0) NumInterpErrObs[0]++] *)
Definition countObs (s : State * Z) : result State :=
  let '(st, NumErrors) := s in
  if 0 <? NumErrors
  then nio ← vec_incr (NumInterpErrObs st) 0; Ok (set_NumInterpErrObs nio st)
  else Ok st.

(** ** The method *)

(** The part of [runCheck] after the validation of the input: bias
    correction, classification, assignment of the result vectors, the
    loop, and the per-profile counter. *)
Definition checkProfile (numLevelsToCheck : Z) (st : State) : result State :=
  let tObsFinal := correctVector (tObs st) (tObsCorrection st) in
  sl ← calcStdLevels numLevelsToCheck (pressures st) tObsFinal (tFlags st) (levels st);
  le ← vec_assign numLevelsToCheck (-1);
  ti ← vec_assign numLevelsToCheck (missingValueFloat K);
  s ← checkLevels tObsFinal (set_tInterp ti (set_LevErrors le (set_levels sl st)));
  countObs s.

Definition runCheck (numLevelsToCheck : Z) (st0 : State) : result State :=
  let st := add_log DebugCheck st0 in
  if anyVectorEmpty st then Ok (add_log WarnEmpty st) else
  if negb (allVectorsSameSize st) then Ok (add_log WarnSize st) else
  checkProfile numLevelsToCheck st.

End RunCheck.

Arguments set_tFlags _ _ /.
Arguments set_NumAnyErrors _ _ /.
Arguments set_NumInterpErrors _ _ /.
Arguments set_NumInterpErrObs _ _ /.
Arguments set_levels _ _ /.
Arguments set_LevErrors _ _ /.
Arguments set_tInterp _ _ /.
Arguments add_log _ _ /.
Arguments add_logs _ _ /.

(** ** What an iteration may change *)

(** A flag word after the check: as before, or with the interpolation bit
    set. *)
Definition flag_step (m f f' : Z) : Prop := f' = f ∨ f' = Z.lor f m.

(** A level-error count after some iterations: not below what it was. *)
Definition count_step (e e' : Z) : Prop := e ≤ e'.

(** What the loop leaves alone and how it changes the rest: the inputs
    and the classification are untouched, no vector changes size, flags
    change by [flag_step] only, counters and level errors only grow. *)
Record frame (m : Z) (st st' : State) : Prop := mkFrame {
  fr_pressures : pressures st' = pressures st;
  fr_tObs : tObs st' = tObs st;
  fr_tBkg : tBkg st' = tBkg st;
  fr_tObsCorrection : tObsCorrection st' = tObsCorrection st;
  fr_levels : levels st' = levels st;
  fr_NumInterpErrObs : NumInterpErrObs st' = NumInterpErrObs st;
  fr_tFlags : Forall2 (flag_step m) (tFlags st) (tFlags st');
  fr_NumAnyErrors : Forall2 count_step (NumAnyErrors st) (NumAnyErrors st');
  fr_NumInterpErrors : Forall2 count_step (NumInterpErrors st) (NumInterpErrors st');
  fr_LevErrors : Forall2 count_step (LevErrors_ st) (LevErrors_ st');
  fr_tInterp_len : length (tInterp_ st') = length (tInterp_ st);
  fr_log : log st `prefix_of` log st'
}.

#[global] Instance flag_step_refl m : Reflexive (flag_step m).
Proof. by left. Qed.

#[global] Instance flag_step_trans m : Transitive (flag_step m).
Proof.
  intros f g h [->| ->] [->| ->]; unfold flag_step; auto.
  right. by rewrite <- Z.lor_assoc, Z.lor_diag.
Qed.

#[global] Instance count_step_refl : Reflexive count_step.
Proof. intros e. unfold count_step. lia. Qed.

#[global] Instance count_step_trans : Transitive count_step.
Proof. intros e f g. unfold count_step. lia. Qed.

#[global] Instance frame_refl m : Reflexive (frame m).
Proof. intros st. by split. Qed.

#[global] Instance frame_trans m : Transitive (frame m).
Proof.
  intros s t u [] []. split; try congruence; by etrans.
Qed.

(** ** Lemmas on the vector updates of the loop *)

Section update_lemmas.
Implicit Types (v : list Z) (i m : Z).

Lemma vec_or_Ok v i m v' :
  vec_or v i m = Ok v' ↔
  ∃ x, v !! Z.to_nat i = Some x ∧ 0 ≤ i ∧ v' = <[Z.to_nat i := Z.lor x m]> v.
Proof.
  unfold vec_or. rewrite bind_Ok. split.
  - intros (x & [? Hx]%vec_get_Ok & [? ->]%vec_set_Ok). eauto.
  - intros (x & Hx & ? & ->). exists x. rewrite vec_get_Ok, vec_set_Ok.
    apply lookup_lt_Some in Hx as ?. repeat split; auto; lia.
Qed.

Lemma vec_incr_Ok v i v' :
  vec_incr v i = Ok v' ↔
  ∃ x, v !! Z.to_nat i = Some x ∧ 0 ≤ i ∧ x < INT_MAX ∧ v' = <[Z.to_nat i := x + 1]> v.
Proof.
  unfold vec_incr. rewrite bind_Ok. split.
  - intros (x & [? Hx]%vec_get_Ok & (x' & [? ->]%int_incr_Ok & [? ->]%vec_set_Ok)%bind_Ok).
    eauto 6.
  - intros (x & Hx & ? & ? & ->). exists x. rewrite vec_get_Ok, bind_Ok.
    split; [done|]. exists (x + 1). rewrite int_incr_Ok, vec_set_Ok.
    apply lookup_lt_Some in Hx as ?. repeat split; auto; lia.
Qed.

Lemma vec_or_is_Ok v i m : is_Ok (vec_or v i m) ↔ 0 ≤ i < Z.of_nat (length v).
Proof.
  unfold is_Ok. setoid_rewrite vec_or_Ok. split.
  - intros (? & x & Hx%lookup_lt_Some & ? & _). lia.
  - intros [? ?]. destruct (lookup_lt_is_Some_2 v (Z.to_nat i)) as [x Hx]; [lia|eauto].
Qed.

Lemma Forall2_insert_step (R : relation Z) `{!Reflexive R} v (k : nat) x y :
  v !! k = Some x → R x y → Forall2 R v (<[k := y]> v).
Proof.
  intros Hx HR. rewrite <- (list_insert_id v k x) at 1 by done.
  apply Forall2_insert; [reflexivity|done].
Qed.

Lemma vec_or_step v i m v' : vec_or v i m = Ok v' → Forall2 (flag_step m) v v'.
Proof.
  intros (x & Hx & _ & ->)%vec_or_Ok.
  eapply Forall2_insert_step; [apply _|done|by right].
Qed.

Lemma vec_incr_step v i v' : vec_incr v i = Ok v' → Forall2 count_step v v'.
Proof.
  intros (x & Hx & _ & _ & ->)%vec_incr_Ok.
  eapply Forall2_insert_step; [apply _|done|unfold count_step; lia].
Qed.

Lemma vec_or_length v i m v' : vec_or v i m = Ok v' → length v' = length v.
Proof. intros H%vec_or_step. symmetry. by eapply Forall2_length. Qed.

Lemma vec_incr_length v i v' : vec_incr v i = Ok v' → length v' = length v.
Proof. intros H%vec_incr_step. symmetry. by eapply Forall2_length. Qed.

End update_lemmas.

(** ** The loop body, case by case *)

Section RunCheck_facts.
Context {C : Classifier}.
Variables (opts : Options) (K : Constants).

#[local] Abbreviation IF := (InterpolationFlag K).
#[local] Abbreviation checkLevel := (checkLevel opts K).
#[local] Abbreviation checkLevels := (checkLevels opts K).
#[local] Abbreviation flagFailure := (flagFailure K).

(** The debug lines that are logged, and the reads they make. *)
Lemma centralLine_Ok st tObsFinal jlev e :
  centralLine K st tObsFinal jlev = Ok e ↔
  ∃ p t b ti,
    vec_get (pressures st) jlev = Ok p ∧ vec_get tObsFinal jlev = Ok t ∧
    vec_get (tBkg st) jlev = Ok b ∧ vec_get (tInterp_ st) jlev = Ok ti ∧
    e = DebugCentral jlev (hPa p) (celsius K t) (celsius K b) (celsius K ti) (F32.sub ti t).
Proof. unfold centralLine. repeat setoid_rewrite bind_Ok. naive_solver. Qed.

Lemma bracketLine_Ok st tObsFinal lev e :
  bracketLine K st tObsFinal lev = Ok e ↔
  ∃ p t b,
    vec_get (pressures st) lev = Ok p ∧ vec_get tObsFinal lev = Ok t ∧
    vec_get (tBkg st) lev = Ok b ∧
    e = DebugBracket lev (hPa p) (celsius K t) (celsius K b).
Proof. unfold bracketLine. repeat setoid_rewrite bind_Ok. naive_solver. Qed.

Lemma failureLines_Ok st tObsFinal jlev SigB SigA lines :
  failureLines K st tObsFinal jlev SigB SigA = Ok lines ↔
  ∃ c b a,
    centralLine K st tObsFinal jlev = Ok c ∧ bracketLine K st tObsFinal SigB = Ok b ∧
    bracketLine K st tObsFinal SigA = Ok a ∧ lines = [DebugFailed jlev SigB SigA; c; b; a].
Proof. unfold failureLines. repeat setoid_rewrite bind_Ok. naive_solver. Qed.

(** What a failed test does to the state. *)
Lemma flagFailure_Ok tObsFinal jlev SigB SigA st k s' :
  flagFailure tObsFinal jlev SigB SigA (st, k) = Ok s' →
  ∃ nae nie f1 f2 f3 e1 e2 e3 lines,
    vec_incr (NumAnyErrors st) 0 = Ok nae ∧
    vec_incr (NumInterpErrors st) 0 = Ok nie ∧
    k < INT_MAX ∧
    vec_or (tFlags st) jlev IF = Ok f1 ∧ vec_or f1 SigB IF = Ok f2 ∧
    vec_or f2 SigA IF = Ok f3 ∧
    vec_incr (LevErrors_ st) jlev = Ok e1 ∧ vec_incr e1 SigB = Ok e2 ∧
    vec_incr e2 SigA = Ok e3 ∧
    failureLines K st tObsFinal jlev SigB SigA = Ok lines ∧
    s' = (add_logs lines
            (set_LevErrors e3 (set_tFlags f3
               (set_NumInterpErrors nie (set_NumAnyErrors nae st)))), k + 1).
Proof.
  unfold flagFailure, InterpCheck.flagFailure. intros H.
  repeat (apply bind_Ok in H as (? & ? & H)).
  match goal with H : int_incr _ = _ |- _ => apply int_incr_Ok in H as [? ->] end.
  injection H as <-. eauto 20.
Qed.

#[local] Opaque InterpCheck.flagFailure interpolate gapTooBig InterpCheck.selectBigGap roundedHPa.

(** The three outcomes of an iteration that returns: nothing changed
    (a guard skipped the level), the interpolated value was stored, or it
    was stored and the failure was flagged. *)
Lemma checkLevel_cases tObsFinal j st k s' :
  checkLevel tObsFinal j (st, k) = Ok s' →
  s' = (st, k) ∨
  ∃ jlev SigB SigA v ti,
    vec_get (StdLev_ (levels st)) j = Ok jlev ∧
    vec_get (SigBelow_ (levels st)) j = Ok SigB ∧
    vec_get (SigAbove_ (levels st)) j = Ok SigA ∧
    interpolate st tObsFinal jlev SigB SigA = Ok v ∧
    vec_set (tInterp_ st) jlev v = Ok ti ∧
    (s' = (set_tInterp ti st, k) ∨
     flagFailure tObsFinal jlev SigB SigA (set_tInterp ti st, k) = Ok s').
Proof.
  unfold checkLevel, InterpCheck.checkLevel. intros H.
  repeat first
    [ apply bind_Ok in H as (? & ? & H)
    | match type of H with (if ?b then _ else _) = _ => destruct b eqn:? end ];
    try (injection H as <-); try (by left).
  all: right; do 5 eexists; repeat (split; [eassumption|]).
  all: first [by left | by right].
Qed.

#[local] Transparent InterpCheck.flagFailure interpolate gapTooBig InterpCheck.selectBigGap roundedHPa.

Lemma flagFailure_frame tObsFinal jlev SigB SigA st k st' k' :
  flagFailure tObsFinal jlev SigB SigA (st, k) = Ok (st', k') →
  frame IF st st' ∧ k' = k + 1.
Proof.
  intros (nae & nie & f1 & f2 & f3 & e1 & e2 & e3 & lines & Hnae & Hnie & _ &
          Hf1 & Hf2 & Hf3 & He1 & He2 & He3 & _ & [= -> ->])%flagFailure_Ok.
  split; [|done]. split; simpl; try done.
  - etrans; [|etrans]; eauto using vec_or_step.
  - eauto using vec_incr_step.
  - eauto using vec_incr_step.
  - etrans; [|etrans]; eauto using vec_incr_step.
  - by apply prefix_app_r.
Qed.

Lemma set_tInterp_frame st jlev v ti :
  vec_set (tInterp_ st) jlev v = Ok ti → frame IF st (set_tInterp ti st).
Proof. intros Hti. split; simpl; try done. by eapply vec_set_length. Qed.

(** An iteration respects the frame and counts at most one failure. *)
Lemma checkLevel_frame tObsFinal j st k st' k' :
  checkLevel tObsFinal j (st, k) = Ok (st', k') →
  frame IF st st' ∧ k ≤ k' ≤ k + 1.
Proof.
  intros [[= -> ->]|(jlev & SigB & SigA & v & ti & _ & _ & _ & _ & Hti & Hs)]%checkLevel_cases.
  { split; [reflexivity|lia]. }
  apply (set_tInterp_frame _ _ _ _) in Hti as Hfr.
  destruct Hs as [[= -> ->]|[Hfr' ->]%flagFailure_frame]; [split; [done|lia]|].
  split; [by etrans|lia].
Qed.

(** The loop respects the frame and counts at most one failure per
    standard level. *)
Lemma checkLevels_frame tObsFinal st st' k :
  checkLevels tObsFinal st = Ok (st', k) →
  frame IF st st' ∧ 0 ≤ k ≤ Z.max 0 (NumStd_ (levels st)).
Proof.
  unfold checkLevels, InterpCheck.checkLevels. intros H.
  apply (foldM_invariant_idx
    (λ i s, frame IF st s.1 ∧ 0 ≤ s.2 ≤ Z.of_nat i)) in H.
  - rewrite length_seqZ in H. destruct H as [? ?]. split; [done|simpl in *; lia].
  - intros i a [t kt] [t' kt'] _ [Hfr Hk] [Hfr' Hk']%checkLevel_frame. simpl in *.
    split; [by etrans|lia].
  - split; [reflexivity|simpl; lia].
Qed.

(** C15: a standard level whose flag word has the surface bit is left
    alone, whatever its observation, its brackets and the tables. *)
Theorem checkLevel_surface tObsFinal j st k jlev flag :
  vec_get (StdLev_ (levels st)) j = Ok jlev →
  vec_get (tFlags st) jlev = Ok flag →
  Z.land flag (SurfaceLevelFlag K) ≠ 0 →
  checkLevel tObsFinal j (st, k) = Ok (st, k).
Proof.
  intros Hj Hf Hs. unfold checkLevel, InterpCheck.checkLevel.
  rewrite Hj. simpl. rewrite Hf. simpl.
  unfold isSurface. by destruct (Z.eqb_spec (Z.land flag (SurfaceLevelFlag K)) 0).
Qed.

(** An observation or an interpolated value that is not a number never
    fails the test: [>] is false on a NaN. *)
Lemma exceedsTolerance_nan tj ti PStd :
  is_nan tj = true ∨ is_nan ti = true → exceedsTolerance opts tj ti PStd = false.
Proof.
  intros H. unfold exceedsTolerance. apply F32_gtb_nan. left.
  by rewrite F32_abs_nan, F32_sub_nan.
Qed.

(** The test looks at the magnitude of the difference only: the
    residual the debug message prints, [tInterp - tObs], is tested as
    [tObs - tInterp]. *)
Lemma exceedsTolerance_sym tj ti PStd :
  exceedsTolerance opts tj ti PStd = exceedsTolerance opts ti tj PStd.
Proof.
  unfold exceedsTolerance, F32.abs, F32.sub. by rewrite SFsub_abs_swap.
Qed.

(** A pressure that is infinite or not a number has no whole number of
    hPa. *)
Lemma roundedHPa_not_finite p : is_finite p = false → roundedHPa p = Fault BadIntConversion.
Proof.
  unfold roundedHPa, hPa. rewrite F64_lit_0_01_eq. by destruct p as [|[]| |].
Qed.

(** C25: the conversion of line 76 comes before the guards of lines 88
    to 94: a standard level that is not a surface level and whose
    pressure is infinite or not a number makes the iteration undefined,
    also when a guard would have skipped the level. *)
Theorem checkLevel_bad_pressure tObsFinal j st k jlev flag SigB SigA PStd :
  vec_get (StdLev_ (levels st)) j = Ok jlev →
  vec_get (tFlags st) jlev = Ok flag → Z.land flag (SurfaceLevelFlag K) = 0 →
  vec_get (SigBelow_ (levels st)) j = Ok SigB →
  vec_get (SigAbove_ (levels st)) j = Ok SigA →
  vec_get (pressures st) jlev = Ok PStd → is_finite PStd = false →
  checkLevel tObsFinal j (st, k) = Fault BadIntConversion.
Proof.
  intros Hj Hf Hs HB HA HP Hfin. unfold checkLevel, InterpCheck.checkLevel.
  rewrite Hj; simpl. rewrite Hf; simpl. unfold isSurface. rewrite Hs; simpl.
  rewrite HB; simpl. rewrite HA; simpl. rewrite HP; simpl.
  by rewrite roundedHPa_not_finite.
Qed.

(** ** The method *)

(** The early returns: the state is as before, with the warning logged. *)
Lemma runCheck_invalid n st :
  anyVectorEmpty st = true ∨ allVectorsSameSize st = false →
  runCheck opts K n st =
    Ok (add_log (if anyVectorEmpty st then WarnEmpty else WarnSize)
          (add_log DebugCheck st)).
Proof.
  unfold runCheck.
  change (anyVectorEmpty (add_log DebugCheck st)) with (anyVectorEmpty st).
  change (allVectorsSameSize (add_log DebugCheck st)) with (allVectorsSameSize st).
  destruct (anyVectorEmpty st); [done|]. by intros [?| ->].
Qed.

(** On valid input the method is [checkProfile]. *)
Lemma runCheck_valid n st :
  anyVectorEmpty st = false → allVectorsSameSize st = true →
  runCheck opts K n st = checkProfile opts K n (add_log DebugCheck st).
Proof.
  unfold runCheck.
  change (anyVectorEmpty (add_log DebugCheck st)) with (anyVectorEmpty st).
  change (allVectorsSameSize (add_log DebugCheck st)) with (allVectorsSameSize st).
  by intros -> ->.
Qed.

(** The two ways through the method: valid input reaches
    [checkProfile]; invalid input returns with a warning [w]. *)
Lemma runCheck_cases n st :
  (anyVectorEmpty st = false ∧ allVectorsSameSize st = true ∧
   runCheck opts K n st = checkProfile opts K n (add_log DebugCheck st)) ∨
  (∃ w, runCheck opts K n st = Ok (add_log w (add_log DebugCheck st))).
Proof.
  destruct (anyVectorEmpty st) eqn:He; [|destruct (allVectorsSameSize st) eqn:Hs].
  - right. eexists. apply runCheck_invalid. auto.
  - left. auto using runCheck_valid.
  - right. eexists. apply runCheck_invalid. auto.
Qed.

(** C3: when one of the five input vectors is empty, or they do not all
    have the same size, [runCheck] returns normally and changes nothing:
    the state afterwards is the state before with the debug line and the
    warning ("empty" taking precedence over "size") appended to the log. *)
Theorem runCheck_invalid_input n st :
  anyVectorEmpty st = true ∨ allVectorsSameSize st = false →
  runCheck opts K n st =
    Ok (mkState (pressures st) (tObs st) (tBkg st) (tFlags st) (NumAnyErrors st)
          (NumInterpErrors st) (NumInterpErrObs st) (tObsCorrection st) (levels st)
          (LevErrors_ st) (tInterp_ st)
          (log st ++ [DebugCheck; if anyVectorEmpty st then WarnEmpty else WarnSize])).
Proof.
  intros H. rewrite (runCheck_invalid n st H). simpl. by rewrite <- app_assoc.
Qed.

End RunCheck_facts.
