(* ===== verification/Loops.v ===== *)
(** * The loops with their counters

    [runCheck] has two [for] loops that step an [int]: the loop over
    the standard levels (line 69) and the scan of the band table with
    its [break] (lines 81-86).  [InterpCheck] writes them as recursions
    over the range of the counter and over the table.  This file writes
    them as the code does: each round tests the condition, runs the
    body and increments the counter as an [int], so that an increment
    past [INT_MAX] would be a fault.  The number of rounds is bounded by
    fuel; a loop that runs out of fuel yields [None].

    [forInt_foldM] and [scanBands_bigGapFrom] show that with fuel for
    as many rounds as the bound of the loop the counted loops return
    what the recursions of [InterpCheck] return, faults included; the
    counter cannot overflow because it stays below a bound that is an
    [int] or the size of a table of at most [INT_MAX] entries. *)

From Stdlib Require Import ZArith Lia SpecFloat.
From stdpp Require Import base tactics option list numbers.
From S2P Require Import Prelude Float32 StdLevels InterpCheck.

#[local] Open Scope Z_scope.

(** ** A counted loop *)

Section forInt.
Context {St : Type}.
Variable body : Z → St → result St.

(** [for (int i = lo; i < hi; ++i) body], from [i] on, in at most [fuel]
    rounds. *)
Fixpoint forInt (fuel : nat) (i hi : Z) (s : St) : result (option St) :=
  if i <? hi then
    match fuel with
    | O => Ok None
    | S fuel' => s' ← body i s; i' ← int_incr i; forInt fuel' i' hi s'
    end
  else Ok (Some s).

(** With fuel for [hi - i] rounds and a bound that is an [int], the
    loop is the fold over the range of its counter. *)
Lemma forInt_foldM fuel i hi s :
  hi ≤ INT_MAX → hi - i ≤ Z.of_nat fuel →
  forInt fuel i hi s = Some <$> foldM body (seqZ i (hi - i)) s.
Proof.
  intros Hhi. revert i s. induction fuel as [|fuel IH]; intros i s Hfuel; simpl;
    destruct (Z.ltb_spec i hi) as [Hlt|Hge]; try lia.
  - by rewrite seqZ_nil by lia.
  - rewrite seqZ_cons by lia. simpl. destruct (body i s) as [s'|]; simpl; [|done].
    unfold int_incr. rewrite decide_True by lia. simpl.
    rewrite IH by lia. do 3 f_equal; lia.
  - by rewrite seqZ_nil by lia.
Qed.

(** Without enough fuel a loop whose body returns runs out. *)
Lemma forInt_out_of_fuel fuel i hi s :
  hi ≤ INT_MAX → Z.of_nat fuel < hi - i → (∀ j t, is_Ok (body j t)) →
  forInt fuel i hi s = Ok None.
Proof.
  intros Hhi Hfuel Hbody. revert i s Hfuel.
  induction fuel as [|fuel IH]; intros i s Hfuel; simpl;
    destruct (Z.ltb_spec i hi) as [Hlt|Hge]; try lia; [done|].
  destruct (Hbody i s) as [s' ->]. simpl.
  unfold int_incr. rewrite decide_True by lia. simpl. apply IH. lia.
Qed.

End forInt.

(** ** The two loops of [runCheck] *)

Section Loops.
Context {C : Classifier}.
Variables (opts : Options) (K : Constants).

(** Lines 81-86: the scan of [StandardLevels_] with its [break], from
    [i] on. *)
Fixpoint scanBands (fuel : nat) (i : Z) (levs gaps : list float) (IPStd : Z)
    (BigGap : float) : result (option float) :=
  if i <? Z.of_nat (length levs) then
    match fuel with
    | O => Ok None
    | S fuel' =>
        l ← vec_get levs i;
        if F32.leb l (F32.of_int IPStd) then g ← vec_get gaps i; Ok (Some (gapInPa g))
        else i' ← int_incr i; scanBands fuel' i' levs gaps IPStd BigGap
    end
  else Ok (Some BigGap).

(** Lines 80-86 *)
Definition selectBigGapLoop (fuel : nat) (sl : StdLevels) (IPStd : Z) :
    result (option float) :=
  scanBands fuel 0 (StandardLevels_ sl) (BigGaps_ sl) IPStd (ICheck_BigGapInit opts).

(** Lines 67-139: the loop over the standard levels, from
    [NumErrors = 0]. *)
Definition checkLevelsLoop (fuel : nat) (tObsFinal : list float) (st : State) :
    result (option (State * Z)) :=
  forInt (checkLevel opts K tObsFinal) fuel 0 (NumStd_ (levels st)) (st, 0).

Lemma scanBands_bigGapFrom fuel i levs gaps IPStd BigGap :
  Z.of_nat (length levs) ≤ INT_MAX → 0 ≤ i → Z.of_nat (length levs) - i ≤ Z.of_nat fuel →
  scanBands fuel i levs gaps IPStd BigGap =
    Some <$> bigGapFrom (drop (Z.to_nat i) levs) i gaps IPStd BigGap.
Proof.
  intros Hlen. revert i. induction fuel as [|fuel IH]; intros i Hi Hfuel; simpl;
    destruct (Z.ltb_spec i (Z.of_nat (length levs))) as [Hlt|Hge]; try lia.
  - by rewrite drop_ge by lia.
  - destruct (lookup_lt_is_Some_2 levs (Z.to_nat i)) as [l Hl]; [lia|].
    rewrite (drop_S _ _ _ Hl), (proj2 (vec_get_Ok levs i l)) by done. simpl.
    destruct (F32.leb l (F32.of_int IPStd)); [by destruct (vec_get gaps i)|].
    unfold int_incr. rewrite decide_True by lia. simpl.
    rewrite IH by lia. by replace (Z.to_nat (i + 1)) with (S (Z.to_nat i)) by lia.
  - by rewrite drop_ge by lia.
Qed.

(** The scan of the band table as the code writes it, with an
    [int] counter compared with the size of the table and a [break],
    returns what [selectBigGap] returns, given fuel for one round per
    band and a table of at most [INT_MAX] bands: it ends, and its
    counter does not overflow. *)
Theorem selectBigGapLoop_selectBigGap fuel sl IPStd :
  Z.of_nat (length (StandardLevels_ sl)) ≤ INT_MAX →
  (length (StandardLevels_ sl) ≤ fuel)%nat →
  selectBigGapLoop fuel sl IPStd = Some <$> selectBigGap opts sl IPStd.
Proof.
  intros Hlen Hfuel. unfold selectBigGapLoop, selectBigGap.
  rewrite scanBands_bigGapFrom by lia. done.
Qed.

(** The loop over the standard levels as the code writes it
    terminates: with fuel for [NumStd_] rounds it returns what
    [checkLevels] returns, a fault of the body included, and the
    increment of its counter never overflows. *)
Theorem checkLevelsLoop_terminates fuel tObsFinal st :
  NumStd_ (levels st) ≤ INT_MAX → NumStd_ (levels st) ≤ Z.of_nat fuel →
  checkLevelsLoop fuel tObsFinal st = Some <$> checkLevels opts K tObsFinal st.
Proof.
  intros Hmax Hfuel. unfold checkLevelsLoop, checkLevels.
  rewrite forInt_foldM by lia. by rewrite Z.sub_0_r.
Qed.

End Loops.
