(* ===== verification/LoopsWf.v ===== *)
(** * The method with its loops as the code writes them

    [InterpCheck] writes the two [for] loops of [runCheck] as recursions
    over the range of the counter and over the band table, and [Loops]
    gives each loop with its [int] counter and fuel.  This file defines
    the loops by well-founded recursion on the distance of the counter
    from its bound, so that they are total functions without fuel, and
    puts them together: [runCheckWf] is [runCheck] with the loop of line
    69 ([forIntWf]) around a body whose scan of the band table is the
    loop of lines 81-86 with its [break] ([scanBandsWf]).  Each round
    tests the condition, runs the body and increments the counter as an
    [int], an increment past [INT_MAX] being a fault.

    [runCheckWf_runCheck] shows that this is the method all other files
    reason about, when the number of levels to check is an [int] and
    the band table has at most [INT_MAX] entries: the counters never
    overflow, and the loops end. *)

From Stdlib Require Import ZArith Lia SpecFloat.
From stdpp Require Import base tactics option list numbers.
From Equations Require Import Equations.
From S2P Require Import Prelude Float32 StdLevels InterpCheck.

#[local] Open Scope Z_scope.

(** A value with the equation that it is the value of the expression
    inspected, for the clauses that recurse. *)
Definition inspect {A} (a : A) : {b | a = b} := exist _ a eq_refl.

#[local] Notation "x 'eq:' p" := (exist _ x p) (only parsing, at level 20).

(** Puts the hypotheses that the elimination of a loop leaves into the
    form the lemmas on ranges use. *)
Ltac loop_cases :=
  repeat match goal with
  | H : @eq (sigma _) _ _ |- _ => clear H
  | H : (_ <? _) = true |- _ => apply Z.ltb_lt in H
  | H : (_ <? _) = false |- _ => apply Z.ltb_ge in H
  | H : int_incr _ = Ok _ |- _ => apply int_incr_Ok in H as [_ ->]
  | H : int_incr _ = Fault _ |- _ => unfold int_incr in H; case_decide; [done|lia]
  end.

(** ** A counted loop *)

Section forIntWf.
Context {St : Type}.
Variable body : Z → St → result St.

(** [for (int i = lo; i < hi; ++i) body], from [i] on. *)
Equations? forIntWf (i hi : Z) (s : St) : result St by wf (Z.to_nat (hi - i)) lt :=
  forIntWf i hi s with inspect (i <? hi) := {
    | true eq:Hlt with body i s := {
        | Fault e := Fault e
        | Ok s' with inspect (int_incr i) := {
            | Ok i' eq:Hi := forIntWf i' hi s'
            | Fault e eq:_ := Fault e } }
    | false eq:_ := Ok s }.
Proof. loop_cases. lia. Qed.

(** With a bound that is an [int] the loop is the fold over the range
    of its counter. *)
Lemma forIntWf_foldM i hi s :
  hi ≤ INT_MAX → forIntWf i hi s = foldM body (seqZ i (hi - i)) s.
Proof.
  intros Hhi. funelim (forIntWf i hi s); loop_cases;
    rewrite ?seqZ_nil by lia; rewrite ?seqZ_cons by lia; simpl;
    repeat match goal with H : body _ _ = _ |- _ => rewrite H; simpl; clear H end; try done.
  match goal with IH : _ → forIntWf _ _ _ = _ |- _ => rewrite IH by done end.
  do 2 f_equal; lia.
Qed.

End forIntWf.

(** ** The two loops and the method *)

Section LoopsWf.
Context {C : Classifier}.
Variables (opts : Options) (K : Constants).

(** Lines 81-86: the scan of [StandardLevels_] with its [break], from
    [i] on. *)
Equations? scanBandsWf (i : Z) (levs gaps : list float) (IPStd : Z) (BigGap : float) :
    result float by wf (Z.to_nat (Z.of_nat (length levs) - i)) lt :=
  scanBandsWf i levs gaps IPStd BigGap with inspect (i <? Z.of_nat (length levs)) := {
    | true eq:Hlt with vec_get levs i := {
        | Fault e := Fault e
        | Ok l with F32.leb l (F32.of_int IPStd) := {
            | true := g ← vec_get gaps i; Ok (gapInPa g)
            | false with inspect (int_incr i) := {
                | Ok i' eq:Hi := scanBandsWf i' levs gaps IPStd BigGap
                | Fault e eq:_ := Fault e } } }
    | false eq:_ := Ok BigGap }.
Proof. loop_cases. lia. Qed.

(** Lines 80-86 *)
Definition selectBigGapWf (sl : StdLevels) (IPStd : Z) : result float :=
  scanBandsWf 0 (StandardLevels_ sl) (BigGaps_ sl) IPStd (ICheck_BigGapInit opts).

(** Lines 70-138: the body of the loop over the standard levels. *)
Definition checkLevelWf (tObsFinal : list float) (jlevstd : Z) (s : State * Z) :
    result (State * Z) :=
  let '(st, NumErrors) := s in
  jlev ← vec_get (StdLev_ (levels st)) jlevstd;
  flag ← vec_get (tFlags st) jlev;
  if isSurface K flag then Ok s else
  SigB ← vec_get (SigBelow_ (levels st)) jlevstd;
  SigA ← vec_get (SigAbove_ (levels st)) jlevstd;
  PStd ← vec_get (pressures st) jlev;
  IPStd ← roundedHPa PStd;
  BigGap ← selectBigGapWf (levels st) IPStd;
  if tooFewSig (levels st) then Ok s else
  if noBracket SigB SigA then Ok s else
  skip ← gapTooBig st SigB SigA PStd BigGap;
  if skip : bool then Ok s else
  v ← interpolate st tObsFinal jlev SigB SigA;
  ti ← vec_set (tInterp_ st) jlev v;
  tj ← vec_get tObsFinal jlev;
  ti_j ← vec_get ti jlev;
  if exceedsTolerance opts tj ti_j PStd
  then flagFailure K tObsFinal jlev SigB SigA (set_tInterp ti st, NumErrors)
  else Ok (set_tInterp ti st, NumErrors).

(** Lines 67-139: [int NumErrors = 0] and the loop. *)
Definition checkLevelsWf (tObsFinal : list float) (st : State) : result (State * Z) :=
  forIntWf (checkLevelWf tObsFinal) 0 (NumStd_ (levels st)) (st, 0).

(** Lines 59-140 *)
Definition checkProfileWf (numLevelsToCheck : Z) (st : State) : result State :=
  let tObsFinal := correctVector (tObs st) (tObsCorrection st) in
  sl ← calcStdLevels numLevelsToCheck (pressures st) tObsFinal (tFlags st) (levels st);
  le ← vec_assign numLevelsToCheck (-1);
  ti ← vec_assign numLevelsToCheck (missingValueFloat K);
  s ← checkLevelsWf tObsFinal (set_tInterp ti (set_LevErrors le (set_levels sl st)));
  countObs s.

(** [ProfileCheckInterpolation::runCheck] *)
Definition runCheckWf (numLevelsToCheck : Z) (st0 : State) : result State :=
  let st := add_log DebugCheck st0 in
  if anyVectorEmpty st then Ok (add_log WarnEmpty st) else
  if negb (allVectorsSameSize st) then Ok (add_log WarnSize st) else
  checkProfileWf numLevelsToCheck st.

(** ** Agreement with the recursions *)

Lemma scanBandsWf_bigGapFrom i levs gaps IPStd BigGap :
  Z.of_nat (length levs) ≤ INT_MAX → 0 ≤ i →
  scanBandsWf i levs gaps IPStd BigGap =
    bigGapFrom (drop (Z.to_nat i) levs) i gaps IPStd BigGap.
Proof.
  intros Hlen Hi. funelim (scanBandsWf i levs gaps IPStd BigGap); loop_cases;
    rewrite ?drop_ge by lia; try done;
    match goal with
    | H : vec_get ?v ?i = Fault _ |- _ =>
        destruct (proj2 (vec_get_is_Ok v i)) as [? ?]; [lia|congruence]
    | H : vec_get _ _ = Ok _ |- _ =>
        apply vec_get_Ok in H as [_ H]; rewrite (drop_S _ _ _ H); simpl
    end;
    match goal with H : F32.leb _ _ = _ |- _ => rewrite H end; [done|].
  match goal with IH : _ → _ → scanBandsWf _ _ _ _ _ = _ |- _ => rewrite IH by lia end.
  by replace (Z.to_nat (i + 1)) with (S (Z.to_nat i)) by lia.
Qed.

Lemma selectBigGapWf_selectBigGap sl IPStd :
  Z.of_nat (length (StandardLevels_ sl)) ≤ INT_MAX →
  selectBigGapWf sl IPStd = selectBigGap opts sl IPStd.
Proof. intros Hlen. unfold selectBigGapWf. by rewrite scanBandsWf_bigGapFrom. Qed.

Lemma checkLevelWf_checkLevel tObsFinal j s :
  Z.of_nat (length (StandardLevels_ (levels s.1))) ≤ INT_MAX →
  checkLevelWf tObsFinal j s = checkLevel opts K tObsFinal j s.
Proof.
  destruct s as [st k]. intros Hlen. unfold checkLevelWf, checkLevel.
  repeat (apply mbind_ext; intros ?). case_match; [done|].
  repeat (apply mbind_ext; intros ?). by rewrite selectBigGapWf_selectBigGap.
Qed.

Lemma checkLevelsWf_checkLevels tObsFinal st :
  NumStd_ (levels st) ≤ INT_MAX →
  Z.of_nat (length (StandardLevels_ (levels st))) ≤ INT_MAX →
  checkLevelsWf tObsFinal st = checkLevels opts K tObsFinal st.
Proof.
  intros Hstd Hlen. unfold checkLevelsWf, checkLevels.
  rewrite forIntWf_foldM, Z.sub_0_r by done.
  apply (foldM_ext_inv (λ s, levels s.1 = levels st)); [| |done].
  - intros j s Hs. apply checkLevelWf_checkLevel. by rewrite Hs.
  - intros j [t k] [t' k'] Hs [[] _]%checkLevel_frame. simpl in *. congruence.
Qed.

(** C31: the method with its two loops written as the code writes them,
    each with an [int] counter that is tested, used and incremented,
    the inner one left by [break], is the method the development
    reasons about: the loops end and their counters do not overflow,
    given that the number of levels to check is an [int], that the
    band table has at most [INT_MAX] entries and that the classifier
    honours its contract. *)
Theorem runCheckWf_runCheck `{!ClassifierOk C} n st :
  n ≤ INT_MAX → Z.of_nat (length (StandardLevels_ (levels st))) ≤ INT_MAX →
  runCheckWf n st = runCheck opts K n st.
Proof.
  intros Hn Hlen. unfold runCheckWf, runCheck, checkProfileWf, checkProfile.
  do 2 (case_match; [done|]). simpl.
  destruct (calcStdLevels _ _ _ _ _) as [sl|] eqn:Hsl; simpl; [|done].
  repeat (apply mbind_ext; intros ?). simpl.
  apply calc_classified in Hsl as Hcl. apply calc_tables in Hsl as [E _].
  destruct Hcl. rewrite checkLevelsWf_checkLevels; simpl; [done|lia|by rewrite E].
Qed.

End LoopsWf.
