(* ===== verification/InterpEffects.v ===== *)
(** * Effects of the interpolation check

    What [runCheck] writes, as a function of the list of failures it
    found.  A failure is the triple (standard level, bracket below,
    bracket above) of a failed tolerance test, in the order the loop met
    them; the debug log records them, and [failuresLogged] reads them
    back from it.  [effects] states that the flags
    are the old ones with the interpolation bit set on every level of
    every triple ([mark3]), the level errors are the old ones counted up
    once per participation ([tally3]), and the error counters are counted
    up once per triple ([bump]).  [checkLevels_effects] proves it of the
    loop, [runCheck_effects] of the method; [checkLevels_level_outcome]
    reads the flags and the level errors level by level;
    [runCheck_members] gives what the call leaves in the members of the
    check. *)

From Stdlib Require Import ZArith Lia SpecFloat.
From stdpp Require Import base tactics option list numbers sets.
From S2P Require Import Prelude Float32 StdLevels InterpCheck.

#[local] Open Scope Z_scope.

(** ** Total descriptions of the updates *)

(** A failure: standard level, bracket below, bracket above. *)
Definition triple : Type := Z * Z * Z.

(** The failure a debug line announces, if it is the first line of the
    four a failed test logs. *)
Definition failureOf (e : Event) : option triple :=
  match e with DebugFailed j b a => Some (j, b, a) | _ => None end.

(** The failures a log records, oldest first. *)
Definition failuresLogged (l : list Event) : list triple := omap failureOf l.

(** [v[0] += k] *)
Definition bump (k : Z) (v : list Z) : list Z := alter (Z.add k) 0%nat v.

(** [v[i] |= m] *)
Definition mark (m : Z) (i : Z) (v : list Z) : list Z :=
  alter (λ x, Z.lor x m) (Z.to_nat i) v.

(** [v[i]++] *)
Definition tally (i : Z) (v : list Z) : list Z := alter Z.succ (Z.to_nat i) v.

Definition mark3 (m : Z) (v : list Z) (t : triple) : list Z :=
  let '(j, b, a) := t in mark m a (mark m b (mark m j v)).

Definition tally3 (v : list Z) (t : triple) : list Z :=
  let '(j, b, a) := t in tally a (tally b (tally j v)).

(** The levels of a failure, and of a list of failures, as positions. *)
Definition levelsOf (t : triple) : list nat :=
  let '(j, b, a) := t in [Z.to_nat j; Z.to_nat b; Z.to_nat a].

Definition touched (fs : list triple) : list nat := fs ≫= levelsOf.

(** The number of times level [i] takes part in a failure. *)
Definition participations (fs : list triple) (i : nat) : Z :=
  Z.of_nat (length (filter (eq i) (touched fs))).

(** The state [st'] is [st] after the failures [fs]. *)
Record effects (m : Z) (st : State) (fs : list triple) (st' : State) : Prop := mkEffects {
  eff_log : failuresLogged (log st') = failuresLogged (log st) ++ fs;
  eff_tFlags : tFlags st' = foldl (mark3 m) (tFlags st) fs;
  eff_LevErrors : LevErrors_ st' = foldl tally3 (LevErrors_ st) fs;
  eff_NumAnyErrors : NumAnyErrors st' = bump (Z.of_nat (length fs)) (NumAnyErrors st);
  eff_NumInterpErrors :
    NumInterpErrors st' = bump (Z.of_nat (length fs)) (NumInterpErrors st)
}.

(** ** Lemmas on the updates *)

Section update_facts.
Implicit Types (v : list Z) (i k m : Z).

Lemma alter_lookup_Some {A} (f : A → A) (l : list A) (i : nat) x :
  l !! i = Some x → alter f i l = <[i := f x]> l.
Proof.
  intros Hx. apply list_eq. intros j. destruct (decide (i = j)) as [->|].
  - rewrite list_lookup_alter_eq, Hx, list_lookup_insert_eq; [done|].
    by eapply lookup_lt_Some.
  - by rewrite list_lookup_alter_ne, list_lookup_insert_ne.
Qed.

Lemma vec_or_mark v i m v' : vec_or v i m = Ok v' → v' = mark m i v.
Proof.
  intros (x & Hx & _ & ->)%vec_or_Ok. unfold mark.
  by rewrite (alter_lookup_Some _ _ _ x).
Qed.

Lemma vec_incr_tally v i v' : vec_incr v i = Ok v' → v' = tally i v.
Proof.
  intros (x & Hx & _ & _ & ->)%vec_incr_Ok. unfold tally.
  by rewrite (alter_lookup_Some _ _ _ x).
Qed.

Lemma vec_incr_bump v v' : vec_incr v 0 = Ok v' → v' = bump 1 v.
Proof.
  intros H%vec_incr_tally. subst v'. unfold tally, bump. simpl.
  apply list_alter_ext; [|done]. intros. lia.
Qed.

Lemma bump_0 v : bump 0 v = v.
Proof. unfold bump. by apply list_alter_id. Qed.

Lemma bump_bump k1 k2 v : bump k1 (bump k2 v) = bump (k2 + k1) v.
Proof.
  unfold bump. rewrite list_alter_alter_eq.
  apply list_alter_ext; [|done]. intros. simpl. lia.
Qed.

Lemma bump_lookup k v : bump k v !! 0%nat = Z.add k <$> v !! 0%nat.
Proof. apply list_lookup_alter_eq. Qed.

Lemma mark_lookup m i v (j : nat) :
  mark m i v !! j = (if decide (j = Z.to_nat i) then (λ x, Z.lor x m) else id) <$> v !! j.
Proof.
  unfold mark. case_decide as Hj.
  - subst j. apply list_lookup_alter_eq.
  - rewrite list_lookup_alter_ne by done. by rewrite option_fmap_id.
Qed.

Lemma tally_lookup i v (j : nat) :
  tally i v !! j = (if decide (j = Z.to_nat i) then Z.succ else id) <$> v !! j.
Proof.
  unfold tally. case_decide as Hj.
  - subst j. apply list_lookup_alter_eq.
  - rewrite list_lookup_alter_ne by done. by rewrite option_fmap_id.
Qed.

Lemma lor_lor x m : Z.lor (Z.lor x m) m = Z.lor x m.
Proof. by rewrite <- Z.lor_assoc, Z.lor_diag. Qed.

Lemma mark3_lookup m v t (i : nat) :
  mark3 m v t !! i =
  (if decide (i ∈ levelsOf t) then (λ x, Z.lor x m) else id) <$> v !! i.
Proof.
  destruct t as [[j b] a]. unfold mark3, levelsOf. rewrite !mark_lookup.
  destruct (v !! i) as [x|]; simpl; [|done].
  repeat case_decide; simpl; rewrite ?lor_lor; try done; set_solver.
Qed.

(** The flag word of a level after the failures [fs]: the interpolation
    bit is set if the level takes part in one of them. *)
Lemma foldl_mark3_lookup m fs v (i : nat) :
  foldl (mark3 m) v fs !! i =
  (if decide (i ∈ touched fs) then (λ x, Z.lor x m) else id) <$> v !! i.
Proof.
  revert v. induction fs as [|t fs IH]; intros v; cbn [foldl].
  { case_decide as Hi; [by apply elem_of_nil in Hi|by rewrite option_fmap_id]. }
  rewrite IH, mark3_lookup. change (touched (t :: fs)) with (levelsOf t ++ touched fs).
  destruct (v !! i) as [x|]; simpl; [|done].
  repeat case_decide; simpl; rewrite ?lor_lor; try done; set_solver.
Qed.

Lemma tally3_lookup v t (i : nat) :
  tally3 v t !! i = Z.add (participations [t] i) <$> v !! i.
Proof.
  destruct t as [[j b] a]. unfold tally3, participations, touched. simpl.
  rewrite !tally_lookup. destruct (v !! i) as [x|]; simpl; [|done].
  rewrite !filter_cons, filter_nil.
  repeat case_decide; simpl; f_equal; lia.
Qed.

Lemma participations_cons t fs (i : nat) :
  participations (t :: fs) i = participations [t] i + participations fs i.
Proof.
  unfold participations. change (touched (t :: fs)) with (levelsOf t ++ touched fs).
  change (touched [t]) with (levelsOf t ++ []).
  rewrite app_nil_r, filter_app, length_app. lia.
Qed.

(** The error count of a level after the failures [fs]. *)
Lemma foldl_tally3_lookup fs v (i : nat) :
  foldl tally3 v fs !! i = Z.add (participations fs i) <$> v !! i.
Proof.
  revert v. induction fs as [|t fs IH]; intros v; cbn [foldl].
  { by destruct (v !! i). }
  rewrite IH, tally3_lookup, (participations_cons t fs).
  destruct (v !! i) as [x|]; simpl; [|done]. f_equal. lia.
Qed.

(** The order of the failures does not matter to flags and counts:
    the updates respect permutation of the failures. *)
#[global] Instance touched_Permutation : Proper ((≡ₚ) ==> (≡ₚ)) touched.
Proof. intros fs fs' H. unfold touched. by rewrite H. Qed.

#[global] Instance participations_Permutation :
  Proper ((≡ₚ) ==> (=) ==> (=)) participations.
Proof. intros fs fs' H i ? <-. unfold participations. by rewrite H. Qed.

#[global] Instance foldl_mark3_Permutation m v :
  Proper ((≡ₚ) ==> (=)) (foldl (mark3 m) v).
Proof.
  intros fs fs' H%touched_Permutation. apply list_eq. intros i.
  rewrite !foldl_mark3_lookup. destruct (v !! i); simpl; [|done].
  repeat case_decide; try done; [rewrite <- H in *|rewrite H in *]; done.
Qed.

#[global] Instance foldl_tally3_Permutation v : Proper ((≡ₚ) ==> (=)) (foldl tally3 v).
Proof.
  intros fs fs' H. apply list_eq. intros i. rewrite !foldl_tally3_lookup. by rewrite H.
Qed.

End update_facts.

(** ** [effects] composes *)

Lemma failuresLogged_app l l' :
  failuresLogged (l ++ l') = failuresLogged l ++ failuresLogged l'.
Proof. apply omap_app. Qed.

Lemma effects_refl m st : effects m st [] st.
Proof. split; simpl; rewrite ?app_nil_r, ?bump_0; done. Qed.

Lemma effects_app m st fs t gs u :
  effects m st fs t → effects m t gs u → effects m st (fs ++ gs) u.
Proof.
  intros [] []. split.
  - rewrite app_assoc. congruence.
  - rewrite foldl_app. congruence.
  - rewrite foldl_app. congruence.
  - rewrite length_app, Nat2Z.inj_add, <- bump_bump. congruence.
  - rewrite length_app, Nat2Z.inj_add, <- bump_bump. congruence.
Qed.

(** ** The loop *)

Section Effects.
Context {C : Classifier}.
Variables (opts : Options) (K : Constants).

#[local] Abbreviation IF := (InterpolationFlag K).

(** The four lines of a failed test record one failure. *)
Lemma failureLines_logged st tObsFinal jlev SigB SigA lines :
  failureLines K st tObsFinal jlev SigB SigA = Ok lines →
  failuresLogged lines = [(jlev, SigB, SigA)].
Proof.
  intros (c & b & a & (? & ? & ? & ? & _ & _ & _ & _ & ->)%centralLine_Ok &
          (? & ? & ? & _ & _ & _ & ->)%bracketLine_Ok &
          (? & ? & ? & _ & _ & _ & ->)%bracketLine_Ok & ->)%failureLines_Ok.
  done.
Qed.

Lemma flagFailure_effects tObsFinal jlev SigB SigA st k st' k' :
  flagFailure K tObsFinal jlev SigB SigA (st, k) = Ok (st', k') →
  effects IF st [(jlev, SigB, SigA)] st' ∧ k' = k + 1.
Proof.
  intros (nae & nie & f1 & f2 & f3 & e1 & e2 & e3 & lines & Hnae & Hnie & _ &
          Hf1 & Hf2 & Hf3 & He1 & He2 & He3 & Hlines & [= -> ->])%flagFailure_Ok.
  apply vec_or_mark in Hf1, Hf2, Hf3. apply vec_incr_tally in He1, He2, He3.
  apply vec_incr_bump in Hnae, Hnie. apply failureLines_logged in Hlines. subst.
  split; [|done]. split; simpl; [|done..]. by rewrite failuresLogged_app, Hlines.
Qed.

(** An iteration adds at most one failure, and its effects. *)
Lemma checkLevel_effects tObsFinal j st k st' k' :
  checkLevel opts K tObsFinal j (st, k) = Ok (st', k') →
  ∃ fs, effects IF st fs st' ∧ k' = k + Z.of_nat (length fs) ∧ (length fs ≤ 1)%nat.
Proof.
  intros [[= -> ->]|(jlev & SigB & SigA & v & ti & _ & _ & _ & _ & Hti & Hs)]%checkLevel_cases.
  { exists []. split; [apply effects_refl|simpl; lia]. }
  destruct Hs as [[= -> ->]|[[] ->]%flagFailure_effects].
  - exists []. split; [|simpl; lia]. split; simpl; rewrite ?app_nil_r, ?bump_0; done.
  - exists [(jlev, SigB, SigA)]. split; [by split|simpl; lia].
Qed.

(** The loop's effects are those of the failures it logged, and
    [NumErrors] is their number. *)
Lemma checkLevels_effects tObsFinal st st' k :
  checkLevels opts K tObsFinal st = Ok (st', k) →
  ∃ fs, effects IF st fs st' ∧ k = Z.of_nat (length fs).
Proof.
  unfold checkLevels. intros H.
  apply (foldM_invariant
    (λ s, ∃ fs, effects IF st fs s.1 ∧ s.2 = Z.of_nat (length fs))) in H; [done| |].
  - intros a [t kt] [t' kt'] _ (fs & Hfs & Hk) (gs & Hgs & -> & _)%checkLevel_effects.
    simpl in *. exists (fs ++ gs). split; [by eapply effects_app|].
    rewrite length_app. lia.
  - exists []. split; [apply effects_refl|done].
Qed.

(** After the loop, level by level: the flag word of a level has
    gained the interpolation bit if the level is the standard level or a
    bracket of a failed test and is as before otherwise, and its error
    count has grown by the number of failed tests it took part in. *)
Theorem checkLevels_level_outcome tObsFinal st st' k :
  checkLevels opts K tObsFinal st = Ok (st', k) →
  ∃ fs, k = Z.of_nat (length fs) ∧
    failuresLogged (log st') = failuresLogged (log st) ++ fs ∧
    ∀ i : nat,
      tFlags st' !! i =
        (if decide (i ∈ touched fs) then (λ x, Z.lor x IF) else id) <$> tFlags st !! i ∧
      LevErrors_ st' !! i = Z.add (participations fs i) <$> LevErrors_ st !! i.
Proof.
  intros (fs & [Hlog Hfl Hle _ _] & ->)%checkLevels_effects.
  exists fs. split; [done|]. split; [done|]. intros i.
  by rewrite Hfl, Hle, foldl_mark3_lookup, foldl_tally3_lookup.
Qed.

(** ** The method *)

(** The vectors and members a call leaves as they were, whatever it
    does. *)
Definition same_inputs (st st' : State) : Prop :=
  pressures st' = pressures st ∧ tObs st' = tObs st ∧ tBkg st' = tBkg st ∧
  tObsCorrection st' = tObsCorrection st.

(** What a call may change of the vectors it borrows: nothing of the
    inputs, the interpolation bit of a flag word, and counters upwards. *)
Record changes (m : Z) (st st' : State) : Prop := mkChanges {
  ch_inputs : same_inputs st st';
  ch_tFlags : Forall2 (flag_step m) (tFlags st) (tFlags st');
  ch_NumAnyErrors : Forall2 count_step (NumAnyErrors st) (NumAnyErrors st');
  ch_NumInterpErrors : Forall2 count_step (NumInterpErrors st) (NumInterpErrors st');
  ch_NumInterpErrObs : Forall2 count_step (NumInterpErrObs st) (NumInterpErrObs st')
}.

Lemma countObs_Ok st1 k st' :
  countObs (st1, k) = Ok st' ↔
  k ≤ 0 ∧ st' = st1 ∨
  0 < k ∧ ∃ nio, vec_incr (NumInterpErrObs st1) 0 = Ok nio ∧
                 st' = set_NumInterpErrObs nio st1.
Proof.
  unfold countObs. destruct (Z.ltb_spec 0 k); rewrite ?bind_Ok; split.
  - intros (nio & ? & [= <-]). eauto.
  - intros [[? _]|[_ (nio & ? & ->)]]; [lia|eauto].
  - intros [= <-]. auto.
  - intros [[_ ->]|[? _]]; [done|lia].
Qed.

(** The part after the validation, unfolded: the classification, the
    two assignments, the loop, and the final counter. *)
Lemma checkProfile_Ok n st st' :
  checkProfile opts K n st = Ok st' →
  ∃ sl st1 k,
    let tObsFinal := correctVector (tObs st) (tObsCorrection st) in
    calcStdLevels n (pressures st) tObsFinal (tFlags st) (levels st) = Ok sl ∧
    0 ≤ n ∧
    checkLevels opts K tObsFinal
      (set_tInterp (replicate (Z.to_nat n) (missingValueFloat K))
         (set_LevErrors (replicate (Z.to_nat n) (-1)) (set_levels sl st))) = Ok (st1, k) ∧
    (k ≤ 0 ∧ st' = st1 ∨
     0 < k ∧ ∃ nio, vec_incr (NumInterpErrObs st1) 0 = Ok nio ∧
                    st' = set_NumInterpErrObs nio st1).
Proof.
  unfold checkProfile. intros H.
  apply bind_Ok in H as (sl & Hsl & H).
  apply bind_Ok in H as (le & [Hn ->]%vec_assign_Ok & H).
  apply bind_Ok in H as (ti & [_ ->]%vec_assign_Ok & H).
  apply bind_Ok in H as ([st1 k] & Hloop & H%countObs_Ok).
  exists sl, st1, k. by repeat split.
Qed.

(** A call on valid input, unfolded. *)
Lemma runCheck_valid_Ok n st st' :
  anyVectorEmpty st = false → allVectorsSameSize st = true →
  runCheck opts K n st = Ok st' →
  ∃ sl st1 k,
    let tObsFinal := correctVector (tObs st) (tObsCorrection st) in
    calcStdLevels n (pressures st) tObsFinal (tFlags st) (levels st) = Ok sl ∧
    0 ≤ n ∧
    checkLevels opts K tObsFinal
      (set_tInterp (replicate (Z.to_nat n) (missingValueFloat K))
         (set_LevErrors (replicate (Z.to_nat n) (-1))
            (set_levels sl (add_log DebugCheck st)))) = Ok (st1, k) ∧
    (k ≤ 0 ∧ st' = st1 ∨
     0 < k ∧ ∃ nio, vec_incr (NumInterpErrObs st1) 0 = Ok nio ∧
                    st' = set_NumInterpErrObs nio st1).
Proof.
  intros He Hs. rewrite runCheck_valid by done.
  apply (checkProfile_Ok n (add_log DebugCheck st)).
Qed.

(** A call that returns leaves validity as it was. *)
Lemma changes_valid m st st' :
  changes m st st' →
  anyVectorEmpty st' = anyVectorEmpty st ∧ allVectorsSameSize st' = allVectorsSameSize st.
Proof.
  intros [(Hp & Ho & Hb & Hc) Hf%Forall2_length _ _ _].
  unfold anyVectorEmpty, allVectorsSameSize. rewrite Hp, Ho, Hb, Hc, Hf.
  split; [|done]. do 2 f_equal. apply bool_decide_ext.
  by destruct (tFlags st), (tFlags st').
Qed.

(** Setting the bit on the same levels again changes nothing. *)
Lemma foldl_mark3_idemp m fs v : foldl (mark3 m) (foldl (mark3 m) v fs) fs = foldl (mark3 m) v fs.
Proof.
  apply list_eq. intros i. rewrite !foldl_mark3_lookup.
  destruct (v !! i) as [x|]; simpl; [|done]. case_decide; simpl; by rewrite ?lor_lor.
Qed.

(** C1: on valid input, everything [runCheck] writes is determined by the
    list [fs] of failed triples it logged, in loop order: the flags are
    the old flags with the interpolation bit set on the three levels of
    each triple; [LevErrors_] is -1 everywhere, counted up once for each
    participation of a level in a triple; [NumAnyErrors[0]] and
    [NumInterpErrors[0]] grow by the number of triples;
    [NumInterpErrObs[0]] grows by one if there is any triple and is
    untouched otherwise; the input vectors are unchanged. *)
Theorem runCheck_effects n st st' :
  anyVectorEmpty st = false → allVectorsSameSize st = true →
  runCheck opts K n st = Ok st' →
  ∃ fs : list triple,
    failuresLogged (log st') = failuresLogged (log st) ++ fs ∧
    tFlags st' = foldl (mark3 IF) (tFlags st) fs ∧
    LevErrors_ st' = foldl tally3 (replicate (Z.to_nat n) (-1)) fs ∧
    NumAnyErrors st' = bump (Z.of_nat (length fs)) (NumAnyErrors st) ∧
    NumInterpErrors st' = bump (Z.of_nat (length fs)) (NumInterpErrors st) ∧
    NumInterpErrObs st' = bump (if fs is [] then 0 else 1) (NumInterpErrObs st) ∧
    same_inputs st st'.
Proof.
  intros He Hs (sl & st1 & k & Hsl & Hn & Hloop & Hk)%runCheck_valid_Ok; [|done..].
  apply checkLevels_effects in Hloop as Heff. destruct Heff as (fs & [] & ->).
  apply checkLevels_frame in Hloop as [[] _]. simpl in *.
  rewrite failuresLogged_app, app_nil_r in eff_log0.
  exists fs. destruct Hk as [[Hk ->]|[Hk (nio & ->%vec_incr_bump & ->)]]; simpl.
  - destruct fs; [|simpl in Hk; lia]. rewrite (bump_0 (NumInterpErrObs st)).
    by repeat split.
  - destruct fs; [simpl in Hk; lia|]. repeat split; try done. congruence.
Qed.

(** Whatever the input, a call that returns has changed each flag word
    at most by setting the interpolation bit, has changed the size of no
    vector of the data handler, and has not decreased a counter. *)
Lemma runCheck_changes n st st' :
  runCheck opts K n st = Ok st' → changes IF st st'.
Proof.
  destruct (runCheck_cases opts K n st) as [(He & Hs & _)|[w ->]];
    [|intros [= <-]; by repeat split].
  intros (sl & st1 & k & Hsl & Hn & Hloop & Hk)%runCheck_valid_Ok; [|done..].
  apply checkLevels_frame in Hloop as [[] _]. simpl in *.
  destruct Hk as [[Hk ->]|[Hk (nio & Hnio%vec_incr_step & ->)]]; simpl;
    repeat split; try done; by rewrite <- ?fr_NumInterpErrObs.
Qed.

(** What a call that returns does to the members of the check: on
    invalid input nothing; on valid input the classification is the
    one [calcStdLevels] returned and the two result vectors have one
    entry per level to check. *)
Lemma runCheck_members n st st' :
  runCheck opts K n st = Ok st' →
  (levels st' = levels st ∧ LevErrors_ st' = LevErrors_ st ∧ tInterp_ st' = tInterp_ st) ∨
  (calcStdLevels n (pressures st) (correctVector (tObs st) (tObsCorrection st))
     (tFlags st) (levels st) = Ok (levels st') ∧
   Z.of_nat (length (LevErrors_ st')) = n ∧ Z.of_nat (length (tInterp_ st')) = n).
Proof.
  destruct (runCheck_cases opts K n st) as [(He & Hs & _)|[w ->]];
    [|intros [= <-]; by left].
  intros (sl & st1 & k & Hsl & Hn & Hloop & Hk)%runCheck_valid_Ok; [|done..].
  apply checkLevels_frame in Hloop as [[] _]. simpl in *. right.
  apply Forall2_length in fr_LevErrors.
  rewrite length_replicate in fr_LevErrors. rewrite length_replicate in fr_tInterp_len.
  assert (levels st' = sl ∧ LevErrors_ st' = LevErrors_ st1 ∧ tInterp_ st' = tInterp_ st1)
    as (-> & -> & ->) by (by destruct Hk as [[_ ->]|[_ (nio & _ & ->)]]).
  split; [done|]. lia.
Qed.

End Effects.
