(* ===== verification/InterpCounting.v ===== *)
(** * Conservation laws of the counters

    A failed test of [runCheck] counts in five places: [NumAnyErrors[0]],
    [NumInterpErrors[0]] and the local [NumErrors] once each (lines
    107-109), and [LevErrors_] at the standard level and at its two
    brackets (lines 116-118).  The outputs of a call are therefore not
    independent: whatever the profile and its classification, the level
    errors add up to three per failure counted in [NumInterpErrors[0]],
    less one per level for their initial value -1; the two global
    counters grow by the same amount; and [NumInterpErrObs[0]] grows by
    one exactly when that amount is not zero.

    [balance] is the invariant of the loop that gives these laws: each
    iteration leaves the differences between the counts and [NumErrors]
    as they were.  It is proved of the body ([checkLevel_balance]) and
    taken through the loop by [foldM_invariant]. *)

From Stdlib Require Import ZArith Lia SpecFloat.
From stdpp Require Import base tactics option list numbers.
From S2P Require Import Prelude Float32 StdLevels InterpCheck InterpEffects.

#[local] Open Scope Z_scope.

(** ** Sums and counters *)

(** The sum of the entries of a vector of [int]. *)
Definition sumZ (v : list Z) : Z := foldr Z.add 0 v.

(** The counter [v[0]]; 0 stands for a counter without an entry, which
    a call that returns has not incremented. *)
Definition counter (v : list Z) : Z := default 0 (v !! 0%nat).

Lemma sumZ_insert v (i : nat) x y : v !! i = Some x → sumZ (<[i := y]> v) = sumZ v - x + y.
Proof.
  revert i. induction v as [|z v IH]; intros [|i] Hx; simplify_eq/=; [lia|].
  rewrite (IH i) by done. lia.
Qed.

Lemma sumZ_replicate n x : sumZ (replicate n x) = Z.of_nat n * x.
Proof. induction n as [|n IH]; simpl; [done|]. rewrite IH. lia. Qed.

Lemma vec_incr_sumZ v i v' : vec_incr v i = Ok v' → sumZ v' = sumZ v + 1.
Proof. intros (x & Hx & _ & _ & ->)%vec_incr_Ok. rewrite (sumZ_insert _ _ x) by done. lia. Qed.

Lemma vec_incr_counter v v' : vec_incr v 0 = Ok v' → counter v' = counter v + 1.
Proof.
  intros (x & Hx & _ & _ & ->)%vec_incr_Ok. unfold counter.
  change (Z.to_nat 0) with 0%nat in *.
  rewrite Hx, list_lookup_insert_eq by (by eapply lookup_lt_Some). done.
Qed.

(** ** The invariant of the loop *)

(** From [(st, k)] to [(st', k')] the counts have grown as [NumErrors]
    has: the level errors by three for each failure, the two global
    counters by one. *)
Record balance (s s' : State * Z) : Prop := mkBalance {
  bal_LevErrors : sumZ (LevErrors_ s'.1) - 3 * s'.2 = sumZ (LevErrors_ s.1) - 3 * s.2;
  bal_NumAnyErrors : counter (NumAnyErrors s'.1) - s'.2 = counter (NumAnyErrors s.1) - s.2;
  bal_NumInterpErrors :
    counter (NumInterpErrors s'.1) - s'.2 = counter (NumInterpErrors s.1) - s.2;
  bal_NumInterpErrObs : NumInterpErrObs s'.1 = NumInterpErrObs s.1
}.

#[global] Instance balance_preorder : PreOrder balance.
Proof.
  split; [by intros s; split|].
  intros s1 s2 s3 [] []. split; by etrans.
Qed.

Section Counting.
Context {C : Classifier}.
Variables (opts : Options) (K : Constants).

Lemma flagFailure_balance tObsFinal jlev SigB SigA s s' :
  flagFailure K tObsFinal jlev SigB SigA s = Ok s' → balance s s'.
Proof.
  destruct s as [st k].
  intros (nae & nie & f1 & f2 & f3 & e1 & e2 & e3 & lines & Hnae & Hnie & _ &
          _ & _ & _ & He1 & He2 & He3 & _ & ->)%flagFailure_Ok.
  apply vec_incr_sumZ in He1, He2, He3. apply vec_incr_counter in Hnae, Hnie.
  split; simpl; [lia..|done].
Qed.

Lemma checkLevel_balance tObsFinal j s s' :
  checkLevel opts K tObsFinal j s = Ok s' → balance s s'.
Proof.
  destruct s as [st k].
  intros [->|(jlev & SigB & SigA & v & ti & _ & _ & _ & _ & _ & [->|Hs])]%checkLevel_cases;
    [done|by split|].
  apply flagFailure_balance in Hs as []. by split.
Qed.

Lemma checkLevels_balance tObsFinal st st' k :
  checkLevels opts K tObsFinal st = Ok (st', k) → balance (st, 0) (st', k).
Proof.
  unfold checkLevels. apply foldM_invariant; [|done].
  intros j s s' _ Hs Hbody%checkLevel_balance. by etrans.
Qed.

(** C19: the outputs of a call on valid input obey three conservation
    laws, whatever the profile and its classification.  With [failed]
    the growth of [NumInterpErrors[0]]: the entries of [LevErrors_] add
    up to three per failure less one per level; [NumAnyErrors[0]] has
    grown by [failed] too; [NumInterpErrObs[0]] has grown by one if
    [failed] is not zero and is unchanged otherwise; and [failed] is at
    most the number of standard levels. *)
Theorem runCheck_conservation n st st' :
  anyVectorEmpty st = false → allVectorsSameSize st = true →
  runCheck opts K n st = Ok st' →
  let failed := counter (NumInterpErrors st') - counter (NumInterpErrors st) in
  sumZ (LevErrors_ st') = 3 * failed - n ∧
  counter (NumAnyErrors st') - counter (NumAnyErrors st) = failed ∧
  counter (NumInterpErrObs st') - counter (NumInterpErrObs st) = (if 0 <? failed then 1 else 0) ∧
  0 ≤ failed ≤ Z.max 0 (NumStd_ (levels st')).
Proof.
  intros He Hs (sl & st1 & k & _ & Hn & Hloop & Hk)%runCheck_valid_Ok; [|done..].
  pose proof (checkLevels_balance _ _ _ _ Hloop) as [HL HA HI HO].
  apply checkLevels_frame in Hloop as [[] Hbound]. simpl in *.
  rewrite sumZ_replicate in HL.
  assert (counter (NumInterpErrors st') = counter (NumInterpErrors st1) ∧
          counter (NumAnyErrors st') = counter (NumAnyErrors st1) ∧
          LevErrors_ st' = LevErrors_ st1 ∧ levels st' = levels st1 ∧
          counter (NumInterpErrObs st') - counter (NumInterpErrObs st) =
            if 0 <? k then 1 else 0) as (-> & -> & -> & -> & ->).
  { destruct Hk as [[Hk ->]|(Hk & nio & Hnio%vec_incr_counter & ->)]; simpl.
    - rewrite HO, (proj2 (Z.ltb_ge 0 k)) by done. repeat split; lia.
    - rewrite Hnio, HO, (proj2 (Z.ltb_lt 0 k)) by done. repeat split; lia. }
  replace (counter (NumInterpErrors st1) - counter (NumInterpErrors st)) with k by lia.
  rewrite fr_levels. simpl. repeat split; lia.
Qed.

End Counting.
