(* ===== verification/Profiles.v ===== *)
(** * Several profiles and the counters they share

    The three error counters are vectors of the profile data handler
    like the others, but the handler keeps them from one profile to the
    next: they accumulate over the profiles of a batch (section 3 of
    the specification).  [runCheck] reads a counter only to increment
    it (lines 107-108 and 140), so what it decides does not depend on
    the counts so far, and what it adds to them does not either.

    [sameButCounters] relates two states of the check that differ in
    the counters only.  Two runs from such states need not fault alike
    (a counter may be missing or full in one of them), so they are
    related by [res_sim]: when both return, they return states that
    differ in the counters only and have counted the same number of
    failures ([runCheck_counters]).  It follows that two profiles can
    be checked in either order ([profiles_commute]). *)

From Stdlib Require Import ZArith Lia SpecFloat.
From stdpp Require Import base tactics option list numbers.
From S2P Require Import Prelude Float32 StdLevels InterpCheck InterpEffects.

#[local] Open Scope Z_scope.

(** ** The counters *)

(** [NumAnyErrors], [NumInterpErrors] and [NumInterpErrObs]. *)
Definition Counters : Type := list Z * list Z * list Z.

Definition counters (st : State) : Counters :=
  (NumAnyErrors st, NumInterpErrors st, NumInterpErrObs st).

(** The profile [st] bound in a handler whose counters are [c]. *)
Definition withCounters (c : Counters) (st : State) : State :=
  set_NumInterpErrObs c.2 (set_NumInterpErrors c.1.2 (set_NumAnyErrors c.1.1 st)).

(** The counters after a profile with [k] failed tests. *)
Definition counted (k : Z) (c : Counters) : Counters :=
  (bump k c.1.1, bump k c.1.2, bump (if 0 <? k then 1 else 0) c.2).

Lemma bump_comm k k' v : bump k (bump k' v) = bump k' (bump k v).
Proof. by rewrite !bump_bump, Z.add_comm. Qed.

Lemma counted_comm k k' c : counted k (counted k' c) = counted k' (counted k c).
Proof. unfold counted. simpl. f_equal; [f_equal|]; apply bump_comm. Qed.

Lemma counted_0 c : counted 0 c = c.
Proof. destruct c as [[a e] o]. unfold counted. simpl. by rewrite !bump_0. Qed.

(** ** States up to the counters *)

Record sameButCounters (st st' : State) : Prop := mkSameButCounters {
  sc_pressures : pressures st = pressures st';
  sc_tObs : tObs st = tObs st';
  sc_tBkg : tBkg st = tBkg st';
  sc_tFlags : tFlags st = tFlags st';
  sc_tObsCorrection : tObsCorrection st = tObsCorrection st';
  sc_levels : levels st = levels st';
  sc_LevErrors : LevErrors_ st = LevErrors_ st';
  sc_tInterp : tInterp_ st = tInterp_ st';
  sc_log : log st = log st'
}.

#[global] Instance sameButCounters_equiv : Equivalence sameButCounters.
Proof.
  split.
  - by intros st; split.
  - intros st st' []; split; by symmetry.
  - intros st1 st2 st3 [] []; split; by etrans.
Qed.

#[global] Instance sameButCounters_dec st st' : Decision (sameButCounters st st').
Proof.
  refine (cast_if (decide (pressures st = pressures st' ∧ tObs st = tObs st' ∧
    tBkg st = tBkg st' ∧ tFlags st = tFlags st' ∧ tObsCorrection st = tObsCorrection st' ∧
    levels st = levels st' ∧ LevErrors_ st = LevErrors_ st' ∧ tInterp_ st = tInterp_ st' ∧
    log st = log st'))); [by split; intuition|by intros []; intuition].
Defined.

Lemma counters_withCounters c st : counters (withCounters c st) = c.
Proof. by destruct c as [[a e] o]. Qed.

Lemma withCounters_same c c' st : sameButCounters (withCounters c st) (withCounters c' st).
Proof. by split. Qed.

(** The state of the loop: [NumErrors] is the same in both runs. *)
Definition sameCount : relation (State * Z) := prod_relation sameButCounters eq.

(** Two runs that counted the same number of failures, from [st1] and
    from [st2]. *)
Definition sameGrowth (st1 st2 : State) : relation State :=
  λ st1' st2', sameButCounters st1' st2' ∧
    ∃ k, 0 ≤ k ∧ counters st1' = counted k (counters st1) ∧
         counters st2' = counted k (counters st2).

Section Profiles.
Context {C : Classifier}.
Variables (opts : Options) (K : Constants).

Lemma flagFailure_counters tObsFinal jlev SigB SigA :
  (sameCount ==> res_sim sameCount)%signature
    (flagFailure K tObsFinal jlev SigB SigA) (flagFailure K tObsFinal jlev SigB SigA).
Proof.
  intros [st k] [st' k'] [H Hk]. simpl in H, Hk. subst k'.
  unfold flagFailure, failureLines, centralLine, bracketLine. same_fields H.
  do 2 (eapply res_sim_bind; [apply res_sim_True|intros ? ? _]).
  both.
Qed.

#[local] Opaque flagFailure.

Lemma checkLevel_counters tObsFinal jlevstd :
  (sameCount ==> res_sim sameCount)%signature
    (checkLevel opts K tObsFinal jlevstd) (checkLevel opts K tObsFinal jlevstd).
Proof.
  intros [st k] [st' k'] [H Hk]. simpl in H, Hk. subst k'.
  unfold checkLevel, gapTooBig, interpolate. same_fields H. both; try (by split).
  apply flagFailure_counters. by split.
Qed.

Lemma checkLevels_counters tObsFinal st st' :
  sameButCounters st st' →
  res_sim sameCount (checkLevels opts K tObsFinal st) (checkLevels opts K tObsFinal st').
Proof.
  intros H. unfold checkLevels. rewrite (sc_levels _ _ H).
  apply foldM_res_sim; [intros j; apply checkLevel_counters|done|by split].
Qed.

(** The loop adds its count of failures to the two global counters. *)
Lemma checkLevels_counted tObsFinal st st' k :
  checkLevels opts K tObsFinal st = Ok (st', k) →
  0 ≤ k ∧ counters st' = (bump k (NumAnyErrors st), bump k (NumInterpErrors st), NumInterpErrObs st).
Proof.
  intros H. apply checkLevels_effects in H as Heff. destruct Heff as (fs & [] & ->).
  apply checkLevels_frame in H as [[] _]. split; [lia|]. unfold counters. congruence.
Qed.

(** The last step counts the profile if it had a failure. *)
Lemma countObs_counted st k st' :
  countObs (st, k) = Ok st' →
  sameButCounters st st' ∧
  counters st' =
    (NumAnyErrors st, NumInterpErrors st, bump (if 0 <? k then 1 else 0) (NumInterpErrObs st)).
Proof.
  intros [[Hk ->]|[Hk (nio & ->%vec_incr_bump & ->)]]%countObs_Ok.
  - rewrite (proj2 (Z.ltb_ge 0 k)), bump_0 by done. by split.
  - rewrite (proj2 (Z.ltb_lt 0 k)) by done. by split.
Qed.

(** The part of the method after the validation counts as many failures
    from [st2] as from [st1]. *)
Lemma checkProfile_counters n st1 st2 st1' st2' :
  sameButCounters st1 st2 →
  checkProfile opts K n st1 = Ok st1' → checkProfile opts K n st2 = Ok st2' →
  sameGrowth st1 st2 st1' st2'.
Proof.
  intros H (sl & t1 & k1 & Hsl & _ & Hloop1 & (Hs1 & Hd1)%countObs_Ok%countObs_counted)%checkProfile_Ok
    (sl2 & t2 & k2 & Hsl2 & _ & Hloop2 & (Hs2 & Hd2)%countObs_Ok%countObs_counted)%checkProfile_Ok.
  same_fields H. assert (sl2 = sl) as -> by congruence.
  assert (sameCount (t1, k1) (t2, k2)) as [Ht Hk].
  { eapply res_sim_Ok; [|exact Hloop1|exact Hloop2]. by apply checkLevels_counters. }
  simpl in Ht, Hk. subst k2.
  apply checkLevels_counted in Hloop1 as (Hk & [= Ha1 He1 Ho1]), Hloop2 as (_ & [= Ha2 He2 Ho2]).
  split; [by rewrite <- Hs1, <- Hs2|]. exists k1. split; [done|].
  rewrite Hd1, Hd2. unfold counted, counters. simpl in *.
  by rewrite Ha1, He1, Ho1, Ha2, He2, Ho2.
Qed.

Lemma anyVectorEmpty_counters st st' :
  sameButCounters st st' → anyVectorEmpty st = anyVectorEmpty st'.
Proof. intros H. same_fields H. done. Qed.

Lemma allVectorsSameSize_counters st st' :
  sameButCounters st st' → allVectorsSameSize st = allVectorsSameSize st'.
Proof. intros H. same_fields H. done. Qed.

Lemma add_log_counters e st st' :
  sameButCounters st st' → sameButCounters (add_log e st) (add_log e st').
Proof. intros []. split; simpl; congruence. Qed.

(** Two runs of the method from states that differ in the counters
    return, if both return, states that differ in the counters, and
    have added the same counts. *)
Lemma runCheck_counters n st1 st2 st1' st2' :
  sameButCounters st1 st2 →
  runCheck opts K n st1 = Ok st1' → runCheck opts K n st2 = Ok st2' →
  sameGrowth st1 st2 st1' st2'.
Proof.
  intros H. pose proof (add_log_counters DebugCheck _ _ H) as H'. unfold runCheck.
  rewrite <- (anyVectorEmpty_counters _ _ H'), <- (allVectorsSameSize_counters _ _ H').
  destruct (anyVectorEmpty _); [|destruct (negb _)];
    [intros [= <-] [= <-]; split;
      [destruct H; split; simpl; congruence|exists 0; by rewrite !counted_0]..|].
  by apply checkProfile_counters.
Qed.

(** C35: the order of two profiles does not matter.  A handler with
    the counters [c] checks the profile [A] and then the profile [B],
    which finds the counters as the check of [A] left them; another
    checks [B] and then [A].  If the four calls return, each profile
    has the same flags, level errors, interpolated values and log in
    both orders, and the counters are the same at the end. *)
Theorem profiles_commute c nA nB A B A1 B1 B2 A2 :
  runCheck opts K nA (withCounters c A) = Ok A1 →
  runCheck opts K nB (withCounters (counters A1) B) = Ok B1 →
  runCheck opts K nB (withCounters c B) = Ok B2 →
  runCheck opts K nA (withCounters (counters B2) A) = Ok A2 →
  sameButCounters A1 A2 ∧ sameButCounters B1 B2 ∧ counters B1 = counters A2.
Proof.
  intros HA1 HB1 HB2 HA2.
  destruct (runCheck_counters _ _ _ _ _ (withCounters_same c (counters B2) A) HA1 HA2)
    as (HA & kA & _ & EA1 & EA2).
  destruct (runCheck_counters _ _ _ _ _ (withCounters_same (counters A1) c B) HB1 HB2)
    as (HB & kB & _ & EB1 & EB2).
  split; [done|]. split; [done|].
  rewrite EB1, EA2, !counters_withCounters, EA1, EB2, !counters_withCounters.
  apply counted_comm.
Qed.

End Profiles.
