(* ===== verification/InterpTyping.v ===== *)
(** * The values of type [int]

    Flags, counters and level errors are C++ [int]s; the model holds
    them as integers and makes an overflow a fault.  [int_typed] says
    that every such value of a state is in the range of [int].  Each
    update of the loop keeps it ([vec_or_range], [vec_incr_range]): [|=]
    because the range of [int] is closed under bitwise or, [++] because
    a call that returns has not overflowed.  [runCheck_int_typed] is the
    invariant for the method. *)

From Stdlib Require Import ZArith Lia SpecFloat.
From stdpp Require Import base tactics option list numbers.
From S2P Require Import Prelude Float32 StdLevels InterpCheck InterpEffects.

#[local] Open Scope Z_scope.

(** Every [int] a state holds in a vector the check writes is in the
    range of [int]. *)
Record int_typed (st : State) : Prop := mkIntTyped {
  it_tFlags : Forall int_range (tFlags st);
  it_NumAnyErrors : Forall int_range (NumAnyErrors st);
  it_NumInterpErrors : Forall int_range (NumInterpErrors st);
  it_NumInterpErrObs : Forall int_range (NumInterpErrObs st);
  it_LevErrors : Forall int_range (LevErrors_ st)
}.

(** [int_typed] as a boolean test. *)
Definition all_int (v : list Z) : bool := forallb (λ z, bool_decide (int_range z)) v.

Definition int_typedb (st : State) : bool :=
  all_int (tFlags st) && all_int (NumAnyErrors st) && all_int (NumInterpErrors st)
  && all_int (NumInterpErrObs st) && all_int (LevErrors_ st).

Lemma all_int_correct v : all_int v = true ↔ Forall int_range v.
Proof.
  unfold all_int. rewrite forallb_forall, Forall_forall.
  split; intros H x Hx; specialize (H x Hx);
    [by apply bool_decide_eq_true in H|by apply bool_decide_eq_true].
Qed.

Lemma int_typedb_correct st : int_typedb st = true → int_typed st.
Proof.
  unfold int_typedb. rewrite !andb_true_iff, !all_int_correct.
  by intros [[[[? ?] ?] ?] ?].
Qed.

(** ** The updates *)

Lemma vec_or_range v i m v' :
  int_range m → Forall int_range v → vec_or v i m = Ok v' → Forall int_range v'.
Proof.
  intros Hm Hv (x & Hx & _ & ->)%vec_or_Ok. apply Forall_insert; [done|].
  apply int_range_lor; [|done]. by eapply Forall_lookup_1.
Qed.

Lemma vec_incr_range v i v' :
  Forall int_range v → vec_incr v i = Ok v' → Forall int_range v'.
Proof.
  intros Hv (x & Hx & _ & Hmax & ->)%vec_incr_Ok. apply Forall_insert; [done|].
  eapply Forall_lookup_1 in Hx; [|done]. unfold int_range in *. lia.
Qed.

(** Traces a vector back through the updates that produced it. *)
Ltac range_step :=
  first [ eassumption
        | eapply vec_or_range; [| |eassumption]; [eassumption|]
        | eapply vec_incr_range; [|eassumption] ].

(** ** The loop and the method *)

Section Typing.
Context {C : Classifier}.
Variables (opts : Options) (K : Constants).
Hypothesis IF_int : int_range (InterpolationFlag K).

Lemma flagFailure_int_typed tObsFinal jlev SigB SigA st k st' k' :
  int_typed st → int_range k →
  flagFailure K tObsFinal jlev SigB SigA (st, k) = Ok (st', k') →
  int_typed st' ∧ int_range k'.
Proof using IF_int.
  intros [] Hk (nae & nie & f1 & f2 & f3 & e1 & e2 & e3 & lines &
                ? & ? & ? & ? & ? & ? & ? & ? & ? & _ & [= -> ->])%flagFailure_Ok.
  split; [split; simpl; repeat range_step|]. unfold int_range in *. lia.
Qed.

Lemma checkLevel_int_typed tObsFinal j st k st' k' :
  int_typed st → int_range k →
  checkLevel opts K tObsFinal j (st, k) = Ok (st', k') → int_typed st' ∧ int_range k'.
Proof using IF_int.
  intros Hst Hk [[= -> ->]|(jlev & SigB & SigA & v & ti & _ & _ & _ & _ & _ & Hs)]%checkLevel_cases;
    [done|].
  destruct Hs as [[= -> ->]|Hs]; [by destruct Hst|].
  eapply flagFailure_int_typed; [|done..]. by destruct Hst.
Qed.

Lemma checkLevels_int_typed tObsFinal st st' k :
  int_typed st → checkLevels opts K tObsFinal st = Ok (st', k) → int_typed st' ∧ int_range k.
Proof using IF_int.
  intros Hst H.
  apply (foldM_invariant (λ s, int_typed s.1 ∧ int_range s.2)) in H; [done| |done].
  intros j [t kt] [t' kt'] _ [? ?]. by apply checkLevel_int_typed.
Qed.

Lemma checkProfile_int_typed n st st' :
  int_typed st → checkProfile opts K n st = Ok st' → int_typed st'.
Proof using IF_int.
  intros [] (sl & st1 & k & _ & _ & Hloop & Hk)%checkProfile_Ok.
  apply checkLevels_int_typed in Hloop as [Ht _].
  - destruct Hk as [[_ ->]|[_ (nio & Hnio & ->)]]; [done|].
    destruct Ht. split; simpl; by repeat range_step.
  - split; simpl; try done. by apply Forall_replicate.
Qed.


End Typing.
