(* ===== verification/InterpSafety.v ===== *)
(** * Safety of the interpolation check

    [runCheck] indexes eleven vectors with indices it reads from other
    vectors, increments [int] counters and converts a [double] to [int].
    This file proves that none of these can go wrong when the check is
    called as intended: [ready] collects the conditions on the caller's
    side (the counters exist and have room, the pressures are within the
    range of [int] when expressed in hPa, the band table has a gap for
    every level), [ClassifierOk] is the contract of the classification,
    and [runCheck_safe] concludes that the call returns.  The loop
    invariant is [loop_inv]; [checkLevel_returns] is the safety of one
    iteration. *)

From Stdlib Require Import ZArith Lia SpecFloat.
From stdpp Require Import base tactics option list numbers.
From S2P Require Import Prelude Float32 StdLevels InterpCheck InterpEffects.

#[local] Open Scope Z_scope.

(** ** Conditions *)

(** A counter vector whose first entry exists and can be counted up
    [room] more times. *)
Definition has_room (room : Z) (v : list Z) : Prop :=
  ∃ x, v !! 0%nat = Some x ∧ x + room ≤ INT_MAX.

(** What one iteration needs of the state it starts from, for a profile
    of [n] levels. *)
Record safe_state (n : Z) (tObsFinal : list float) (t : State) (k : Z) : Prop :=
  mkSafeState {
  ss_classified : classified n (levels t);
  ss_pressures : n ≤ Z.of_nat (length (pressures t));
  ss_tBkg : n ≤ Z.of_nat (length (tBkg t));
  ss_tFlags : n ≤ Z.of_nat (length (tFlags t));
  ss_tObsFinal : n ≤ Z.of_nat (length tObsFinal);
  ss_LevErrors : Z.of_nat (length (LevErrors_ t)) = n;
  ss_tInterp : Z.of_nat (length (tInterp_ t)) = n;
  ss_tables :
    (length (StandardLevels_ (levels t)) ≤ length (BigGaps_ (levels t)))%nat;
  ss_hPa : Forall (λ p, is_Ok (roundedHPa p)) (pressures t);
  ss_NumAnyErrors : has_room 1 (NumAnyErrors t);
  ss_NumInterpErrors : has_room 1 (NumInterpErrors t);
  ss_NumErrors : k < INT_MAX;
  ss_LevErrors_room : Forall (λ e, e + 3 ≤ INT_MAX) (LevErrors_ t)
}.

Section Safety.
Context {C : Classifier}.
Variables (opts : Options) (K : Constants).

#[local] Abbreviation IF := (InterpolationFlag K).

(** What the caller of [runCheck] provides. *)
Record ready (n : Z) (st : State) : Prop := mkReady {
  rd_n : 0 ≤ n ≤ Z.of_nat (length (pressures st));
  rd_size : 3 * n ≤ INT_MAX;
  rd_tables :
    (length (StandardLevels_ (levels st)) ≤ length (BigGaps_ (levels st)))%nat;
  rd_hPa : Forall (λ p, is_Ok (roundedHPa p)) (pressures st);
  rd_NumAnyErrors : has_room n (NumAnyErrors st);
  rd_NumInterpErrors : has_room n (NumInterpErrors st);
  rd_NumInterpErrObs : has_room 1 (NumInterpErrObs st)
}.

(** [ready] as a boolean test, for concrete profiles. *)
Definition has_roomb (room : Z) (v : list Z) : bool :=
  match v with x :: _ => bool_decide (x + room ≤ INT_MAX) | [] => false end.

Definition readyb (n : Z) (st : State) : bool :=
  bool_decide (0 ≤ n ≤ Z.of_nat (length (pressures st)))
  && bool_decide (3 * n ≤ INT_MAX)
  && bool_decide (length (StandardLevels_ (levels st)) ≤ length (BigGaps_ (levels st)))%nat
  && forallb (λ p, is_Okb (roundedHPa p)) (pressures st)
  && has_roomb n (NumAnyErrors st)
  && has_roomb n (NumInterpErrors st)
  && has_roomb 1 (NumInterpErrObs st).

(** The loop invariant after [i] iterations, [st1] being the state the
    loop started from and [a], [b] the counters then. *)
Record loop_inv (st1 : State) (a b : Z) (i : nat) (s : State * Z) : Prop := mkLoopInv {
  li_frame : frame IF st1 s.1;
  li_NumErrors : 0 ≤ s.2 ≤ Z.of_nat i;
  li_NumAnyErrors : ∃ x, NumAnyErrors s.1 !! 0%nat = Some x ∧ x ≤ a + Z.of_nat i;
  li_NumInterpErrors : ∃ x, NumInterpErrors s.1 !! 0%nat = Some x ∧ x ≤ b + Z.of_nat i;
  li_LevErrors : Forall (λ e, e ≤ 3 * Z.of_nat i - 1) (LevErrors_ s.1)
}.

(** ** Steps that return *)

Lemma vec_get_in_range {A} (v : list A) i n :
  0 ≤ i < n → n ≤ Z.of_nat (length v) → is_Ok (vec_get v i).
Proof. intros. apply vec_get_is_Ok. lia. Qed.

Lemma vec_incr_is_Ok (v : list Z) i :
  0 ≤ i → (∃ x, v !! Z.to_nat i = Some x ∧ x < INT_MAX) → is_Ok (vec_incr v i).
Proof.
  intros Hi (x & Hx & Hlt). exists (<[Z.to_nat i := x + 1]> v).
  apply vec_incr_Ok. eauto.
Qed.

Lemma has_room_incr v : has_room 1 v → is_Ok (vec_incr v 0).
Proof.
  intros (x & Hx & Hlt). apply vec_incr_is_Ok; [done|]. exists x. split; [done|lia].
Qed.

Lemma tally_room i v b :
  Forall (λ e, e ≤ b) v → Forall (λ e, e ≤ b + 1) (tally i v).
Proof.
  rewrite !Forall_lookup. intros Hv j e. rewrite tally_lookup.
  destruct (v !! j) as [x|] eqn:Hx; [|done]. specialize (Hv j x Hx).
  case_decide; intros [= <-]; simpl; lia.
Qed.

Lemma tally3_room t v b :
  Forall (λ e, e ≤ b) v → Forall (λ e, e ≤ b + 3) (tally3 v t).
Proof.
  destruct t as [[j lo] hi]. intros Hv. simpl.
  replace (b + 3) with (b + 1 + 1 + 1) by lia. by do 3 apply tally_room.
Qed.

Lemma vec_incr_room (v : list Z) i b :
  0 ≤ i < Z.of_nat (length v) → b < INT_MAX → Forall (λ e, e ≤ b) v →
  ∃ v', vec_incr v i = Ok v' ∧ Forall (λ e, e ≤ b + 1) v'.
Proof.
  intros Hi Hb Hv.
  destruct (lookup_lt_is_Some_2 v (Z.to_nat i)) as [x Hx]; [lia|].
  destruct (vec_incr_is_Ok v i) as [v' Hv']; [lia| |].
  { exists x. split; [done|]. rewrite Forall_lookup in Hv. specialize (Hv _ _ Hx). lia. }
  exists v'. split; [done|]. apply vec_incr_tally in Hv' as ->. by apply tally_room.
Qed.

(** The scan of the band table returns when [BigGaps_] is at least as
    long as [StandardLevels_]. *)
Lemma bigGapFrom_is_Ok levs i gaps IPStd init :
  0 ≤ i → i + Z.of_nat (length levs) ≤ Z.of_nat (length gaps) →
  is_Ok (bigGapFrom levs i gaps IPStd init).
Proof.
  revert i. induction levs as [|l levs IH]; intros i Hi Hlen; simpl in *.
  - apply is_Ok_Ok.
  - destruct (F32.leb l (F32.of_int IPStd)).
    + destruct (proj2 (vec_get_is_Ok gaps i)) as [g ->]; [lia|]. apply is_Ok_Ok.
    + apply IH; lia.
Qed.

Lemma selectBigGap_is_Ok sl IPStd :
  (length (StandardLevels_ sl) ≤ length (BigGaps_ sl))%nat →
  is_Ok (selectBigGap opts sl IPStd).
Proof. intros. apply bigGapFrom_is_Ok; lia. Qed.

Section steps.
Context (n : Z) (tObsFinal : list float) (t : State) (k : Z).
Context (Hss : safe_state n tObsFinal t k).
Context (jlev SigB SigA : Z).
Context (Hjlev : 0 ≤ jlev < n) (HSigB : 0 ≤ SigB < n) (HSigA : 0 ≤ SigA < n).

Lemma gapTooBig_is_Ok PStd BigGap : is_Ok (gapTooBig t SigB SigA PStd BigGap).
Proof using Hss HSigB HSigA.
  destruct Hss, ss_classified0. unfold gapTooBig.
  destruct (vec_get_in_range (pressures t) SigB n) as [pB ->]; [done..|]. simpl.
  destruct (F32.gtb _ _); [apply is_Ok_Ok|].
  destruct (vec_get_in_range (pressures t) SigA n) as [pA ->]; [done..|]. simpl.
  destruct (F32.gtb _ _); [apply is_Ok_Ok|].
  destruct (vec_get_in_range (LogP_ (levels t)) SigB n) as [lB ->]; [lia..|].
  destruct (vec_get_in_range (LogP_ (levels t)) SigA n) as [lA ->]; [lia..|].
  apply is_Ok_Ok.
Qed.

Lemma interpolate_is_Ok : is_Ok (interpolate t tObsFinal jlev SigB SigA).
Proof using Hss Hjlev HSigB HSigA.
  destruct Hss, ss_classified0. unfold interpolate.
  destruct (vec_get_in_range (LogP_ (levels t)) jlev n) as [lj ->]; [lia..|].
  destruct (vec_get_in_range (LogP_ (levels t)) SigB n) as [lB ->]; [lia..|].
  destruct (vec_get_in_range (LogP_ (levels t)) SigA n) as [lA ->]; [lia..|].
  destruct (vec_get_in_range tObsFinal SigB n) as [tB ->]; [lia..|].
  destruct (vec_get_in_range tObsFinal SigA n) as [tA ->]; [lia..|].
  apply is_Ok_Ok.
Qed.

Lemma vec_or_in_range (v : list Z) i m :
  0 ≤ i < n → n ≤ Z.of_nat (length v) →
  ∃ v', vec_or v i m = Ok v' ∧ length v' = length v.
Proof.
  intros Hi Hn. destruct (proj2 (vec_or_is_Ok v i m)) as [v' Hv']; [lia|].
  exists v'. split; [done|]. by eapply vec_or_length.
Qed.

(** The debug lines read within the vectors. *)
Lemma bracketLine_is_Ok ti lev :
  0 ≤ lev < n → is_Ok (bracketLine K (set_tInterp ti t) tObsFinal lev).
Proof using Hss.
  intros Hlev. destruct Hss. unfold bracketLine. simpl.
  destruct (vec_get_in_range (pressures t) lev n) as [? ->]; [done..|].
  destruct (vec_get_in_range tObsFinal lev n) as [? ->]; [done..|].
  destruct (vec_get_in_range (tBkg t) lev n) as [? ->]; [done..|].
  apply is_Ok_Ok.
Qed.

Lemma centralLine_is_Ok ti :
  n ≤ Z.of_nat (length ti) → is_Ok (centralLine K (set_tInterp ti t) tObsFinal jlev).
Proof using Hss Hjlev.
  intros Hti. destruct Hss. unfold centralLine. simpl.
  destruct (vec_get_in_range (pressures t) jlev n) as [? ->]; [done..|].
  destruct (vec_get_in_range tObsFinal jlev n) as [? ->]; [done..|].
  destruct (vec_get_in_range (tBkg t) jlev n) as [? ->]; [done..|].
  destruct (vec_get_in_range ti jlev n) as [? ->]; [done..|].
  apply is_Ok_Ok.
Qed.

Lemma failureLines_is_Ok ti :
  n ≤ Z.of_nat (length ti) →
  is_Ok (failureLines K (set_tInterp ti t) tObsFinal jlev SigB SigA).
Proof using Hss Hjlev HSigB HSigA.
  intros Hti. unfold failureLines.
  destruct (centralLine_is_Ok ti Hti) as [c ->].
  destruct (bracketLine_is_Ok ti SigB HSigB) as [b ->].
  destruct (bracketLine_is_Ok ti SigA HSigA) as [a ->].
  apply is_Ok_Ok.
Qed.

(** Flagging a failure returns, for any value stored in [tInterp_]. *)
Lemma flagFailure_is_Ok ti :
  n ≤ Z.of_nat (length ti) →
  is_Ok (flagFailure K tObsFinal jlev SigB SigA (set_tInterp ti t, k)).
Proof using Hss Hjlev HSigB HSigA.
  intros Hti. destruct (failureLines_is_Ok ti Hti) as [lines Hlines].
  destruct Hss. unfold flagFailure. simpl.
  destruct (has_room_incr _ ss_NumAnyErrors0) as [nae ->].
  destruct (has_room_incr _ ss_NumInterpErrors0) as [nie ->]. simpl.
  unfold int_incr. rewrite decide_True by done. simpl.
  destruct (vec_or_in_range (tFlags t) jlev IF) as (f1 & -> & Hf1); [done..|]. simpl.
  destruct (vec_or_in_range f1 SigB IF) as (f2 & -> & Hf2); [lia..|]. simpl.
  destruct (vec_or_in_range f2 SigA IF) as (f3 & -> & Hf3); [lia..|]. simpl.
  assert (Hroom : Forall (λ e, e ≤ INT_MAX - 3) (LevErrors_ t)).
  { revert ss_LevErrors_room0. apply Forall_impl. intros. lia. }
  assert (INT_MAX = 2147483647) as HM by done.
  destruct (vec_incr_room (LevErrors_ t) jlev (INT_MAX - 3) ltac:(lia) ltac:(lia) Hroom)
    as (e1 & He1 & Hr1).
  apply vec_incr_length in He1 as Hl1. rewrite He1. simpl.
  destruct (vec_incr_room e1 SigB (INT_MAX - 3 + 1) ltac:(lia) ltac:(lia) Hr1) as (e2 & He2 & Hr2).
  apply vec_incr_length in He2 as Hl2. rewrite He2. simpl.
  destruct (vec_incr_room e2 SigA (INT_MAX - 3 + 1 + 1) ltac:(lia) ltac:(lia) Hr2) as (e3 & He3 & Hr3).
  rewrite He3. simpl in *. rewrite Hlines. apply is_Ok_Ok.
Qed.

End steps.

Lemma bracket_in_range n SigB SigA :
  bracket_ok n SigB → bracket_ok n SigA → noBracket SigB SigA = false →
  0 ≤ SigB < n ∧ 0 ≤ SigA < n.
Proof.
  unfold noBracket, bracket_ok. intros HB HA [HB' HA']%orb_false_iff.
  apply Z.eqb_neq in HB', HA'. lia.
Qed.

(** One iteration returns from a safe state. *)
Lemma checkLevel_returns n tObsFinal t k j :
  safe_state n tObsFinal t k → 0 ≤ j < NumStd_ (levels t) →
  is_Ok (checkLevel opts K tObsFinal j (t, k)).
Proof.
  intros Hss Hj. pose proof Hss as []. unfold checkLevel.
  destruct (classified_StdLev_get ss_classified0 j Hj) as (jlev & -> & Hjlev). simpl.
  destruct (vec_get_in_range (tFlags t) jlev n) as [flag ->]; [done..|]. simpl.
  destruct (isSurface K flag); [apply is_Ok_Ok|].
  destruct (classified_SigBelow_get ss_classified0 j Hj) as (SigB & -> & HB). simpl.
  destruct (classified_SigAbove_get ss_classified0 j Hj) as (SigA & -> & HA). simpl.
  destruct (vec_get_in_range (pressures t) jlev n) as [PStd HPStd]; [done..|].
  rewrite HPStd. simpl.
  apply vec_get_Ok in HPStd as [_ HPStd].
  destruct (proj1 (Forall_lookup _ _) ss_hPa0 _ _ HPStd) as [IPStd ->]. simpl.
  destruct (selectBigGap_is_Ok (levels t) IPStd ss_tables0) as [BigGap ->]. simpl.
  destruct (tooFewSig (levels t)); [apply is_Ok_Ok|].
  destruct (noBracket SigB SigA) eqn:Hnb; [apply is_Ok_Ok|].
  destruct (bracket_in_range n SigB SigA HB HA Hnb) as [HSigB HSigA].
  destruct (gapTooBig_is_Ok n tObsFinal t k Hss SigB SigA HSigB HSigA PStd BigGap)
    as [skip ->]. simpl.
  destruct skip; [apply is_Ok_Ok|].
  destruct (interpolate_is_Ok n tObsFinal t k Hss jlev SigB SigA Hjlev HSigB HSigA)
    as [v ->]. simpl.
  destruct (proj2 (vec_set_is_Ok (tInterp_ t) jlev v)) as [ti Hti]; [lia|].
  rewrite Hti. simpl.
  destruct (vec_get_in_range tObsFinal jlev n) as [tj ->]; [done..|]. simpl.
  rewrite (vec_get_set_eq _ _ _ _ Hti). simpl.
  destruct (exceedsTolerance _ _ _ _); [|apply is_Ok_Ok].
  apply (flagFailure_is_Ok n tObsFinal t k Hss); [done..|].
  apply vec_set_length in Hti. lia.
Qed.

(** ** The loop *)

(** The state the loop starts from: the classification stored, the two
    result vectors assigned. *)
Definition loop_start (n : Z) (sl : StdLevels) (st : State) : State :=
  set_tInterp (replicate (Z.to_nat n) (missingValueFloat K))
    (set_LevErrors (replicate (Z.to_nat n) (-1))
       (set_levels sl (add_log DebugCheck st))).

Lemma correctVector_length (v1 v2 : list float) :
  length v2 = length v1 → length (correctVector v1 v2) = length v1.
Proof. intros H. unfold correctVector. rewrite length_zip_with. lia. Qed.

Lemma allVectorsSameSize_spec st :
  allVectorsSameSize st = true ↔
  length (tObs st) = length (pressures st) ∧ length (tBkg st) = length (pressures st) ∧
  length (tFlags st) = length (pressures st) ∧
  length (tObsCorrection st) = length (pressures st).
Proof.
  unfold allVectorsSameSize. rewrite !andb_true_iff, !bool_decide_eq_true. tauto.
Qed.

Section loop.
Context (n : Z) (st : State) (sl : StdLevels) (a b : Z).
Context (Hready : ready n st) (Hsize : allVectorsSameSize st = true).
Context (Hcl : classified n sl).
Context (Htables : StandardLevels_ sl = StandardLevels_ (levels st) ∧
                   BigGaps_ sl = BigGaps_ (levels st)).
Context (Ha : NumAnyErrors st !! 0%nat = Some a) (Hb : NumInterpErrors st !! 0%nat = Some b).
Context (Ha_room : a + n ≤ INT_MAX) (Hb_room : b + n ≤ INT_MAX).

#[local] Abbreviation tObsFinal := (correctVector (tObs st) (tObsCorrection st)).
#[local] Abbreviation st1 := (loop_start n sl st).

Lemma loop_inv_init : loop_inv st1 a b 0 (st1, 0).
Proof using Ha Hb.
  split; simpl; [reflexivity|lia|exists a; split; [done|lia]|exists b; split; [done|lia]|].
  apply Forall_replicate. lia.
Qed.

(** Within the loop, the invariant makes the state safe for the next
    iteration. *)
Lemma loop_inv_safe (i : nat) t k :
  loop_inv st1 a b i (t, k) → Z.of_nat i < NumStd_ sl →
  safe_state n tObsFinal t k ∧ levels t = sl.
Proof using Hready Hsize Hcl Htables Ha_room Hb_room.
  intros [[] ? (x & Hx & ?) (y & Hy & ?) HLev] Hi. unfold loop_start in *. simpl in *.
  destruct Hready, Hcl as [HNumStd], Htables as [Ht1 Ht2].
  apply allVectorsSameSize_spec in Hsize as (? & ? & ? & ?).
  apply Forall2_length in fr_tFlags, fr_LevErrors.
  rewrite length_replicate in fr_LevErrors. rewrite length_replicate in fr_tInterp_len.
  assert (INT_MAX = 2147483647) as HM by done.
  split; [|done]. split; rewrite ?fr_levels, ?fr_pressures, ?fr_tBkg; try done; try lia.
  - rewrite correctVector_length; [lia|congruence].
  - by rewrite Ht1, Ht2.
  - exists x. split; [done|lia].
  - exists y. split; [done|lia].
  - revert HLev. apply Forall_impl. intros. lia.
Qed.

(** An iteration that returns re-establishes the invariant. *)
Lemma loop_inv_step (i : nat) j s s' :
  loop_inv st1 a b i s → checkLevel opts K tObsFinal j s = Ok s' →
  loop_inv st1 a b (S i) s'.
Proof.
  destruct s as [t k], s' as [t' k'].
  intros [Hfr Hk (x & Hx & ?) (y & Hy & ?) HLev] Hstep. simpl in *.
  apply checkLevel_frame in Hstep as Hfr'. destruct Hfr' as [Hfr' Hk'].
  apply checkLevel_effects in Hstep as (fs & [] & _ & Hfs).
  split; simpl; [by etrans|lia|..].
  - rewrite eff_NumAnyErrors, bump_lookup, Hx. simpl. eexists. split; [done|lia].
  - rewrite eff_NumInterpErrors, bump_lookup, Hy. simpl. eexists. split; [done|lia].
  - rewrite eff_LevErrors. destruct fs as [|f [|??]]; simpl in *; [| |lia].
    + revert HLev. apply Forall_impl. intros. lia.
    + replace (3 * Z.of_nat (S i) - 1) with (3 * Z.of_nat i - 1 + 3) by lia.
      by apply tally3_room.
Qed.

(** The loop returns, with the invariant. *)
Lemma checkLevels_returns :
  ∃ st' k, checkLevels opts K tObsFinal st1 = Ok (st', k) ∧
           frame IF st1 st' ∧ 0 ≤ k.
Proof using Hready Hsize Hcl Htables Ha Hb Ha_room Hb_room.
  unfold checkLevels.
  destruct (foldM_is_Ok (loop_inv st1 a b) (checkLevel opts K tObsFinal)
              (seqZ 0 (NumStd_ (levels st1))) (st1, 0)) as ([st' k] & Hrun & Hinv).
  - intros i j [t k] [-> Hi]%lookup_seqZ Hinv. simpl in Hi.
    destruct (loop_inv_safe i t k Hinv Hi) as [Hss Hlev].
    destruct (checkLevel_returns n tObsFinal t k (0 + Z.of_nat i) Hss) as [s' Hs'].
    { rewrite Hlev. lia. }
    exists s'. split; [done|]. by eapply loop_inv_step.
  - apply loop_inv_init.
  - exists st', k. destruct Hinv as [Hfr [Hk _] _ _ _]. simpl in *. auto.
Qed.

End loop.

Lemma has_room_lookup room v : has_room room v → ∃ x, v !! 0%nat = Some x ∧ x + room ≤ INT_MAX.
Proof. done. Qed.

Lemma has_roomb_correct room v : has_roomb room v = true → has_room room v.
Proof.
  destruct v as [|x v]; simpl; [done|]. intros H%bool_decide_eq_true. by exists x.
Qed.

Lemma readyb_correct n st : readyb n st = true → ready n st.
Proof.
  unfold readyb. rewrite !andb_true_iff, !bool_decide_eq_true, forallb_forall.
  intros [[[[[[? ?] ?] Hp] ?] ?] ?]. split; auto using has_roomb_correct.
  apply Forall_forall. intros p Hp'. by apply is_Okb_spec, Hp.
Qed.

(** On vectors of the same size, the part after the validation returns
    when the classification does. *)
Lemma checkProfile_returns `{!ClassifierOk C} n st :
  ready n st → allVectorsSameSize st = true →
  is_Ok (calcStdLevels n (pressures st) (correctVector (tObs st) (tObsCorrection st))
           (tFlags st) (levels st)) →
  is_Ok (checkProfile opts K n (add_log DebugCheck st)).
Proof.
  intros Hready Hs [sl Hsl].
  pose proof Hready as [Hn _ _ _ (a & Ha & ?) (b & Hb & ?) (c & Hc & ?)].
  destruct (checkLevels_returns n st sl a b Hready Hs (calc_classified _ _ _ _ _ _ Hsl)
              (calc_tables _ _ _ _ _ _ Hsl) Ha Hb) as (st' & k & Hloop & [] & Hk);
    [lia..|].
  unfold checkProfile.
  rewrite (bind_Ok_l _ _ sl) by done.
  unfold vec_assign. rewrite !decide_True by lia.
  rewrite (bind_Ok_l _ _ (replicate (Z.to_nat n) (-1))) by done.
  rewrite (bind_Ok_l _ _ (replicate (Z.to_nat n) (missingValueFloat K))) by done.
  rewrite (bind_Ok_l _ _ (st', k)) by done.
  unfold countObs. destruct (0 <? k); [|apply is_Ok_Ok].
  destruct (has_room_incr (NumInterpErrObs st')) as [nio ->]; [|apply is_Ok_Ok].
  rewrite fr_NumInterpErrObs. exists c. split; [done|lia].
Qed.

(** A call that meets [ready] returns when the classification does. *)
Lemma runCheck_returns `{!ClassifierOk C} n st :
  ready n st →
  is_Ok (calcStdLevels n (pressures st) (correctVector (tObs st) (tObsCorrection st))
           (tFlags st) (levels st)) →
  ∃ st', runCheck opts K n st = Ok st' ∧ changes IF st st'.
Proof.
  intros Hready Hsl.
  destruct (runCheck_cases opts K n st) as [(_ & Hs & E)|[w E]].
  - destruct (checkProfile_returns n st Hready Hs Hsl) as [st' Hst'].
    rewrite <- E in Hst'. eauto using runCheck_changes.
  - eauto using runCheck_changes.
Qed.

(** C2: a call of [runCheck] that meets [ready], with a classification
    that honours its contract, goes wrong only if the classification
    itself does: no vector is indexed out of range, no counter overflows
    and the conversion of the pressure to [int] is defined. *)
Theorem runCheck_safe `{!ClassifierOk C} n st :
  ready n st →
  is_Ok (calcStdLevels n (pressures st) (correctVector (tObs st) (tObsCorrection st))
           (tFlags st) (levels st)) →
  is_Ok (runCheck opts K n st).
Proof.
  intros Hready Hsl.
  destruct (runCheck_cases opts K n st) as [(_ & Hs & ->)|[w ->]];
    [by apply checkProfile_returns|apply is_Ok_Ok].
Qed.

End Safety.
