(* ===== verification/InterpSpec.v ===== *)
(** * Specification of the interpolation check and refinement

    The loop of [runCheck] updates flags, counters and result vectors in
    place while it decides, level by level, whether a standard level
    fails.  The specification separates the two: [verdict] is the
    decision for one standard level as a function of the inputs, the
    classification and the flags the profile had before the check;
    [specState] is the state obtained by applying all verdicts, its log
    being the log before the call followed by the lines of each verdict
    ([verdictLines]).
    [checkLevel_verdict] shows that an iteration is its verdict followed
    by the verdict's effect, [verdict_frame] that the effects of earlier
    iterations cannot change a later verdict when the interpolation bit
    and the surface bit are different bits, and [runCheck_refines] that
    the method computes [specState].  [runCheck_total] adds that under
    the caller's conditions of [InterpSafety] the method returns it.
    [runCheck_tInterp] reads the interpolated values level by level
    ([storedAt]), and [runCheck_rerun] compares a second run with the
    first. *)

From Stdlib Require Import ZArith Lia SpecFloat.
From stdpp Require Import base tactics option list numbers sets.
From S2P Require Import Prelude Float32 StdLevels InterpCheck InterpEffects InterpSafety.

#[local] Open Scope Z_scope.

(** ** Verdicts *)

(** The decision for a standard level: not evaluated; evaluated with
    interpolated value [v] and within tolerance; or evaluated and out of
    tolerance, with its brackets. *)
Inductive Verdict : Type :=
| Skipped
| Passed (jlev : Z) (v : float)
| Failed (jlev SigB SigA : Z) (v : float).

#[global] Instance Verdict_eq_dec : EqDecision Verdict.
Proof. solve_decision. Defined.

(** The failed triple of a verdict, if any. *)
Definition failure (vd : Verdict) : option triple :=
  match vd with Failed j b a _ => Some (j, b, a) | _ => None end.

(** The level and value a verdict stores in [tInterp_], if any. *)
Definition stored (vd : Verdict) : option (Z * float) :=
  match vd with
  | Skipped => None
  | Passed j v | Failed j _ _ v => Some (j, v)
  end.

(** [v[j] = x] for an index in range. *)
Definition store (v : list float) (jx : Z * float) : list float :=
  <[Z.to_nat jx.1 := jx.2]> v.

(** The value stored last for level [i] by a list of stores, if any. *)
Definition storedAt (ps : list (Z * float)) (i : nat) : option float :=
  snd <$> last (filter (λ p, Z.to_nat p.1 = i) ps).

Lemma foldl_store_length ps v : length (foldl store v ps) = length v.
Proof.
  revert v. induction ps as [|p ps IH]; intros v; simpl; [done|].
  rewrite IH. apply length_insert.
Qed.

(** After a list of stores an entry holds the value stored last at its
    index, or what it held. *)
Lemma foldl_store_lookup ps v (i : nat) :
  foldl store v ps !! i = (λ y, default y (storedAt ps i)) <$> v !! i.
Proof.
  induction ps as [|p ps IH] using rev_ind; [simpl; by destruct (v !! i)|].
  unfold storedAt in *. rewrite foldl_app, filter_app. simpl. unfold store at 1.
  rewrite filter_cons, filter_nil. destruct (decide (Z.to_nat p.1 = i)) as [<-|Hne].
  - rewrite last_snoc. simpl. destruct (v !! Z.to_nat p.1) as [y|] eqn:Hv; simpl.
    + apply list_lookup_insert_eq. rewrite foldl_store_length. by eapply lookup_lt_Some.
    + apply lookup_ge_None. rewrite length_insert, foldl_store_length.
      by apply lookup_ge_None.
  - by rewrite list_lookup_insert_ne, app_nil_r.
Qed.

Section Spec.
Context {C : Classifier}.
Variables (opts : Options) (K : Constants).

#[local] Abbreviation IF := (InterpolationFlag K).
#[local] Abbreviation SF := (SurfaceLevelFlag K).

(** The verdict for the standard level of index [j]. *)
Definition verdict (st : State) (tObsFinal : list float) (j : Z) : result Verdict :=
  jlev ← vec_get (StdLev_ (levels st)) j;
  flag ← vec_get (tFlags st) jlev;
  if isSurface K flag then Ok Skipped else
  SigB ← vec_get (SigBelow_ (levels st)) j;
  SigA ← vec_get (SigAbove_ (levels st)) j;
  PStd ← vec_get (pressures st) jlev;
  IPStd ← roundedHPa PStd;
  BigGap ← selectBigGap opts (levels st) IPStd;
  if tooFewSig (levels st) then Ok Skipped else
  if noBracket SigB SigA then Ok Skipped else
  skip ← gapTooBig st SigB SigA PStd BigGap;
  if skip : bool then Ok Skipped else
  v ← interpolate st tObsFinal jlev SigB SigA;
  tj ← vec_get tObsFinal jlev;
  Ok (if exceedsTolerance opts tj v PStd then Failed jlev SigB SigA v else Passed jlev v).

(** The standard level of index [j] is past every guard: it is level
    [jlev] of pressure [PStd] and observation [tj], its brackets are
    [SigB] and [SigA], and [v] is the value interpolated between
    them. *)
Record evaluated (st : State) (tObsFinal : list float) (j jlev SigB SigA : Z)
    (PStd v tj : float) : Prop := mkEvaluated {
  ev_jlev : vec_get (StdLev_ (levels st)) j = Ok jlev;
  ev_surface : ∃ flag, vec_get (tFlags st) jlev = Ok flag ∧ Z.land flag SF = 0;
  ev_SigB : vec_get (SigBelow_ (levels st)) j = Ok SigB ∧ SigB ≠ -1;
  ev_SigA : vec_get (SigAbove_ (levels st)) j = Ok SigA ∧ SigA ≠ -1;
  ev_enough : tooFewSig (levels st) = false;
  ev_PStd : vec_get (pressures st) jlev = Ok PStd;
  ev_gap : ∃ IPStd BigGap,
    roundedHPa PStd = Ok IPStd ∧ selectBigGap opts (levels st) IPStd = Ok BigGap ∧
    gapTooBig st SigB SigA PStd BigGap = Ok false;
  ev_value : interpolate st tObsFinal jlev SigB SigA = Ok v;
  ev_obs : vec_get tObsFinal jlev = Ok tj
}.

(** The effect of a verdict on the state and on [NumErrors]. *)
Definition applyVerdict (tObsFinal : list float) (vd : Verdict) (s : State * Z) :
    result (State * Z) :=
  match vd with
  | Skipped => Ok s
  | Passed jlev v =>
      ti ← vec_set (tInterp_ s.1) jlev v; Ok (set_tInterp ti s.1, s.2)
  | Failed jlev SigB SigA v =>
      ti ← vec_set (tInterp_ s.1) jlev v;
      flagFailure K tObsFinal jlev SigB SigA (set_tInterp ti s.1, s.2)
  end.

(** The debug line of a bracket of a failed test, from the inputs. *)
Definition bracketLineOf (st : State) (tObsFinal : list float) (lev : Z) : Event :=
  DebugBracket lev (hPa (vec_at (pressures st) lev)) (celsius K (vec_at tObsFinal lev))
    (celsius K (vec_at (tBkg st) lev)).

(** The debug lines a verdict logs: none unless it is a failure, and
    then the four lines of lines 120-137, the interpolated value being
    that of the verdict. *)
Definition verdictLines (st : State) (tObsFinal : list float) (vd : Verdict) : list Event :=
  match vd with
  | Failed jlev SigB SigA v =>
      [DebugFailed jlev SigB SigA;
       DebugCentral jlev (hPa (vec_at (pressures st) jlev)) (celsius K (vec_at tObsFinal jlev))
         (celsius K (vec_at (tBkg st) jlev)) (celsius K v) (F32.sub v (vec_at tObsFinal jlev));
       bracketLineOf st tObsFinal SigB; bracketLineOf st tObsFinal SigA]
  | _ => []
  end.

(** The state after the check, from the state before it, the
    classification and the verdicts of the standard levels. *)
Definition specState (n : Z) (sl : StdLevels) (vds : list Verdict) (st : State) : State :=
  let fs := omap failure vds in
  let tObsFinal := correctVector (tObs st) (tObsCorrection st) in
  mkState (pressures st) (tObs st) (tBkg st)
    (foldl (mark3 IF) (tFlags st) fs)
    (bump (Z.of_nat (length fs)) (NumAnyErrors st))
    (bump (Z.of_nat (length fs)) (NumInterpErrors st))
    (bump (if fs is [] then 0 else 1) (NumInterpErrObs st))
    (tObsCorrection st)
    sl
    (foldl tally3 (replicate (Z.to_nat n) (-1)) fs)
    (foldl store (replicate (Z.to_nat n) (missingValueFloat K)) (omap stored vds))
    (log st ++ DebugCheck :: (vds ≫= verdictLines st tObsFinal)).

(** ** An iteration is its verdict and the verdict's effect *)

#[local] Arguments flagFailure : simpl never.

Lemma checkLevel_verdict tObsFinal j st k :
  checkLevel opts K tObsFinal j (st, k) =
  verdict st tObsFinal j ≫= λ vd, applyVerdict tObsFinal vd (st, k).
Proof.
  unfold checkLevel, verdict.
  destruct (vec_get (StdLev_ (levels st)) j) as [jlev|]; simpl; [|done].
  destruct (vec_get (tFlags st) jlev) as [flag|]; simpl; [|done].
  destruct (isSurface K flag); simpl; [done|].
  destruct (vec_get (SigBelow_ (levels st)) j) as [SigB|]; simpl; [|done].
  destruct (vec_get (SigAbove_ (levels st)) j) as [SigA|]; simpl; [|done].
  destruct (vec_get (pressures st) jlev) as [PStd|]; simpl; [|done].
  destruct (roundedHPa PStd) as [IPStd|]; simpl; [|done].
  destruct (selectBigGap opts (levels st) IPStd) as [BigGap|]; simpl; [|done].
  destruct (tooFewSig (levels st)); simpl; [done|].
  destruct (noBracket SigB SigA); simpl; [done|].
  destruct (gapTooBig st SigB SigA PStd BigGap) as [[]|]; simpl; [done| |done].
  destruct (interpolate st tObsFinal jlev SigB SigA) as [v|]; simpl; [|done].
  destruct (vec_set (tInterp_ st) jlev v) as [ti|e1] eqn:Hti; simpl.
  - rewrite (vec_get_set_eq _ _ _ _ Hti).
    destruct (vec_get tObsFinal jlev) as [tj|]; simpl; [|done].
    destruct (exceedsTolerance opts tj v PStd); simpl; by rewrite Hti.
  - assert (e1 = OutOfBounds) as ->.
    { unfold vec_set in Hti. destruct (decide _); congruence. }
    destruct (vec_get tObsFinal jlev) as [tj|e2] eqn:Htj; simpl.
    + destruct (exceedsTolerance opts tj v PStd); simpl; by rewrite Hti.
    + f_equal. unfold vec_get in Htj. repeat case_match; congruence.
Qed.

(** ** Earlier iterations do not change later verdicts *)

(** Setting the interpolation bit does not change the surface test when
    the two flags share no bit. *)
Lemma isSurface_flag_step f f' :
  Z.land IF SF = 0 → flag_step IF f f' → isSurface K f' = isSurface K f.
Proof.
  intros Hbits [->| ->]; [done|]. unfold isSurface.
  by rewrite Z.land_lor_distr_l, Hbits, Z.lor_0_r.
Qed.

Lemma vec_get_flag_step (v v' : list Z) i :
  Z.land IF SF = 0 → Forall2 (flag_step IF) v v' →
  isSurface K <$> vec_get v' i = isSurface K <$> vec_get v i.
Proof.
  intros Hbits Hvv'. unfold vec_get. case_decide; [|done].
  destruct (v !! Z.to_nat i) as [f|] eqn:Hf.
  - destruct (Forall2_lookup_l _ _ _ _ _ Hvv' Hf) as (f' & -> & Hff'). simpl.
    f_equal. by apply isSurface_flag_step.
  - apply Forall2_length in Hvv'. apply lookup_ge_None in Hf.
    by rewrite (lookup_ge_None_2 v') by lia.
Qed.

(** A verdict reads the state only through the inputs, the
    classification and the surface bit of the flags. *)
Lemma verdict_inputs tObsFinal j st st' :
  Z.land IF SF = 0 →
  levels st' = levels st → pressures st' = pressures st →
  Forall2 (flag_step IF) (tFlags st) (tFlags st') →
  verdict st' tObsFinal j = verdict st tObsFinal j.
Proof.
  intros Hbits Hl Hp Hf. unfold verdict, gapTooBig, interpolate. rewrite Hl, Hp.
  destruct (vec_get (StdLev_ (levels st)) j) as [jlev|]; simpl; [|done].
  pose proof (vec_get_flag_step _ _ jlev Hbits Hf) as Hsurf.
  destruct (vec_get (tFlags st') jlev), (vec_get (tFlags st) jlev);
    simpl in *; try done; [|congruence].
  injection Hsurf as ->. done.
Qed.

Lemma verdict_frame tObsFinal j st st' :
  Z.land IF SF = 0 → frame IF st st' →
  verdict st' tObsFinal j = verdict st tObsFinal j.
Proof. intros Hbits []. by apply verdict_inputs. Qed.

(** ** The loop applies the verdicts of the initial state *)

Lemma applyVerdict_frame tObsFinal vd st k st' k' :
  applyVerdict tObsFinal vd (st, k) = Ok (st', k') → frame IF st st'.
Proof.
  destruct vd as [|jlev v|jlev SigB SigA v]; simpl.
  - by intros [= <- <-].
  - intros (ti & Hti & [= <- <-])%bind_Ok. by eapply set_tInterp_frame.
  - intros (ti & Hti & [Hfr _]%flagFailure_frame)%bind_Ok.
    etrans; [by eapply set_tInterp_frame|done].
Qed.

Lemma checkLevels_verdicts tObsFinal js st k s' :
  Z.land IF SF = 0 →
  foldM (checkLevel opts K tObsFinal) js (st, k) = Ok s' →
  ∃ vds, mapM (verdict st tObsFinal) js = Ok vds ∧
         foldM (applyVerdict tObsFinal) vds (st, k) = Ok s'.
Proof.
  intros Hbits. revert st k. induction js as [|j js IH]; intros st k; cbn [foldM mapM].
  - intros [= <-]. by exists [].
  - intros ([t kt] & Hstep & Hrest)%bind_Ok.
    rewrite checkLevel_verdict in Hstep. apply bind_Ok in Hstep as (vd & Hvd & Hvd').
    destruct (IH _ _ Hrest) as (vds & Hvds & Hfold).
    exists (vd :: vds). rewrite Hvd. cbn [foldM]. rewrite Hvd'. split; [|done].
    rewrite (mapM_ext _ (verdict t tObsFinal)); [by rewrite Hvds|].
    intros j' _. symmetry. apply verdict_frame; [done|]. by eapply applyVerdict_frame.
Qed.

Lemma flagFailure_tInterp tObsFinal jlev SigB SigA st k st' k' :
  flagFailure K tObsFinal jlev SigB SigA (st, k) = Ok (st', k') → tInterp_ st' = tInterp_ st.
Proof.
  by intros (? & ? & ? & ? & ? & ? & ? & ? & ? & _ & _ & _ & _ & _ & _ & _ & _ & _ & _ &
             [= -> ->])%flagFailure_Ok.
Qed.

(** The lines logged for a failure are those of its verdict. *)
Lemma failureLines_verdictLines st tObsFinal jlev SigB SigA v ti lines :
  vec_set (tInterp_ st) jlev v = Ok ti →
  failureLines K (set_tInterp ti st) tObsFinal jlev SigB SigA = Ok lines →
  lines = verdictLines st tObsFinal (Failed jlev SigB SigA v).
Proof.
  intros Hti (c & b & a & (? & ? & ? & v' & Hp & Ht & Hb & Hv & ->)%centralLine_Ok &
                (? & ? & ? & HpB & HtB & HbB & ->)%bracketLine_Ok &
                (? & ? & ? & HpA & HtA & HbA & ->)%bracketLine_Ok & ->)%failureLines_Ok.
  simpl in *. rewrite (vec_get_set_eq _ _ _ _ Hti) in Hv. injection Hv as <-.
  unfold verdictLines, bracketLineOf.
  by rewrite (vec_get_at _ _ _ Hp), (vec_get_at _ _ _ Ht), (vec_get_at _ _ _ Hb),
    (vec_get_at _ _ _ HpB), (vec_get_at _ _ _ HtB), (vec_get_at _ _ _ HbB),
    (vec_get_at _ _ _ HpA), (vec_get_at _ _ _ HtA), (vec_get_at _ _ _ HbA).
Qed.

Lemma flagFailure_log tObsFinal jlev SigB SigA st k st' k' lines :
  flagFailure K tObsFinal jlev SigB SigA (st, k) = Ok (st', k') →
  failureLines K st tObsFinal jlev SigB SigA = Ok lines → log st' = log st ++ lines.
Proof.
  intros (? & ? & ? & ? & ? & ? & ? & ? & lines' & _ & _ & _ & _ & _ & _ & _ & _ & _ &
          Hlines & [= -> ->])%flagFailure_Ok Hl. simpl. congruence.
Qed.

(** The lines of a verdict depend on the inputs only. *)
Lemma verdictLines_inputs st st' tObsFinal vd :
  pressures st' = pressures st → tBkg st' = tBkg st →
  verdictLines st' tObsFinal vd = verdictLines st tObsFinal vd.
Proof. intros Hp Hb. unfold verdictLines, bracketLineOf. by rewrite Hp, Hb. Qed.

Lemma verdictLines_frame st st' tObsFinal vd :
  frame IF st st' → verdictLines st' tObsFinal vd = verdictLines st tObsFinal vd.
Proof. intros []. by apply verdictLines_inputs. Qed.

(** The effect of one verdict: its failure, if any, and its stored value. *)
Lemma applyVerdict_effects tObsFinal vd st k st' k' :
  applyVerdict tObsFinal vd (st, k) = Ok (st', k') →
  effects IF st (option_list (failure vd)) st' ∧
  tInterp_ st' = foldl store (tInterp_ st) (option_list (stored vd)) ∧
  k' = k + Z.of_nat (length (option_list (failure vd))).
Proof.
  destruct vd as [|jlev v|jlev SigB SigA v]; simpl.
  - intros [= <- <-]. split; [apply effects_refl|split; [done|lia]].
  - intros (ti & [_ ->]%vec_set_Ok & [= <- <-])%bind_Ok.
    split; [by split; simpl; rewrite ?app_nil_r, ?bump_0|split; [done|lia]].
  - intros (ti & [_ ->]%vec_set_Ok & Hf)%bind_Ok.
    apply flagFailure_tInterp in Hf as HtI. apply flagFailure_effects in Hf as [[] ->].
    split; [by split|split; [done|lia]].
Qed.

(** The log after one verdict. *)
Lemma applyVerdict_log tObsFinal vd st k st' k' :
  applyVerdict tObsFinal vd (st, k) = Ok (st', k') →
  log st' = log st ++ verdictLines st tObsFinal vd.
Proof.
  destruct vd as [|jlev v|jlev SigB SigA v]; simpl.
  - intros [= <- <-]. by rewrite app_nil_r.
  - intros (ti & _ & [= <- <-])%bind_Ok. by rewrite app_nil_r.
  - intros (ti & Hti & Hf)%bind_Ok.
    pose proof Hf as (? & ? & ? & ? & ? & ? & ? & ? & lines & _ & _ & _ & _ & _ & _ & _ &
                      _ & _ & Hlines & _)%flagFailure_Ok.
    rewrite (flagFailure_log _ _ _ _ _ _ _ _ _ Hf Hlines). simpl.
    by rewrite (failureLines_verdictLines _ _ _ _ _ _ _ _ Hti Hlines).
Qed.

(** The log after a list of verdicts. *)
Lemma applyVerdicts_log tObsFinal vds st k st' k' :
  foldM (applyVerdict tObsFinal) vds (st, k) = Ok (st', k') →
  log st' = log st ++ (vds ≫= verdictLines st tObsFinal).
Proof.
  revert st k. induction vds as [|vd vds IH]; intros st k; cbn [foldM].
  - intros [= <- <-]. by rewrite app_nil_r.
  - intros ([t kt] & Hvd & Hrest)%bind_Ok.
    apply IH in Hrest as ->. rewrite (applyVerdict_log _ _ _ _ _ _ Hvd), <- app_assoc.
    f_equal. simpl. f_equal. apply list_bind_ext; [|done]. intros vd'.
    apply verdictLines_frame. by eapply applyVerdict_frame.
Qed.

(** The effect of a list of verdicts on [tInterp_] and, through their
    failures, on everything else. *)
Lemma applyVerdicts_effects tObsFinal vds st k st' k' :
  foldM (applyVerdict tObsFinal) vds (st, k) = Ok (st', k') →
  effects IF st (omap failure vds) st' ∧
  tInterp_ st' = foldl store (tInterp_ st) (omap stored vds) ∧
  k' = k + Z.of_nat (length (omap failure vds)).
Proof.
  revert st k. induction vds as [|vd vds IH]; intros st k; cbn [foldM].
  - intros [= <- <-]. split; [apply effects_refl|split; [done|simpl; lia]].
  - intros ([t kt] & (Hf & Ht & ->)%applyVerdict_effects & Hrest)%bind_Ok.
    apply IH in Hrest as (Heff & -> & ->).
    rewrite !omap_cons_option_list, foldl_app, length_app, Ht.
    split; [by eapply effects_app|split; [done|lia]].
Qed.

(** ** The method computes the specification *)

(** The part of the method after the validation computes [specState]. *)
Lemma checkProfile_specState n st st' :
  Z.land IF SF = 0 →
  checkProfile opts K n (add_log DebugCheck st) = Ok st' →
  ∃ sl vds,
    let tObsFinal := correctVector (tObs st) (tObsCorrection st) in
    calcStdLevels n (pressures st) tObsFinal (tFlags st) (levels st) = Ok sl ∧
    mapM (verdict (set_levels sl st) tObsFinal) (seqZ 0 (NumStd_ sl)) = Ok vds ∧
    st' = specState n sl vds st.
Proof.
  intros Hbits (sl & st1 & k & Hsl & Hn & Hloop & Hk)%checkProfile_Ok.
  apply checkLevels_frame in Hloop as Hfr.
  destruct Hfr as [[Hp Ho Hb Hc Hl Hnio _ _ _ _ _ _] _].
  apply checkLevels_verdicts in Hloop as (vds & Hvds & Hfold); [|done].
  apply applyVerdicts_log in Hfold as Hlog.
  erewrite list_bind_ext in Hlog; [|intros vd; by apply (verdictLines_inputs st)|done].
  apply applyVerdicts_effects in Hfold as ([_ Hfl Hle Hna Hni] & HtI & ->).
  exists sl, vds. split; [done|]. split.
  { rewrite <- Hvds. apply mapM_ext. intros j _. by apply verdict_inputs. }
  simpl in *. rewrite <- app_assoc in Hlog. unfold specState.
  destruct Hk as [[Hk ->]|[Hk (nio & ->%vec_incr_bump & ->)]];
    destruct (omap failure vds) eqn:Hfs; simpl in *; try lia;
    destruct st1; simpl in *; subst; change (Z.of_nat 0) with 0; by rewrite ?bump_0.
Qed.

(** C5: when the interpolation bit and the surface bit are different
    bits, a call of [runCheck] on valid input that returns has computed
    [specState]: the verdict of every standard level is the one
    determined by the profile as it was before the call, and the state
    afterwards is the one obtained by storing the interpolated values of
    the evaluated levels and flagging the failed ones. *)
Theorem runCheck_refines n st st' :
  Z.land IF SF = 0 →
  anyVectorEmpty st = false → allVectorsSameSize st = true →
  runCheck opts K n st = Ok st' →
  ∃ sl vds,
    let tObsFinal := correctVector (tObs st) (tObsCorrection st) in
    calcStdLevels n (pressures st) tObsFinal (tFlags st) (levels st) = Ok sl ∧
    mapM (verdict (set_levels sl st) tObsFinal) (seqZ 0 (NumStd_ sl)) = Ok vds ∧
    st' = specState n sl vds st.
Proof.
  intros Hbits He Hs. rewrite runCheck_valid by done. by apply checkProfile_specState.
Qed.

(** ** The guards *)

(** A verdict other than [Skipped] is past every guard. *)
Lemma verdict_evaluated st tObsFinal j vd :
  verdict st tObsFinal j = Ok vd → vd ≠ Skipped →
  ∃ jlev SigB SigA PStd v tj,
    evaluated st tObsFinal j jlev SigB SigA PStd v tj ∧
    vd = if exceedsTolerance opts tj v PStd then Failed jlev SigB SigA v else Passed jlev v.
Proof.
  unfold verdict. intros H Hvd. repeat peel H. injection H as <-.
  match goal with H : isSurface _ _ = false |- _ =>
    unfold isSurface in H; apply negb_false_iff, Z.eqb_eq in H end.
  match goal with H : noBracket _ _ = false |- _ =>
    unfold noBracket in H; apply orb_false_iff in H as [?%Z.eqb_neq ?%Z.eqb_neq] end.
  do 6 eexists. split; [split|done]; eauto 6.
Qed.

(** C16: a failure is counted for a standard level only past every
    guard: the level is not a surface level, there are enough
    significant levels, both brackets exist, neither is further than the
    gap threshold of its pressure, their log-pressures differ, and the
    value interpolated between them differs from the observation by
    more than the tolerance. *)
Theorem checkLevel_failure_guards tObsFinal j st k st' k' :
  checkLevel opts K tObsFinal j (st, k) = Ok (st', k') → k' ≠ k →
  ∃ jlev SigB SigA PStd v tj,
    evaluated st tObsFinal j jlev SigB SigA PStd v tj ∧
    exceedsTolerance opts tj v PStd = true ∧ k' = k + 1.
Proof.
  rewrite checkLevel_verdict. intros (vd & Hvd & Happ)%bind_Ok Hk.
  destruct (verdict_evaluated _ _ _ _ Hvd) as (jlev & SigB & SigA & PStd & v & tj & Hev & ->).
  { intros ->. by injection Happ as <- <-. }
  exists jlev, SigB, SigA, PStd, v, tj. split; [done|].
  destruct (exceedsTolerance opts tj v PStd); simpl in Happ.
  - by apply bind_Ok in Happ as (ti & _ & [_ ->]%flagFailure_frame).
  - by apply bind_Ok in Happ as (ti & _ & [= _ <-]).
Qed.

(** The verdict of a level that is past every guard is that of the
    tolerance test. *)
Lemma verdict_of_evaluated st tObsFinal j jlev SigB SigA PStd v tj :
  evaluated st tObsFinal j jlev SigB SigA PStd v tj →
  verdict st tObsFinal j =
    Ok (if exceedsTolerance opts tj v PStd then Failed jlev SigB SigA v else Passed jlev v).
Proof.
  intros [Hj (flag & Hf & Hs) [HB ?] [HA ?] Hsig HP (IPStd & BigGap & HI & HG & Hgap) Hv Ht].
  unfold verdict. rewrite Hj; simpl. rewrite Hf; simpl.
  unfold isSurface. rewrite Hs; simpl. rewrite HB; simpl. rewrite HA; simpl.
  rewrite HP; simpl. rewrite HI; simpl. rewrite HG; simpl. rewrite Hsig.
  unfold noBracket. rewrite (proj2 (Z.eqb_neq SigB (-1))), (proj2 (Z.eqb_neq SigA (-1))) by done.
  simpl. rewrite Hgap; simpl. rewrite Hv; simpl. by rewrite Ht.
Qed.

(** Past the guards, an iteration stores the interpolated value
    and, when the tolerance is exceeded, counts and flags the failure. *)
Theorem checkLevel_evaluated tObsFinal j st k jlev SigB SigA PStd v tj :
  evaluated st tObsFinal j jlev SigB SigA PStd v tj →
  checkLevel opts K tObsFinal j (st, k) =
    ti ← vec_set (tInterp_ st) jlev v;
    if exceedsTolerance opts tj v PStd
    then flagFailure K tObsFinal jlev SigB SigA (set_tInterp ti st, k)
    else Ok (set_tInterp ti st, k).
Proof.
  intros Hev. rewrite checkLevel_verdict, (verdict_of_evaluated _ _ _ _ _ _ _ _ _ Hev). simpl.
  by destruct (exceedsTolerance opts tj v PStd).
Qed.

(** ** Profiles on which nothing is evaluated *)

Lemma verdict_ext tObsFinal j st st' :
  levels st' = levels st → pressures st' = pressures st → tFlags st' = tFlags st →
  verdict st' tObsFinal j = verdict st tObsFinal j.
Proof. intros Hl Hp Hf. unfold verdict, gapTooBig, interpolate. by rewrite Hl, Hp, Hf. Qed.

Lemma checkLevels_all_skipped tObsFinal js st k :
  (∀ j, j ∈ js → verdict st tObsFinal j = Ok Skipped) →
  foldM (checkLevel opts K tObsFinal) js (st, k) = Ok (st, k).
Proof.
  induction js as [|j js IH]; intros H; cbn [foldM]; [done|].
  rewrite checkLevel_verdict, H by left. simpl. apply IH. intros j' Hj'. apply H. by right.
Qed.

(** C17: when no standard level is evaluated (there is none, or a
    guard skips each), the call returns, no flag and no counter has
    changed, every level error is -1 and every interpolated value is the
    missing-value indicator. *)
Theorem runCheck_nothing_evaluated n st sl :
  anyVectorEmpty st = false → allVectorsSameSize st = true → 0 ≤ n →
  let tObsFinal := correctVector (tObs st) (tObsCorrection st) in
  calcStdLevels n (pressures st) tObsFinal (tFlags st) (levels st) = Ok sl →
  (∀ j, 0 ≤ j < NumStd_ sl → verdict (set_levels sl st) tObsFinal j = Ok Skipped) →
  runCheck opts K n st =
    Ok (set_tInterp (replicate (Z.to_nat n) (missingValueFloat K))
          (set_LevErrors (replicate (Z.to_nat n) (-1))
             (set_levels sl (add_log DebugCheck st)))).
Proof.
  intros He Hs Hn tObsFinal Hsl Hskip. rewrite runCheck_valid by done.
  unfold checkProfile. rewrite (bind_Ok_l _ _ sl) by done.
  unfold vec_assign. rewrite !decide_True by done.
  rewrite (bind_Ok_l _ _ (replicate (Z.to_nat n) (-1))) by done.
  rewrite (bind_Ok_l _ _ (replicate (Z.to_nat n) (missingValueFloat K))) by done.
  unfold checkLevels. rewrite checkLevels_all_skipped; [done|].
  intros j Hj%elem_of_seqZ. simpl in Hj. rewrite <- (Hskip j) by lia.
  by apply verdict_ext.
Qed.

(** ** A failure without a counter *)

(** A loop whose first [j] standard levels are skipped starts with the
    iteration for level [j]. *)
Lemma checkLevels_skip_prefix tObsFinal st k j m :
  0 ≤ j < m → (∀ i, 0 ≤ i < j → verdict st tObsFinal i = Ok Skipped) →
  foldM (checkLevel opts K tObsFinal) (seqZ 0 m) (st, k) =
    checkLevel opts K tObsFinal j (st, k) ≫=
      foldM (checkLevel opts K tObsFinal) (seqZ (Z.succ j) (Z.pred (m - j))).
Proof.
  intros Hj Hskip. replace m with (j + (m - j)) at 1 by lia.
  rewrite seqZ_app by lia. rewrite foldM_app, checkLevels_all_skipped.
  - simpl. by rewrite seqZ_cons by lia.
  - intros i Hi%elem_of_seqZ. apply Hskip. lia.
Qed.

(** C22: the error counters are not among the vectors the method
    validates, yet the first failure increments them: on valid input
    whose first evaluated standard level fails, a [NumAnyErrors] without
    an entry makes the call index it out of range. *)
Theorem runCheck_counter_missing n st sl j jlev SigB SigA v :
  anyVectorEmpty st = false → allVectorsSameSize st = true →
  let tObsFinal := correctVector (tObs st) (tObsCorrection st) in
  calcStdLevels n (pressures st) tObsFinal (tFlags st) (levels st) = Ok sl →
  0 ≤ j < NumStd_ sl →
  (∀ i, 0 ≤ i < j → verdict (set_levels sl st) tObsFinal i = Ok Skipped) →
  verdict (set_levels sl st) tObsFinal j = Ok (Failed jlev SigB SigA v) →
  0 ≤ jlev < n →
  NumAnyErrors st = [] →
  runCheck opts K n st = Fault OutOfBounds.
Proof.
  intros He Hs tObsFinal Hsl Hj Hskip Hfail Hjlev Hnae. rewrite runCheck_valid by done.
  unfold checkProfile. rewrite (bind_Ok_l _ _ sl) by done.
  unfold vec_assign. rewrite !decide_True by lia.
  rewrite (bind_Ok_l _ _ (replicate (Z.to_nat n) (-1))) by done.
  rewrite (bind_Ok_l _ _ (replicate (Z.to_nat n) (missingValueFloat K))) by done.
  unfold checkLevels. simpl levels.
  change (correctVector _ _) with tObsFinal.
  set (st1 := set_tInterp _ _).
  assert (∀ i, verdict st1 tObsFinal i = verdict (set_levels sl st) tObsFinal i) as Hv
    by (intros i; by apply verdict_ext).
  rewrite (checkLevels_skip_prefix _ _ _ j) by (done || intros i Hi; by rewrite Hv, Hskip).
  rewrite checkLevel_verdict, Hv, Hfail.
  simpl. unfold vec_set. rewrite decide_True by (rewrite length_replicate; lia).
  simpl. unfold flagFailure. simpl. by rewrite Hnae.
Qed.

(** ** The order of the standard levels *)

(** C18: visiting the standard levels in another order gives the same
    verdicts, each for its level, and the same flags, level errors,
    error counters and number of failures after the loop. *)
Theorem checkLevels_order_independent tObsFinal js js' st k s1 s2 :
  Z.land IF SF = 0 → js ≡ₚ js' →
  foldM (checkLevel opts K tObsFinal) js (st, k) = Ok s1 →
  foldM (checkLevel opts K tObsFinal) js' (st, k) = Ok s2 →
  (∃ vds vds', mapM (verdict st tObsFinal) js = Ok vds ∧
     mapM (verdict st tObsFinal) js' = Ok vds' ∧ vds ≡ₚ vds') ∧
  tFlags s1.1 = tFlags s2.1 ∧ LevErrors_ s1.1 = LevErrors_ s2.1 ∧
  NumAnyErrors s1.1 = NumAnyErrors s2.1 ∧ NumInterpErrors s1.1 = NumInterpErrors s2.1 ∧
  s1.2 = s2.2.
Proof.
  intros Hbits Hp (vds & Hvds & H1)%checkLevels_verdicts (vds' & Hvds' & H2)%checkLevels_verdicts;
    [|done..].
  destruct (mapM_Permutation _ _ _ _ Hp Hvds) as (? & Heq & Hperm).
  rewrite Hvds' in Heq. injection Heq as <-.
  assert (omap failure vds ≡ₚ omap failure vds') as Hfs by by rewrite Hperm.
  split; [by exists vds, vds'|].
  destruct s1 as [t1 k1], s2 as [t2 k2].
  apply applyVerdicts_effects in H1 as ([] & _ & ->), H2 as ([] & _ & ->). simpl.
  rewrite eff_tFlags, eff_tFlags0, eff_LevErrors, eff_LevErrors0, eff_NumAnyErrors,
    eff_NumAnyErrors0, eff_NumInterpErrors, eff_NumInterpErrors0.
  by rewrite Hfs.
Qed.

(** ** The interpolated values, level by level *)

(** C38: after a call on valid input, [tInterp_] holds at each level
    the value interpolated for the last standard level that is this
    level and was evaluated, and the missing-value indicator at every
    other level. *)
Theorem runCheck_tInterp n st st' :
  Z.land IF SF = 0 →
  anyVectorEmpty st = false → allVectorsSameSize st = true →
  runCheck opts K n st = Ok st' →
  ∃ sl vds,
    let tObsFinal := correctVector (tObs st) (tObsCorrection st) in
    calcStdLevels n (pressures st) tObsFinal (tFlags st) (levels st) = Ok sl ∧
    mapM (verdict (set_levels sl st) tObsFinal) (seqZ 0 (NumStd_ sl)) = Ok vds ∧
    ∀ i : nat, (i < Z.to_nat n)%nat →
      tInterp_ st' !! i =
        Some (default (missingValueFloat K) (storedAt (omap stored vds) i)).
Proof.
  intros Hbits He Hs. rewrite runCheck_valid by done.
  intros (sl & vds & Hsl & Hvds & ->)%checkProfile_specState; [|done].
  exists sl, vds. split; [done|]. split; [done|]. intros i Hi. simpl.
  by rewrite foldl_store_lookup, lookup_replicate_2.
Qed.

(** ** Total correctness *)

(** C37: a call on valid input that meets [ready], with a
    classification that honours its contract and returns [sl], returns
    the state the specification gives: the verdicts of all standard
    levels are defined and [runCheck] returns [specState]. *)
Theorem runCheck_total `{!ClassifierOk C} n st sl :
  Z.land IF SF = 0 →
  anyVectorEmpty st = false → allVectorsSameSize st = true →
  ready n st →
  let tObsFinal := correctVector (tObs st) (tObsCorrection st) in
  calcStdLevels n (pressures st) tObsFinal (tFlags st) (levels st) = Ok sl →
  ∃ vds,
    mapM (verdict (set_levels sl st) tObsFinal) (seqZ 0 (NumStd_ sl)) = Ok vds ∧
    runCheck opts K n st = Ok (specState n sl vds st).
Proof.
  intros Hbits He Hs Hready tObsFinal Hsl.
  destruct (runCheck_returns opts K n st Hready) as (st' & Hrun & _); [by exists sl|].
  pose proof Hrun as Hspec. rewrite runCheck_valid in Hspec by done.
  apply checkProfile_specState in Hspec as (sl' & vds & Hsl' & Hvds & ->); [|done].
  unfold tObsFinal in *. assert (sl' = sl) as -> by congruence. eauto.
Qed.

(** ** A second run *)

(** C24: running the check again on its own result, with the same
    classification, finds the same verdicts: flags, level errors and
    interpolated values are reproduced, while the three counters grow a
    second time by what they grew the first time. *)
Theorem runCheck_rerun n st st1 st2 :
  Z.land IF SF = 0 →
  anyVectorEmpty st = false → allVectorsSameSize st = true →
  runCheck opts K n st = Ok st1 → runCheck opts K n st1 = Ok st2 →
  levels st2 = levels st1 →
  ∃ vds,
    st1 = specState n (levels st1) vds st ∧ st2 = specState n (levels st1) vds st1 ∧
    tFlags st2 = tFlags st1 ∧ LevErrors_ st2 = LevErrors_ st1 ∧ tInterp_ st2 = tInterp_ st1.
Proof.
  intros Hbits He Hs H1 H2 Hl. pose proof (runCheck_changes _ _ _ _ _ H1) as Hch.
  destruct (changes_valid _ _ _ Hch) as [He1 Hs1].
  destruct Hch as [(Hp & Ho & _ & Hc) Hf _ _ _].
  rewrite runCheck_valid in H1, H2 by congruence.
  apply checkProfile_specState in H1 as (sl & vds & _ & Hvds & E1); [|done].
  apply checkProfile_specState in H2 as (sl' & vds' & _ & Hvds' & E2); [|done].
  assert (sl' = sl) as -> by (by rewrite E1, E2 in Hl).
  rewrite Ho, Hc in Hvds'. erewrite mapM_ext, Hvds in Hvds'.
  2: { intros j _. by apply verdict_inputs. }
  injection Hvds' as <-. exists vds. subst st1 st2. simpl.
  by rewrite foldl_mark3_idemp.
Qed.

End Spec.
