(* ===== verification/InterpNumerics.v ===== *)
(** * The tolerance test on particular profiles

    Properties of the interpolation and of the tolerance test (lines
    96-106 of ProfileCheckInterpolation.cc) that hold of the
    floating-point computation itself, whatever the classification and
    the pressures: between two brackets that carry the same temperature
    the interpolated value is that temperature, a zero, or not a number
    ([interpValue_isothermal]); a level whose observation equals that of
    both its brackets is within every tolerance that is not negative
    ([exceedsTolerance_isothermal]); and a profile of one temperature
    throughout is never flagged nor counted ([runCheck_isothermal]). *)

From Stdlib Require Import ZArith Lia SpecFloat.
From stdpp Require Import base tactics option list numbers.
From S2P Require Import Prelude Float32 StdLevels InterpCheck InterpEffects InterpSafety.
From S2P Require Import InterpSpec.

#[local] Open Scope Z_scope.

(** ** Interpolation between equal values *)

(** Equation 3.3b between two brackets of temperature [t]: the
    difference of the brackets is a zero, so the result is [t] when the
    ratio is a number, and not a number otherwise. *)
Lemma interpValue_isothermal t r :
  is_finite t = true →
  interpValue t t r = t
  ∨ is_zero t = true ∧ is_zero (interpValue t t r) = true
  ∨ is_nan (interpValue t t r) = true.
Proof.
  intros Ht. unfold interpValue, F32.add, F32.mul, F32.sub.
  destruct (SFmul_zero_l F32.prec F32.emax _ r (SFsub_diag F32.prec F32.emax t Ht)) as [Hz|Hn].
  - destruct (is_zero t) eqn:Hzt.
    + right. left. split; [done|]. by apply SFadd_zeros.
    + left. by apply SFadd_zero_r.
  - right. right. apply F32_add_nan. by right.
Qed.

(** The residual of a level between brackets of its own temperature is
    a zero or not a number. *)
Lemma residual_isothermal t r :
  is_finite t = true →
  is_zero (F32.sub t (interpValue t t r)) = true
  ∨ is_nan (F32.sub t (interpValue t t r)) = true.
Proof.
  intros Ht. destruct (interpValue_isothermal t r Ht) as [->|[[Hz Hv]|Hn]].
  - left. by apply SFsub_diag.
  - left. by apply SFsub_zeros.
  - right. apply F32_sub_nan. by right.
Qed.

(** ** Values that are not numbers *)

(** Equation 3.3b yields no number when a bracket observation or the
    ratio is not a number. *)
Lemma interpValue_nan tB tA r :
  is_nan tB = true ∨ is_nan tA = true ∨ is_nan r = true →
  is_nan (interpValue tB tA r) = true.
Proof.
  intros H. unfold interpValue. apply F32_add_nan.
  destruct H as [H|H]; [by left|right]. apply F32_mul_nan.
  destruct H as [H|H]; [left|by right]. apply F32_sub_nan. by left.
Qed.

(** One of the three temperatures of a test, that of the standard level
    and those of its brackets, is not a number. *)
Definition notANumber (tj tB tA : float) : bool := is_nan tj || is_nan tB || is_nan tA.

Lemma notANumber_true tj tB tA :
  notANumber tj tB tA = true ↔ is_nan tj = true ∨ is_nan tB = true ∨ is_nan tA = true.
Proof. unfold notANumber. rewrite !orb_true_iff. tauto. Qed.

Section Numerics.
Context {C : Classifier}.
Variables (opts : Options) (K : Constants).

#[local] Abbreviation IF := (InterpolationFlag K).

(** The tolerance is not negative, at every pressure. *)
Definition toleranceNotNegative : Prop :=
  ∀ PStd, F32.ltb (tolerance opts PStd) F32.zero = false.

(** A level whose observation is that of both its brackets passes the
    test. *)
Lemma exceedsTolerance_isothermal t r PStd :
  is_finite t = true → toleranceNotNegative →
  exceedsTolerance opts t (interpValue t t r) PStd = false.
Proof.
  intros Ht Htol. unfold exceedsTolerance.
  destruct (residual_isothermal t r Ht) as [Hz|Hn].
  - unfold F32.abs, F32.gtb. rewrite (SFabs_zero _ Hz). apply Htol.
  - apply F32_gtb_nan. left. by rewrite F32_abs_nan.
Qed.

(** The value interpolated for a level, from the reads that give it. *)
Lemma interpolate_Ok st tObsFinal jlev SigB SigA v :
  interpolate st tObsFinal jlev SigB SigA = Ok v ↔
  ∃ lj lB lA tB tA,
    vec_get (LogP_ (levels st)) jlev = Ok lj ∧ vec_get (LogP_ (levels st)) SigB = Ok lB ∧
    vec_get (LogP_ (levels st)) SigA = Ok lA ∧
    vec_get tObsFinal SigB = Ok tB ∧ vec_get tObsFinal SigA = Ok tA ∧
    v = interpValue tB tA (ratio lj lB lA).
Proof. unfold interpolate. repeat setoid_rewrite bind_Ok. naive_solver. Qed.

(** C36: the tolerance test is false on values that are not numbers: a
    standard level that is past every guard and whose corrected
    observation, or that of one of its brackets, is a NaN has its
    interpolated value stored and is neither flagged nor counted. *)
Theorem checkLevel_nan_unflagged tObsFinal j st k jlev SigB SigA PStd v tj tB tA :
  evaluated opts K st tObsFinal j jlev SigB SigA PStd v tj →
  vec_get tObsFinal SigB = Ok tB → vec_get tObsFinal SigA = Ok tA →
  notANumber tj tB tA = true →
  checkLevel opts K tObsFinal j (st, k) =
    ti ← vec_set (tInterp_ st) jlev v; Ok (set_tInterp ti st, k).
Proof.
  intros Hev HB HA Hnan%notANumber_true.
  rewrite checkLevel_verdict, (verdict_of_evaluated _ _ _ _ _ _ _ _ _ _ _ Hev).
  rewrite exceedsTolerance_nan; [done|].
  destruct Hnan as [?|Hnan]; [by left|right].
  destruct Hev as [_ _ _ _ _ _ _ (? & ? & ? & tB' & tA' & _ & _ & _ & HB' & HA' & ->)%interpolate_Ok _].
  apply interpValue_nan. rewrite HB in HB'. rewrite HA in HA'.
  injection HB' as <-. injection HA' as <-. tauto.
Qed.

(** The value read from a vector all of whose entries are [t]. *)
Lemma vec_get_Forall_eq (v : list float) t i x :
  Forall (eq t) v → vec_get v i = Ok x → x = t.
Proof.
  intros Hv [_ Hx]%vec_get_Ok. symmetry.
  by eapply (Forall_lookup_1 (eq t)).
Qed.

(** On a profile of one temperature no standard level fails. *)
Lemma verdict_isothermal st tObsFinal t j vd :
  is_finite t = true → toleranceNotNegative → Forall (eq t) tObsFinal →
  verdict opts K st tObsFinal j = Ok vd → failure vd = None.
Proof.
  intros Ht Htol Hall Hvd. destruct (decide (vd = Skipped)) as [->|Hne]; [done|].
  destruct (verdict_evaluated _ _ _ _ _ _ Hvd Hne)
    as (jlev & SigB & SigA & PStd & v & tj & [_ _ _ _ _ _ _ Hv Htj] & ->).
  unfold interpolate in Hv. repeat peel Hv. injection Hv as <-.
  repeat match goal with
         | H : vec_get tObsFinal _ = Ok _ |- _ => apply (vec_get_Forall_eq _ t) in H as ->; [|done]
         end.
  by rewrite exceedsTolerance_isothermal.
Qed.

(** An iteration whose verdict is not a failure changes [tInterp_] at
    most. *)
Lemma applyVerdict_no_failure tObsFinal vd st k s' :
  failure vd = None → applyVerdict K tObsFinal vd (st, k) = Ok s' →
  ∃ ti, s' = (set_tInterp ti st, k).
Proof.
  destruct vd as [|jlev v|]; [| |done]; intros _; simpl.
  - intros [= <-]. exists (tInterp_ st). by destruct st.
  - intros (ti & _ & [= <-])%bind_Ok. by exists ti.
Qed.

(** The loop over an isothermal profile counts no failure and changes
    [tInterp_] only. *)
Lemma checkLevels_isothermal tObsFinal t js st k s' :
  is_finite t = true → toleranceNotNegative → Forall (eq t) tObsFinal →
  foldM (checkLevel opts K tObsFinal) js (st, k) = Ok s' →
  ∃ ti, s' = (set_tInterp ti st, k).
Proof.
  intros Ht Htol Hall. revert st. induction js as [|j js IH]; intros st; cbn [foldM].
  - intros [= <-]. exists (tInterp_ st). by destruct st.
  - rewrite checkLevel_verdict.
    intros (s1 & (vd & Hvd & Happ)%bind_Ok & Hrest)%bind_Ok.
    apply applyVerdict_no_failure in Happ as [ti ->]; [|by eapply verdict_isothermal].
    apply IH in Hrest as [ti' ->]. by exists ti'.
Qed.

(** The part of the method after the validation, on an isothermal
    profile. *)
Lemma checkProfile_isothermal n st st' t :
  is_finite t = true → toleranceNotNegative →
  Forall (eq t) (correctVector (tObs st) (tObsCorrection st)) →
  checkProfile opts K n st = Ok st' →
  tFlags st' = tFlags st ∧ NumAnyErrors st' = NumAnyErrors st ∧
  NumInterpErrors st' = NumInterpErrors st ∧ NumInterpErrObs st' = NumInterpErrObs st ∧
  LevErrors_ st' = replicate (Z.to_nat n) (-1) ∧ log st' = log st.
Proof.
  intros Ht Htol Hall (sl & st1 & k & _ & _ & Hloop & Hk)%checkProfile_Ok.
  unfold checkLevels in Hloop.
  apply (checkLevels_isothermal _ t) in Hloop as [ti [= -> ->]]; [|done..].
  by destruct Hk as [[_ ->]|[? _]]; [|lia].
Qed.

(** C26: a profile whose corrected observations all have the same
    temperature is never flagged: whatever the pressures and the
    classification, a call of [runCheck] that meets the caller's
    conditions returns with the flags and the three error counters as
    they were, provided the temperature is a number and the tolerance
    is not negative.  On valid input every level error is then -1, the
    value [LevErrors_] is given before the loop, also at the levels the
    loop has evaluated. *)
Theorem runCheck_isothermal `{!ClassifierOk C} n st t :
  ready n st →
  is_Ok (calcStdLevels n (pressures st) (correctVector (tObs st) (tObsCorrection st))
           (tFlags st) (levels st)) →
  is_finite t = true → toleranceNotNegative →
  Forall (eq t) (correctVector (tObs st) (tObsCorrection st)) →
  ∃ st', runCheck opts K n st = Ok st' ∧
    tFlags st' = tFlags st ∧ NumAnyErrors st' = NumAnyErrors st ∧
    NumInterpErrors st' = NumInterpErrors st ∧ NumInterpErrObs st' = NumInterpErrObs st ∧
    (anyVectorEmpty st = false → allVectorsSameSize st = true →
     LevErrors_ st' = replicate (Z.to_nat n) (-1)).
Proof.
  intros Hready Hsl Ht Htol Hall.
  destruct (runCheck_returns opts K n st Hready Hsl) as (st' & Hrun & _).
  exists st'. split; [done|].
  destruct (anyVectorEmpty st) eqn:He; [|destruct (allVectorsSameSize st) eqn:Hs].
  - rewrite runCheck_invalid in Hrun by auto. by injection Hrun as <-.
  - rewrite runCheck_valid in Hrun by done.
    by apply (checkProfile_isothermal _ _ _ t) in Hrun as (? & ? & ? & ? & ? & _).
  - rewrite runCheck_invalid in Hrun by auto. by injection Hrun as <-.
Qed.

End Numerics.
