(* ===== verification/Background.v ===== *)
(** * The background temperature

    [runCheck] binds the model background [tBkg] with the other vectors
    of the profile (line 33 of ProfileCheckInterpolation.cc).  It reads
    it in the validation of the sizes (lines 48-57) and in the debug
    lines of a failed test (lines 126, 133 and 137), and nowhere else:
    the check compares the observation with a value interpolated from
    observations, not with the model.

    [sameBut] relates two states of the check that hold the same
    vectors and members, the background apart, backgrounds of one size,
    and logs that print the same values, the background temperatures
    apart ([sameLine]).  It is an equivalence, every step of the method
    respects it, and so does the method ([runCheck_background]): two
    runs on profiles that differ in the background fault alike or
    return the same flags, counters, level errors and interpolated
    values. *)

From Stdlib Require Import ZArith Lia SpecFloat.
From stdpp Require Import base tactics option list numbers.
From S2P Require Import Prelude Float32 StdLevels InterpCheck.

#[local] Open Scope Z_scope.

(** ** States up to the background *)

(** Two messages that print the same values, the background temperature
    apart. *)
Definition sameLine (e e' : Event) : Prop :=
  match e, e' with
  | DebugCentral j P t _ ti r, DebugCentral j' P' t' _ ti' r' =>
      j = j' ∧ P = P' ∧ t = t' ∧ ti = ti' ∧ r = r'
  | DebugBracket l P t _, DebugBracket l' P' t' _ => l = l' ∧ P = P' ∧ t = t'
  | _, _ => e = e'
  end.

#[global] Instance sameLine_dec e e' : Decision (sameLine e e').
Proof. destruct e, e'; simpl; apply _. Defined.

#[global] Instance sameLine_equiv : Equivalence sameLine.
Proof.
  split.
  - by intros [].
  - intros [] []; simpl; naive_solver.
  - intros [] [] []; simpl; naive_solver.
Qed.

Record sameBut (st st' : State) : Prop := mkSameBut {
  sb_pressures : pressures st = pressures st';
  sb_tObs : tObs st = tObs st';
  sb_tBkg : length (tBkg st) = length (tBkg st');
  sb_tFlags : tFlags st = tFlags st';
  sb_NumAnyErrors : NumAnyErrors st = NumAnyErrors st';
  sb_NumInterpErrors : NumInterpErrors st = NumInterpErrors st';
  sb_NumInterpErrObs : NumInterpErrObs st = NumInterpErrObs st';
  sb_tObsCorrection : tObsCorrection st = tObsCorrection st';
  sb_levels : levels st = levels st';
  sb_LevErrors : LevErrors_ st = LevErrors_ st';
  sb_tInterp : tInterp_ st = tInterp_ st';
  sb_log : Forall2 sameLine (log st) (log st')
}.

#[global] Instance sameBut_dec st st' : Decision (sameBut st st').
Proof.
  refine (cast_if (decide (pressures st = pressures st' ∧ tObs st = tObs st' ∧
    length (tBkg st) = length (tBkg st') ∧ tFlags st = tFlags st' ∧
    NumAnyErrors st = NumAnyErrors st' ∧ NumInterpErrors st = NumInterpErrors st' ∧
    NumInterpErrObs st = NumInterpErrObs st' ∧ tObsCorrection st = tObsCorrection st' ∧
    levels st = levels st' ∧ LevErrors_ st = LevErrors_ st' ∧ tInterp_ st = tInterp_ st' ∧
    Forall2 sameLine (log st) (log st')))); [by split; intuition|by intros []; intuition].
Defined.

#[global] Instance sameBut_equiv : Equivalence sameBut.
Proof.
  split.
  - by intros st; split.
  - intros st st' []; split; by symmetry.
  - intros st1 st2 st3 [] []; split; by etrans.
Qed.

(** The state of the loop: the state of the check and [NumErrors]. *)
Definition sameLoop : relation (State * Z) := prod_relation sameBut eq.

(** ** The lemmas *)

Section Background.
Context {C : Classifier}.
Variables (opts : Options) (K : Constants).

Lemma add_logs_sameBut es es' st st' :
  Forall2 sameLine es es' → sameBut st st' → sameBut (add_logs es st) (add_logs es' st').
Proof. intros Hes []. split; simpl; try done. by apply Forall2_app. Qed.

Lemma add_log_sameBut e st st' : sameBut st st' → sameBut (add_log e st) (add_log e st').
Proof. intros []. split; simpl; try done. apply Forall2_app; [done|by constructor]. Qed.

Lemma anyVectorEmpty_sameBut st st' : sameBut st st' → anyVectorEmpty st = anyVectorEmpty st'.
Proof.
  intros H. same_fields H. unfold anyVectorEmpty. simpl.
  assert (bool_decide (tBkg = []) = bool_decide (tBkg0 = [])) as ->; [|done].
  apply bool_decide_ext. by rewrite <- !length_zero_iff_nil, sb_tBkg0.
Qed.

Lemma allVectorsSameSize_sameBut st st' :
  sameBut st st' → allVectorsSameSize st = allVectorsSameSize st'.
Proof.
  intros H. same_fields H. unfold allVectorsSameSize. simpl. by rewrite sb_tBkg0.
Qed.

(** The debug lines of a failure print the same values, the background
    apart, and are computed alike. *)
Lemma bracketLine_sameBut st st' tObsFinal lev :
  sameBut st st' → res_rel sameLine (bracketLine K st tObsFinal lev) (bracketLine K st' tObsFinal lev).
Proof.
  intros H. same_fields H. unfold bracketLine. both.
  eapply res_rel_bind; [by apply vec_get_same_length|]. by intros.
Qed.

Lemma centralLine_sameBut st st' tObsFinal jlev :
  sameBut st st' → res_rel sameLine (centralLine K st tObsFinal jlev) (centralLine K st' tObsFinal jlev).
Proof.
  intros H. same_fields H. unfold centralLine. both.
  eapply res_rel_bind; [by apply vec_get_same_length|]. intros b b' _. both.
Qed.

Lemma failureLines_sameBut st st' tObsFinal jlev SigB SigA :
  sameBut st st' →
  res_rel (Forall2 sameLine) (failureLines K st tObsFinal jlev SigB SigA)
    (failureLines K st' tObsFinal jlev SigB SigA).
Proof.
  intros H. unfold failureLines.
  eapply res_rel_bind; [by apply centralLine_sameBut|]. intros c c' Hc.
  eapply res_rel_bind; [by apply bracketLine_sameBut|]. intros b b' Hb.
  eapply res_rel_bind; [by apply bracketLine_sameBut|]. intros a a' Ha.
  simpl. by repeat constructor.
Qed.

Lemma flagFailure_sameBut tObsFinal jlev SigB SigA :
  (sameLoop ==> res_rel sameLoop)%signature
    (flagFailure K tObsFinal jlev SigB SigA) (flagFailure K tObsFinal jlev SigB SigA).
Proof.
  intros [st k] [st' k'] [H Hk]. simpl in H, Hk. subst k'. unfold flagFailure.
  pose proof (failureLines_sameBut st st' tObsFinal jlev SigB SigA H) as Hlines.
  same_fields H. both.
  eapply res_rel_bind; [exact Hlines|]. intros es es' Hes. simpl.
  split; simpl; [|done]. split; simpl; try done. by apply Forall2_app.
Qed.

#[local] Opaque flagFailure.

Lemma checkLevel_sameBut tObsFinal jlevstd :
  (sameLoop ==> res_rel sameLoop)%signature
    (checkLevel opts K tObsFinal jlevstd) (checkLevel opts K tObsFinal jlevstd).
Proof.
  intros [st k] [st' k'] [H Hk]. simpl in H, Hk. subst k'.
  unfold checkLevel, gapTooBig, interpolate. same_fields H. both; try (by split; [split|]).
  apply flagFailure_sameBut. by split; [split|].
Qed.

Lemma checkLevels_sameBut tObsFinal st st' :
  sameBut st st' →
  res_rel sameLoop (checkLevels opts K tObsFinal st) (checkLevels opts K tObsFinal st').
Proof.
  intros H. unfold checkLevels. rewrite (sb_levels _ _ H).
  apply foldM_res_rel; [intros j; apply checkLevel_sameBut|done|by split].
Qed.

Lemma countObs_sameBut : (sameLoop ==> res_rel sameBut)%signature countObs countObs.
Proof.
  intros [st k] [st' k'] [H Hk]. simpl in H, Hk. subst k'. unfold countObs.
  same_fields H. both; by split.
Qed.

Lemma checkProfile_sameBut n st st' :
  sameBut st st' → res_rel sameBut (checkProfile opts K n st) (checkProfile opts K n st').
Proof.
  intros H. unfold checkProfile.
  rewrite (sb_tObs _ _ H), (sb_tObsCorrection _ _ H), (sb_pressures _ _ H),
    (sb_tFlags _ _ H), (sb_levels _ _ H). both.
  eapply res_rel_bind; [|apply countObs_sameBut].
  apply checkLevels_sameBut. destruct H. by split.
Qed.

(** C32: the background temperature does not influence the check.  Two
    runs on states that differ in the values of [tBkg] (and in the
    background temperatures the log already holds) both fault, with the
    same fault, or both return; the states they return hold the same
    flags, counters, classification, level errors and interpolated
    values, and their logs print the same values but for the background
    temperatures. *)
Theorem runCheck_background n st st' :
  sameBut st st' → res_rel sameBut (runCheck opts K n st) (runCheck opts K n st').
Proof.
  intros H%(add_log_sameBut DebugCheck). unfold runCheck.
  rewrite (anyVectorEmpty_sameBut _ _ H), (allVectorsSameSize_sameBut _ _ H).
  destruct (anyVectorEmpty _); [by apply add_log_sameBut|].
  destruct (negb _); [by apply add_log_sameBut|]. by apply checkProfile_sameBut.
Qed.

End Background.
