(* ===== verification/BigGap.v ===== *)
(** * Selection of the gap threshold

    The scan of the band table in [runCheck] ([selectBigGap], lines 80-86
    of ProfileCheckInterpolation.cc) characterised by [list_find]: the
    band selected is the first whose level is at most the rounded
    pressure, its gap is read at the same index of [BigGaps_], and the
    initial value of the options is kept when no band matches.  On a
    table whose levels decrease the selected band is the greatest level
    that is at most the rounded pressure.  The read
    of [BigGaps_] is out of range when that table is shorter than the
    position of the selected band.  [describedBand] is the rule with
    the comparison the other way round, as the specification words it;
    the two differ below the first level of the table. *)

From Stdlib Require Import ZArith Lia SpecFloat.
From stdpp Require Import base tactics option list numbers sorting.
From S2P Require Import Prelude Float32 StdLevels InterpCheck.

#[local] Open Scope Z_scope.

(** The test of line 82: [StandardLevels_[i] <= IPStd], the [int] being
    converted to [float]. *)
Definition bandMatches (IPStd : Z) (l : float) : Prop :=
  F32.leb l (F32.of_int IPStd) = true.

#[global] Instance bandMatches_dec IPStd l : Decision (bandMatches IPStd l).
Proof. unfold bandMatches. apply _. Defined.

(** The position of the selected band, if any. *)
Definition selectedBand (sl : StdLevels) (IPStd : Z) : option nat :=
  fst <$> list_find (bandMatches IPStd) (StandardLevels_ sl).

(** The rule as the specification words it, for comparison: the first
    band whose level is at least the rounded pressure. *)
Definition bandCovers (IPStd : Z) (l : float) : Prop :=
  F32.leb (F32.of_int IPStd) l = true.

#[global] Instance bandCovers_dec IPStd l : Decision (bandCovers IPStd l).
Proof. unfold bandCovers. apply _. Defined.

Definition describedBand (sl : StdLevels) (IPStd : Z) : option nat :=
  fst <$> list_find (bandCovers IPStd) (StandardLevels_ sl).

(** A band table whose levels decrease from its first entry to its last,
    the order of the reference table (1000 hPa first). *)
Definition decreasing (levs : list float) : Prop :=
  StronglySorted (λ a b, F32.leb b a = true) levs.

#[global] Instance decreasing_dec levs : Decision (decreasing levs).
Proof. unfold decreasing. apply _. Defined.

(** The value [selectBigGap] computes, from the position of the band. *)
Definition gapOfBand (init : float) (gaps : list float) (k : option Z) : result float :=
  match k with
  | Some i => g ← vec_get gaps i; Ok (gapInPa g)
  | None => Ok init
  end.

Section BigGap.
Variable opts : Options.

Lemma bigGapFrom_find levs i gaps IPStd init :
  bigGapFrom levs i gaps IPStd init =
  gapOfBand init gaps
    ((λ k, i + Z.of_nat k.1) <$> list_find (bandMatches IPStd) levs).
Proof.
  revert i. induction levs as [|l levs IH]; intros i; simpl; [done|].
  unfold decide, bandMatches_dec, bandMatches.
  destruct (F32.leb l (F32.of_int IPStd)) eqn:Hl; simpl.
  - by rewrite Z.add_0_r.
  - rewrite IH. destruct (list_find _ levs) as [[k y]|]; simpl; [|done].
    by replace (i + 1 + Z.of_nat k) with (i + Z.pos (Pos.of_succ_nat k)) by lia.
Qed.

(** The two outcomes of the scan: the entry of the first band that
    matches, and the initial value when none does. *)
Lemma selectBigGap_at sl IPStd k :
  selectedBand sl IPStd = Some k →
  selectBigGap opts sl IPStd = gapOfBand (ICheck_BigGapInit opts) (BigGaps_ sl) (Some (Z.of_nat k)).
Proof.
  unfold selectBigGap, selectedBand. rewrite bigGapFrom_find.
  destruct (list_find _ _) as [[k' y]|]; [|done]. by intros [= <-].
Qed.

Lemma selectBigGap_none sl IPStd :
  selectedBand sl IPStd = None → selectBigGap opts sl IPStd = Ok (ICheck_BigGapInit opts).
Proof.
  unfold selectBigGap, selectedBand. rewrite bigGapFrom_find.
  by destruct (list_find _ _) as [[k' y]|].
Qed.

(** C7: the gap threshold is the initial value of the options when no
    band of the table is at most the rounded pressure; otherwise it is
    the entry of [BigGaps_] at the position of the first such band,
    times 100, and the call faults when [BigGaps_] has no such entry. *)
Theorem selectBigGap_first_band sl IPStd :
  selectBigGap opts sl IPStd =
  gapOfBand (ICheck_BigGapInit opts) (BigGaps_ sl) (Z.of_nat <$> selectedBand sl IPStd).
Proof.
  destruct (selectedBand sl IPStd) as [k|] eqn:Hk;
    [by apply selectBigGap_at|by apply selectBigGap_none].
Qed.

(** The selected band matches and no earlier band does. *)
Lemma selectedBand_Some sl IPStd k :
  selectedBand sl IPStd = Some k ↔
  ∃ l, StandardLevels_ sl !! k = Some l ∧ bandMatches IPStd l ∧
       ∀ j y, StandardLevels_ sl !! j = Some y → (j < k)%nat → ¬ bandMatches IPStd y.
Proof.
  unfold selectedBand. split.
  - intros ([k' l] & H%list_find_Some & ->)%fmap_Some. eauto.
  - intros (l & H). apply fmap_Some. exists (k, l). split; [|done].
    by apply list_find_Some.
Qed.

Lemma selectedBand_None sl IPStd :
  selectedBand sl IPStd = None ↔ Forall (λ l, ¬ bandMatches IPStd l) (StandardLevels_ sl).
Proof. unfold selectedBand. by rewrite fmap_None, list_find_None. Qed.


(** A band from the selected one on is at most the selected one, on a
    decreasing table. *)
Lemma decreasing_from levs IPStd k l j y :
  decreasing levs → levs !! k = Some l → bandMatches IPStd l →
  levs !! j = Some y → (k ≤ j)%nat → F32.leb y l = true.
Proof.
  intros Hs Hl Hm Hy Hkj. destruct (decide (k = j)) as [->|].
  - simplify_eq. unfold F32.leb. by rewrite SFleb_refl, (SFleb_not_nan_l _ _ Hm).
  - apply (StronglySorted_lookup _ _ k j l y Hs); [done|done|lia].
Qed.

(** C28: on a table whose levels decrease, as the reference table does,
    the selected band splits the table: the bands before it are above
    the rounded pressure, the bands from it on are at most the rounded
    pressure, and its level is the greatest of these. *)
Theorem selectedBand_decreasing sl IPStd k :
  decreasing (StandardLevels_ sl) → selectedBand sl IPStd = Some k →
  ∃ l, StandardLevels_ sl !! k = Some l ∧
    ∀ j y, StandardLevels_ sl !! j = Some y →
      (bandMatches IPStd y ↔ (k ≤ j)%nat) ∧ (bandMatches IPStd y → F32.leb y l = true).
Proof.
  intros Hs (l & Hl & Hm & Hbefore)%selectedBand_Some. exists l. split; [done|].
  intros j y Hy.
  assert (bandMatches IPStd y → (k ≤ j)%nat) as Hge.
  { intros Hy'. destruct (decide (k ≤ j)%nat); [done|].
    destruct (Hbefore j y); [done|lia|done]. }
  split; [split; [done|]|].
  - intros Hkj. eapply SFleb_trans; [|exact Hm]. by eapply decreasing_from.
  - intros Hy'. eapply decreasing_from; eauto.
Qed.

(** C12: the scan reads [BigGaps_] out of range, whatever the pressure
    vector, when the band it selects lies beyond the end of [BigGaps_]:
    the lengths of the two tables are not compared before the loop. *)
Theorem selectBigGap_short_table sl IPStd k :
  selectedBand sl IPStd = Some k → (length (BigGaps_ sl) ≤ k)%nat →
  selectBigGap opts sl IPStd = Fault OutOfBounds.
Proof.
  intros Hk Hlen. rewrite (selectBigGap_at _ _ _ Hk). simpl.
  unfold vec_get. rewrite decide_True by lia.
  by rewrite Nat2Z.id, lookup_ge_None_2.
Qed.

(** With tables of the same length the selection returns. *)
Lemma selectBigGap_returns sl IPStd :
  length (StandardLevels_ sl) = length (BigGaps_ sl) →
  is_Ok (selectBigGap opts sl IPStd).
Proof.
  intros Hlen. destruct (selectedBand sl IPStd) as [k|] eqn:Hk;
    [rewrite (selectBigGap_at _ _ _ Hk)|rewrite selectBigGap_none by done; by eexists].
  apply selectedBand_Some in Hk as (l & Hl%lookup_lt_Some & _). simpl.
  destruct (lookup_lt_is_Some_2 (BigGaps_ sl) k) as [g Hg]; [lia|].
  exists (gapInPa g). unfold vec_get. rewrite decide_True by lia.
  by rewrite Nat2Z.id, Hg.
Qed.

End BigGap.
