(* ===== verification/ObsOperator.v ===== *)
(** * The observation operator wrapper

    [ufo::ObsOperator] (src/ufo/ObsOperator.cc) owns an operator created
    by a factory and keeps a reference to the observation space.  Its
    [simulateObs] delegates to the operator and, when a bias correction
    is present, computes the predictors and the bias and saves three
    groups in the observation space; the other methods delegate.

    The observation space is modelled as a store of named groups, passed
    in and returned by [simulateObs] because the method writes it through
    the reference [odb_].  The operator, the bias correction and the
    types they exchange are outside the sources: they appear as records
    of operations over types that are parameters of the section.  The
    theorems give what [simulateObs] returns and saves with and without
    a bias correction, and that a repeated call overwrites what the
    first saved.  The records are functions: a collaborator answers
    from its arguments and touches the observation space through the
    saves only.  [OperatorCalls] drops this assumption. *)

From Stdlib Require Import ZArith SpecFloat.
From stdpp Require Import base tactics option list strings gmap.
From S2P Require Import Prelude Float32.

(** ** The observation space and the vectors saved in it *)

(** [ioda::ObsVector]: one [double] per location and variable. *)
Definition ObsVector : Type := list double.

(** [ioda::ObsDataVector<float>]: one row of [float]s per variable. *)
Definition ObsDataVector : Type := list (string * list float).

Inductive Saved : Type :=
| SavedVector (v : ObsVector)
| SavedData (d : ObsDataVector).

(** [ioda::ObsSpace]: the number of locations, the simulated variables,
    and the groups saved so far. *)
Record ObsSpace : Type := mkObsSpace {
  nlocs : nat;
  obsvariables : list string;
  groups : gmap string Saved
}.

Definition put (name : string) (x : Saved) (os : ObsSpace) : ObsSpace :=
  mkObsSpace (nlocs os) (obsvariables os) (<[name := x]> (groups os)).

(** [ioda::ObsVector ybias(odb_)]: a vector of zeros. *)
Definition newObsVector (os : ObsSpace) : ObsVector :=
  replicate (length (obsvariables os) * nlocs os) (S754_zero false).

(** [ioda::ObsDataVector<float>(odb_, names, "", false)]: a row of
    zeros for each name, nothing being read from the observation space. *)
Definition newObsDataVector (os : ObsSpace) (names : list string) : ObsDataVector :=
  (λ n, (n, replicate (nlocs os) (S754_zero false))) <$> names.

(** [ObsVector::save] and [ObsDataVector::save]. *)
Definition saveVector (name : string) (v : ObsVector) : ObsSpace → ObsSpace :=
  put name (SavedVector v).

Definition saveData (name : string) (d : ObsDataVector) : ObsSpace → ObsSpace :=
  put name (SavedData d).

Section ObsOperator.
Context {GeoVaLs ObsDiagnostics Variables Locations DateTime Configuration : Type}.

(** ** The collaborators *)

(** [ufo::ObsOperatorBase]: [simulateObs] writes [yy] and [ydiags]. *)
Record ObsOperatorBase : Type := mkObsOperatorBase {
  base_simulateObs : GeoVaLs → ObsVector → ObsDiagnostics → ObsVector * ObsDiagnostics;
  base_variables : Variables;
  base_locations : DateTime → DateTime → Locations;
  base_print : string
}.

(** [ufo::ObsBias]: its conversion to [bool], the names of its
    predictors, and the two computations, which write their last
    argument(s). *)
Record ObsBias : Type := mkObsBias {
  bias_active : bool;
  predNames : list string;
  computeObsBiasPredictors : GeoVaLs → ObsDiagnostics → ObsDataVector → ObsDataVector;
  computeObsBias : ObsVector → ObsDataVector → ObsDataVector → ObsVector * ObsDataVector
}.

(** [ObsOperatorFactory::create]. *)
Variable create : ObsSpace → Configuration → ObsOperatorBase.

(** ** The class *)

(** The member [oper_]; the member [odb_] refers to the observation
    space the methods receive. *)
Record ObsOperator : Type := mkObsOperator {
  oper_ : ObsOperatorBase
}.

(** The constructor. *)
Definition new (os : ObsSpace) (conf : Configuration) : ObsOperator :=
  mkObsOperator (create os conf).

(** The three saves of the bias branch. *)
Definition saveBias (gvals : GeoVaLs) (ydiags : ObsDiagnostics) (bias : ObsBias)
    (odb : ObsSpace) : ObsSpace :=
  let ybias := newObsVector odb in
  let predictors := newObsDataVector odb (predNames bias) in
  let predTerms := newObsDataVector odb (predNames bias) in
  let predictors := computeObsBiasPredictors bias gvals ydiags predictors in
  let odb := saveData "ObsBiasPredictor" predictors odb in
  let '(ybias, predTerms) := computeObsBias bias ybias predictors predTerms in
  let odb := saveData "ObsBiasTerm" predTerms odb in
  saveVector "ObsBias" ybias odb.

(** [ObsOperator::simulateObs]: the new values of [yy], [ydiags] and of
    the observation space. *)
Definition simulateObs (op : ObsOperator) (gvals : GeoVaLs) (yy : ObsVector)
    (bias : ObsBias) (ydiags : ObsDiagnostics) (odb : ObsSpace) :
    ObsVector * ObsDiagnostics * ObsSpace :=
  let '(yy, ydiags) := base_simulateObs (oper_ op) gvals yy ydiags in
  if bias_active bias then (yy, ydiags, saveBias gvals ydiags bias odb)
  else (yy, ydiags, odb).

(** [ObsOperator::variables] *)
Definition variables (op : ObsOperator) : Variables := base_variables (oper_ op).

(** [ObsOperator::locations] *)
Definition locations (op : ObsOperator) (t1 t2 : DateTime) : Locations :=
  base_locations (oper_ op) t1 t2.

(** [ObsOperator::print]: the text appended to the stream. *)
Definition print (op : ObsOperator) (os : string) : string :=
  os +:+ base_print (oper_ op).

(** ** Properties *)

(** The values the bias branch saves. *)
Definition biasPredictors (gvals : GeoVaLs) (ydiags : ObsDiagnostics) (bias : ObsBias)
    (odb : ObsSpace) : ObsDataVector :=
  computeObsBiasPredictors bias gvals ydiags (newObsDataVector odb (predNames bias)).

Definition biasResult (gvals : GeoVaLs) (ydiags : ObsDiagnostics) (bias : ObsBias)
    (odb : ObsSpace) : ObsVector * ObsDataVector :=
  computeObsBias bias (newObsVector odb) (biasPredictors gvals ydiags bias odb)
    (newObsDataVector odb (predNames bias)).

Lemma put_groups name x os : groups (put name x os) = <[name := x]> (groups os).
Proof. done. Qed.

Lemma put_shape name x os :
  nlocs (put name x os) = nlocs os ∧ obsvariables (put name x os) = obsvariables os.
Proof. done. Qed.

(** Saving does not change what the constructors of the vectors read. *)
Lemma newObsVector_put name x os : newObsVector (put name x os) = newObsVector os.
Proof. done. Qed.

Lemma newObsDataVector_put name x os names :
  newObsDataVector (put name x os) names = newObsDataVector os names.
Proof. done. Qed.

Lemma saveBias_groups gvals ydiags bias odb :
  groups (saveBias gvals ydiags bias odb) =
  <["ObsBias" := SavedVector (biasResult gvals ydiags bias odb).1]>
    (<["ObsBiasTerm" := SavedData (biasResult gvals ydiags bias odb).2]>
       (<["ObsBiasPredictor" := SavedData (biasPredictors gvals ydiags bias odb)]>
          (groups odb))).
Proof.
  unfold saveBias, biasResult, biasPredictors.
  by destruct (computeObsBias _ _ _ _) as [ybias predTerms].
Qed.

(** C6: the simulated observations and the diagnostics are those of the
    wrapped operator whatever the bias correction: the bias is computed
    and saved, and never added to [yy]. *)
Theorem simulateObs_delegates op gvals yy bias ydiags odb :
  (simulateObs op gvals yy bias ydiags odb).1 =
  base_simulateObs (oper_ op) gvals yy ydiags.
Proof.
  unfold simulateObs. destruct (base_simulateObs _ _ _ _) as [yy' yd'].
  by destruct (bias_active bias).
Qed.

(** C8: without a bias correction the observation space is left as it
    was. *)
Theorem simulateObs_without_bias op gvals yy bias ydiags odb :
  bias_active bias = false →
  (simulateObs op gvals yy bias ydiags odb).2 = odb.
Proof.
  unfold simulateObs. intros ->. by destruct (base_simulateObs _ _ _ _).
Qed.

(** C9: with a bias correction, the observation space afterwards holds
    the predictors under [ObsBiasPredictor], the predictor terms under
    [ObsBiasTerm] and the bias under [ObsBias], computed from the
    diagnostics the operator has just produced, and every other group
    is as before. *)
Theorem simulateObs_with_bias op gvals yy bias ydiags odb :
  bias_active bias = true →
  let yd := (base_simulateObs (oper_ op) gvals yy ydiags).2 in
  let odb' := (simulateObs op gvals yy bias ydiags odb).2 in
  groups odb' !! "ObsBiasPredictor" = Some (SavedData (biasPredictors gvals yd bias odb)) ∧
  groups odb' !! "ObsBiasTerm" = Some (SavedData (biasResult gvals yd bias odb).2) ∧
  groups odb' !! "ObsBias" = Some (SavedVector (biasResult gvals yd bias odb).1) ∧
  ∀ g, g ∉ ["ObsBiasPredictor"; "ObsBiasTerm"; "ObsBias"] →
       groups odb' !! g = groups odb !! g.
Proof.
  unfold simulateObs. intros ->. destruct (base_simulateObs _ _ _ _) as [yy' yd].
  simpl. rewrite saveBias_groups. repeat split.
  - do 2 (rewrite lookup_insert_ne by done). by rewrite lookup_insert_eq.
  - rewrite lookup_insert_ne by done. by rewrite lookup_insert_eq.
  - by rewrite lookup_insert_eq.
  - intros g Hg. rewrite !not_elem_of_cons in Hg. destruct Hg as (? & ? & ? & _).
    by do 3 (rewrite lookup_insert_ne by done).
Qed.

(** ** Repeated calls *)

(** The saves change the groups only: the constructors of the next call
    see the same observation space. *)
Lemma saveBias_shape gvals ydiags bias odb :
  nlocs (saveBias gvals ydiags bias odb) = nlocs odb ∧
  obsvariables (saveBias gvals ydiags bias odb) = obsvariables odb.
Proof. unfold saveBias. by destruct (computeObsBias _ _ _ _). Qed.

Lemma ObsSpace_eq os os' :
  nlocs os = nlocs os' → obsvariables os = obsvariables os' → groups os = groups os' →
  os = os'.
Proof. destruct os, os'. simpl. by intros -> -> ->. Qed.

Lemma saveBias_idemp gvals ydiags bias odb :
  saveBias gvals ydiags bias (saveBias gvals ydiags bias odb) =
  saveBias gvals ydiags bias odb.
Proof.
  destruct (saveBias_shape gvals ydiags bias odb) as [Hn Hv].
  apply ObsSpace_eq; [by rewrite !(proj1 (saveBias_shape _ _ _ _))
                     |by rewrite !(proj2 (saveBias_shape _ _ _ _))|].
  rewrite (saveBias_groups _ _ _ (saveBias _ _ _ _)).
  unfold biasResult, biasPredictors, newObsVector, newObsDataVector. rewrite Hn, Hv.
  fold (newObsVector odb) (newObsDataVector odb (predNames bias)).
  fold (biasPredictors gvals ydiags bias odb). fold (biasResult gvals ydiags bias odb).
  rewrite saveBias_groups.
  rewrite (insert_id _ "ObsBiasPredictor");
    [|by do 2 (rewrite lookup_insert_ne by done); rewrite lookup_insert_eq].
  rewrite (insert_id _ "ObsBiasTerm");
    [|by rewrite lookup_insert_ne by done; rewrite lookup_insert_eq].
  apply insert_id, lookup_insert_eq.
Qed.

(** The saves overwrite: a second call of [simulateObs] with the
    same arguments leaves the observation space as the first call left
    it. *)
Theorem simulateObs_idempotent op gvals yy bias ydiags odb :
  let odb1 := (simulateObs op gvals yy bias ydiags odb).2 in
  (simulateObs op gvals yy bias ydiags odb1).2 = odb1.
Proof.
  unfold simulateObs. destruct (base_simulateObs _ _ _ _) as [yy' yd].
  destruct (bias_active bias); simpl; [apply saveBias_idemp|done].
Qed.

End ObsOperator.
