(* ===== verification/OperatorCalls.v ===== *)
(** * The calls of the observation operator wrapper

    [ObsOperator] computes nothing itself: [simulateObs] (lines 35-48 of
    ObsOperator.cc) is a sequence of calls on the operator it owns, on
    the bias correction it receives and on the vectors it constructs
    over the observation space.  [ObsOperator.simulateObs] gives the
    result of that sequence for collaborators that are functions.  This
    file gives the sequence itself, as an interaction tree
    ([simulateObsT]) over the calls ([callE]), so that it says what the
    method does with collaborators of any kind: which calls it makes,
    in which order, and with which of the earlier answers as arguments.

    [runs t calls r] relates a program to the calls it makes and the
    answers it receives; [runCalls] computes a run against a handler
    with a state, and agrees with [runs] and with the interpretation of
    the library ([runCalls_runs], [runCalls_interp]).
    [simulateObsT_calls] lists the runs of [simulateObs];
    [simulateObsT_terminates] bounds their length for every
    environment; [simulateObsT_refines] shows that with the
    collaborators of [ObsOperator] the tree computes
    [ObsOperator.simulateObs].

    The notations of the interaction-tree library and those of stdpp
    cannot be open together, so this file states its lemmas with the
    notations of the Standard Library. *)

From Stdlib Require Import List String Unicode.Utf8 Morphisms.
From ITree Require Import ITree ITreeFacts Events.State Events.StateFacts.
From S2P Require Import Prelude Float32 ObsOperator.
Import ListNotations.
Import ITreeNotations.

#[local] Open Scope string_scope.
#[local] Open Scope itree_scope.

(** ** Runs of a program that calls its environment *)

Section Runs.
Context {E : Type → Type}.

(** A call with the answer it received. *)
Inductive Call : Type :=
| Called {X : Type} (e : E X) (answer : X).

(** [runs t calls r]: the program [t] makes the calls of [calls], in
    this order, receives their answers, and returns [r]. *)
Inductive runs {R : Type} : itree E R → list Call → R → Prop :=
| runs_Ret t r : observe t = RetF r → runs t [] r
| runs_Tau t u calls r : observe t = TauF u → runs u calls r → runs t calls r
| runs_Vis {X} t (e : E X) k a calls r :
    observe t = VisF e k → runs (k a) calls r → runs t (Called e a :: calls) r.

(** The outcome of a run that starts with the call [e] answered [a]. *)
Definition called {S R X : Type} (e : E X) (a : X) (rest : option (S * R * list Call)) :
    option (S * R * list Call) :=
  match rest with
  | Some (s, r, calls) => Some (s, r, Called e a :: calls)
  | None => None
  end.

(** An executable run: each call is answered by [h], which may change
    the state of the environment; [None] when [fuel] steps are not
    enough. *)
Fixpoint runCalls {S R : Type} (h : ∀ X, E X → S → S * X) (fuel : nat) (t : itree E R)
    (s : S) : option (S * R * list Call) :=
  match fuel with
  | O => None
  | Datatypes.S fuel' =>
      match observe t with
      | RetF r => Some (s, r, [])
      | TauF u => runCalls h fuel' u s
      | VisF e k =>
          let sa := h _ e s in
          called e (snd sa) (runCalls h fuel' (k (snd sa)) (fst sa))
      end
  end.

(** The handler of the library that answers as [h]. *)
Definition answering {S : Type} (h : ∀ X, E X → S → S * X) :
    E ~> Monads.stateT S (itree void1) :=
  λ X e s, Ret (h X e s).

Lemma runs_observe {R} (t u : itree E R) calls r :
  observe t = observe u → runs t calls r → runs u calls r.
Proof.
  intros Ho H. destruct H as [t r H|t v calls r H Hv|X t e k a calls r H Hk];
    rewrite Ho in H; [eapply runs_Ret|eapply runs_Tau|eapply runs_Vis]; eauto.
Qed.

Lemma runs_Ret_inv {R} (x : R) calls r : runs (Ret x) calls r → calls = [] ∧ r = x.
Proof. intros H. inversion H; subst; cbn in *; try discriminate. split; congruence. Qed.

Lemma runs_Vis_inv {R X} (e : E X) (k : X → itree E R) calls r :
  runs (Vis e k) calls r → ∃ a calls', calls = Called e a :: calls' ∧ runs (k a) calls' r.
Proof.
  intros H. inversion H as [| |Y t e' k' a calls' r' Ho Hk]; subst; cbn in *; try discriminate.
  clear H. revert a Hk.
  refine (match Ho in _ = u return
            match u with
            | VisF e0 k0 => ∀ a, runs (k0 a) calls' r →
                ∃ a0 calls0, Called e0 a :: calls' = Called e a0 :: calls0 ∧ runs (k a0) calls0 r
            | RetF _ | TauF _ => False
            end
          with eq_refl => _ end).
  eauto.
Qed.

(** A call followed by the rest of the program. *)
Lemma runs_call {R X} (e : E X) (k : X → itree E R) a calls r :
  runs (k a) calls r → runs (x <- ITree.trigger e;; k x) (Called e a :: calls) r.
Proof.
  intros H. eapply runs_Vis; [cbn; reflexivity|]. eapply runs_observe; [|exact H]. reflexivity.
Qed.

Lemma runs_call_inv {R X} (e : E X) (k : X → itree E R) calls r :
  runs (x <- ITree.trigger e;; k x) calls r →
  ∃ a calls', calls = Called e a :: calls' ∧ runs (k a) calls' r.
Proof.
  intros H. apply (runs_observe _ (Vis e (λ x, y <- Ret x;; k y))) in H; [|reflexivity].
  apply runs_Vis_inv in H as (a & calls' & -> & H). exists a, calls'. split; [reflexivity|].
  eapply runs_observe; [|exact H]. reflexivity.
Qed.

(** What [runCalls] computes is a run. *)
Lemma runCalls_runs {S R} (h : ∀ X, E X → S → S * X) fuel (t : itree E R) s s' r calls :
  runCalls h fuel t s = Some (s', r, calls) → runs t calls r.
Proof.
  revert t s calls. induction fuel as [|fuel IH]; intros t s calls; cbn; [discriminate|].
  destruct (observe t) as [x|u|X e k] eqn:Ho.
  - intros [= <- <- <-]. now apply runs_Ret.
  - intros H. eapply runs_Tau; eauto.
  - destruct (h X e s) as [s1 a]. cbn.
    destruct (runCalls h fuel (k a) s1) as [[[s2 r2] calls2]|] eqn:Hk; [|discriminate].
    intros [= <- <- <-]. eapply runs_Vis; eauto.
Qed.

(** What [runCalls] computes is what the interpretation of the library
    returns. *)
Lemma runCalls_interp {S R} (h : ∀ X, E X → S → S * X) fuel (t : itree E R) s s' r calls :
  runCalls h fuel t s = Some (s', r, calls) → interp_state (answering h) t s ≈ Ret (s', r).
Proof.
  revert t s calls. induction fuel as [|fuel IH]; intros t s calls; cbn; [discriminate|].
  destruct (observe t) as [x|u|X e k] eqn:Ho; intros H; rewrite (itree_eta t), Ho.
  - injection H as <- <- <-. rewrite interp_state_ret. reflexivity.
  - rewrite interp_state_tau, tau_eutt. eauto.
  - destruct (h X e s) as [s1 a] eqn:Hh. cbn in H.
    destruct (runCalls h fuel (k a) s1) as [[[s2 r2] calls2]|] eqn:Hk; [|discriminate].
    injection H as <- <- <-. rewrite interp_state_vis. unfold answering at 1.
    rewrite Hh, bind_ret_l. cbn. rewrite tau_eutt. eauto.
Qed.

(** [runCalls] step by step. *)
Lemma runCalls_observe {S R} (h : ∀ X, E X → S → S * X) fuel (t u : itree E R) s :
  observe t = observe u → runCalls h fuel t s = runCalls h fuel u s.
Proof. intros Ho. destruct fuel; cbn; [reflexivity|]. now rewrite Ho. Qed.

Lemma runCalls_Ret {S R} (h : ∀ X, E X → S → S * X) fuel (r : R) s :
  runCalls h (Datatypes.S fuel) (Ret r) s = Some (s, r, []).
Proof. reflexivity. Qed.

Lemma runCalls_call {S R X} (h : ∀ X, E X → S → S * X) fuel (e : E X) (k : X → itree E R) s :
  runCalls h (Datatypes.S fuel) (x <- ITree.trigger e;; k x) s =
  called e (snd (h X e s)) (runCalls h fuel (k (snd (h X e s))) (fst (h X e s))).
Proof. cbn. f_equal. now apply runCalls_observe. Qed.

Lemma called_Some {S R X} (e : E X) a (rest : option (S * R * list Call)) n :
  (∃ s r calls, rest = Some (s, r, calls) ∧ List.length calls ≤ n) →
  ∃ s r calls, called e a rest = Some (s, r, calls) ∧ List.length calls ≤ Datatypes.S n.
Proof.
  intros (s & r & calls & -> & Hn). exists s, r, (Called e a :: calls).
  split; [reflexivity|]. cbn. now apply le_n_S.
Qed.

End Runs.

Arguments Call : clear implicits.

(** ** The calls of [simulateObs] *)

Section OperatorCalls.
Context {GeoVaLs ObsDiagnostics Variables Locations DateTime : Type}.

#[local] Abbreviation Operator := (@ObsOperator GeoVaLs ObsDiagnostics Variables Locations DateTime).
#[local] Abbreviation Bias := (@ObsBias GeoVaLs ObsDiagnostics).

(** What [ObsOperator::simulateObs] asks of the objects it holds or
    receives, each with the type of the answer: the values a call
    writes through its reference arguments are its answer. *)
Variant callE : Type → Type :=
| OperSimulateObs (gvals : GeoVaLs) (yy : ObsVector) (ydiags : ObsDiagnostics) :
    callE (ObsVector * ObsDiagnostics)         (* oper_->simulateObs(gvals, yy, ydiags) *)
| BiasActive : callE bool                      (* if (bias) *)
| NewObsVector : callE ObsVector               (* ioda::ObsVector ybias(odb_) *)
| PredNames : callE (list string)              (* bias.predNames() *)
| NewObsDataVector (names : list string) : callE ObsDataVector
                                               (* ObsDataVector<float>(odb_, names, "", false) *)
| ComputeObsBiasPredictors (gvals : GeoVaLs) (ydiags : ObsDiagnostics)
    (predictors : ObsDataVector) : callE ObsDataVector
| SaveData (name : string) (d : ObsDataVector) : callE unit
| ComputeObsBias (ybias : ObsVector) (predictors predTerms : ObsDataVector) :
    callE (ObsVector * ObsDataVector)
| SaveVector (name : string) (v : ObsVector) : callE unit.

(** [ObsOperator::simulateObs], statement by statement; the result is
    what the method leaves in [yy] and [ydiags]. *)
Definition simulateObsT (gvals : GeoVaLs) (yy : ObsVector) (ydiags : ObsDiagnostics) :
    itree callE (ObsVector * ObsDiagnostics) :=
  out <- ITree.trigger (OperSimulateObs gvals yy ydiags);;
  b <- ITree.trigger BiasActive;;
  if b : bool then
    ybias <- ITree.trigger NewObsVector;;
    names <- ITree.trigger PredNames;;
    predictors <- ITree.trigger (NewObsDataVector names);;
    names' <- ITree.trigger PredNames;;
    predTerms <- ITree.trigger (NewObsDataVector names');;
    predictors <- ITree.trigger (ComputeObsBiasPredictors gvals (snd out) predictors);;
    ITree.trigger (SaveData "ObsBiasPredictor" predictors);;
    computed <- ITree.trigger (ComputeObsBias ybias predictors predTerms);;
    ITree.trigger (SaveData "ObsBiasTerm" (snd computed));;
    ITree.trigger (SaveVector "ObsBias" (fst computed));;
    Ret out
  else Ret out.

(** The calls of the bias branch, given their answers. *)
Definition biasCalls (gvals : GeoVaLs) (ydiags : ObsDiagnostics) (ybias : ObsVector)
    (names names' : list string) (predictors0 predTerms0 predictors : ObsDataVector)
    (computed : ObsVector * ObsDataVector) : list (Call callE) :=
  [Called NewObsVector ybias;
   Called PredNames names; Called (NewObsDataVector names) predictors0;
   Called PredNames names'; Called (NewObsDataVector names') predTerms0;
   Called (ComputeObsBiasPredictors gvals ydiags predictors0) predictors;
   Called (SaveData "ObsBiasPredictor" predictors) tt;
   Called (ComputeObsBias ybias predictors predTerms0) computed;
   Called (SaveData "ObsBiasTerm" (snd computed)) tt;
   Called (SaveVector "ObsBias" (fst computed)) tt].

(** The function a call invokes. *)
Definition callName (c : Call callE) : string :=
  match c with
  | Called e _ =>
      match e with
      | OperSimulateObs _ _ _ => "ObsOperatorBase::simulateObs"
      | BiasActive => "ObsBias::operator bool"
      | NewObsVector => "ObsVector::ObsVector"
      | PredNames => "ObsBias::predNames"
      | NewObsDataVector _ => "ObsDataVector::ObsDataVector"
      | ComputeObsBiasPredictors _ _ _ => "ObsBias::computeObsBiasPredictors"
      | SaveData name _ => "ObsDataVector::save " ++ name
      | ComputeObsBias _ _ _ => "ObsBias::computeObsBias"
      | SaveVector name _ => "ObsVector::save " ++ name
      end
  end.

(** The collaborators of [ObsOperator]: the operator and the bias
    correction answer as their records say and leave the observation
    space alone, the constructors of the vectors read it, and the saves
    write it. *)
Definition collaborators (op : Operator) (bias : Bias) : ∀ X, callE X → ObsSpace → ObsSpace * X :=
  λ X e odb,
    match e with
    | OperSimulateObs gvals yy ydiags => (odb, base_simulateObs (oper_ op) gvals yy ydiags)
    | BiasActive => (odb, bias_active bias)
    | NewObsVector => (odb, newObsVector odb)
    | PredNames => (odb, predNames bias)
    | NewObsDataVector names => (odb, newObsDataVector odb names)
    | ComputeObsBiasPredictors gvals ydiags predictors =>
        (odb, computeObsBiasPredictors bias gvals ydiags predictors)
    | SaveData name d => (saveData name d odb, tt)
    | ComputeObsBias ybias predictors predTerms =>
        (odb, computeObsBias bias ybias predictors predTerms)
    | SaveVector name v => (saveVector name v odb, tt)
    end.

(** Whatever the collaborators answer and whatever state they keep,
    the method returns after at most twelve calls. *)
Lemma simulateObsT_terminates {S : Type} (h : ∀ X, callE X → S → S * X) gvals yy ydiags s fuel :
  13 ≤ fuel →
  ∃ s' r calls, runCalls h fuel (simulateObsT gvals yy ydiags) s = Some (s', r, calls) ∧
    List.length calls ≤ 12.
Proof.
  intros Hfuel. do 13 (destruct fuel as [|fuel]; [inversion Hfuel|apply le_S_n in Hfuel]).
  unfold simulateObsT. do 2 (rewrite runCalls_call; cbv beta; apply called_Some).
  destruct (snd (h bool BiasActive _)).
  - do 10 (rewrite runCalls_call; cbv beta; apply called_Some).
    rewrite runCalls_Ret. do 3 eexists. split; [reflexivity|apply le_n].
  - rewrite runCalls_Ret. do 3 eexists. split; [reflexivity|apply le_0_n].
Qed.

(** With these collaborators the program runs to its end in at most
    thirteen steps and computes what [ObsOperator.simulateObs] does. *)
Lemma simulateObsT_runCalls op bias gvals yy ydiags odb fuel :
  13 ≤ fuel →
  ∃ calls, runCalls (collaborators op bias) fuel (simulateObsT gvals yy ydiags) odb =
    Some (let '(yy', ydiags', odb') := simulateObs op gvals yy bias ydiags odb in
          (odb', (yy', ydiags')), calls).
Proof.
  intros Hfuel. do 13 (destruct fuel as [|fuel]; [inversion Hfuel|apply le_S_n in Hfuel]).
  unfold simulateObsT, simulateObs, saveBias.
  do 2 (rewrite runCalls_call; cbn [collaborators fst snd]).
  destruct (base_simulateObs _ _ _ _) as [yy' ydiags']. destruct (bias_active bias).
  - do 10 (rewrite runCalls_call; cbn [collaborators fst snd]). rewrite runCalls_Ret.
    destruct (computeObsBias _ _ _ _) as [ybias predTerms]. cbn. eauto.
  - rewrite runCalls_Ret. cbn. eauto.
Qed.

(** C39: interpreted with the collaborators of [ObsOperator], each call
    answered by the record of the operator or of the bias correction
    and each save written to the observation space, the sequence of
    calls of [simulateObs] returns the vectors and leaves the
    observation space that [ObsOperator.simulateObs] computes. *)
Theorem simulateObsT_refines op bias gvals yy ydiags odb :
  interp_state (answering (collaborators op bias)) (simulateObsT gvals yy ydiags) odb
  ≈ Ret (let '(yy', ydiags', odb') := simulateObs op gvals yy bias ydiags odb in
         (odb', (yy', ydiags'))).
Proof.
  destruct (simulateObsT_runCalls op bias gvals yy ydiags odb 13 (le_n _)) as [calls H].
  destruct (simulateObs _ _ _ _ _ _) as [[yy' ydiags'] odb'].
  now apply runCalls_interp in H.
Qed.

(** C20: the runs of [simulateObs], for collaborators of any kind.
    The method first calls the operator, and returns what that call
    left in [yy] and [ydiags]; it then asks whether there is a bias
    correction, and makes no other call when there is none.  Otherwise
    it makes the ten calls of [biasCalls] in this order: the vector and
    the two tables are constructed before anything is computed, the
    predictors are saved as computed and before the bias is computed
    from them, and the bias is saved last. *)
Theorem simulateObsT_calls gvals yy ydiags calls r :
  runs (simulateObsT gvals yy ydiags) calls r ↔
  calls = [Called (OperSimulateObs gvals yy ydiags) r; Called BiasActive false] ∨
  ∃ ybias names names' predictors0 predTerms0 predictors computed,
    calls = Called (OperSimulateObs gvals yy ydiags) r :: Called BiasActive true ::
            biasCalls gvals (snd r) ybias names names' predictors0 predTerms0 predictors computed.
Proof.
  unfold simulateObsT, biasCalls. split.
  - intros H. apply runs_call_inv in H as (out & ? & -> & H).
    apply runs_call_inv in H as ([] & ? & -> & H).
    + right. repeat (apply runs_call_inv in H as (? & ? & -> & H)).
      apply runs_Ret_inv in H as [-> ->].
      repeat match goal with u : unit |- _ => destruct u end. do 7 eexists. reflexivity.
    + left. now apply runs_Ret_inv in H as [-> ->].
  - intros [->|(ybias & names & names' & p0 & t0 & p & c & ->)];
      repeat (apply runs_call; cbn); now apply runs_Ret.
Qed.

End OperatorCalls.
