(* ===== verification/Publication.v ===== *)
(** * The profile data store and the publication of the results

    [runCheck] borrows its vectors from the profile data handler by name
    (lines 29-46 of ProfileCheckInterpolation.cc) and mutates the flags
    and the counters through the references it obtained; [fillValidator]
    (lines 143-156) moves the classification and the result vectors of
    the check into the handler and stores [NumStd_] and [NumSig_]
    repeated once per level.

    The handler is a finite map from variable names to vectors.
    [ProfileCheck.runOnHandler] is [runCheck] applied to the
    vectors of the handler, its effects on flags and counters written
    back; [fillValidator] leaves the members it moved from empty;
    [ProfileCheck.new] is the constructor (lines 16-23), which keeps the
    handler and builds the base class from the options.

    [agree names] is the equivalence of handlers that hold the same
    vectors under [names]; [runOnHandler_local] shows that [runCheck]
    depends on the handler through the eight names it binds
    ([boundNames]) only. *)

From Stdlib Require Import ZArith Lia SpecFloat.
From stdpp Require Import base tactics option list numbers finite gmap.
From S2P Require Import Prelude Float32 StdLevels InterpCheck.

#[local] Open Scope Z_scope.

(** ** The handler *)

(** The names of [ufo::VariableNames] the check uses. *)
Inductive VariableName : Type :=
| name_air_pressure
| name_obs_air_temperature
| name_hofx_air_temperature
| name_qc_tFlags
| name_counter_NumAnyErrors
| name_counter_NumInterpErrors
| name_counter_NumInterpErrObs
| name_tObsCorrection
| name_StdLev
| name_SigAbove
| name_SigBelow
| name_IndStd
| name_LevErrors
| name_tInterp
| name_LogP
| name_NumStd
| name_NumSig.

#[global] Instance VariableName_eq_dec : EqDecision VariableName.
Proof. solve_decision. Defined.

Definition allNames : list VariableName :=
  [name_air_pressure; name_obs_air_temperature; name_hofx_air_temperature;
   name_qc_tFlags; name_counter_NumAnyErrors; name_counter_NumInterpErrors;
   name_counter_NumInterpErrObs; name_tObsCorrection; name_StdLev; name_SigAbove;
   name_SigBelow; name_IndStd; name_LevErrors; name_tInterp; name_LogP;
   name_NumStd; name_NumSig].

#[global, refine] Instance VariableName_finite : Finite VariableName :=
  {| enum := allNames |}.
Proof.
  - by apply (bool_decide_unpack _).
  - intros []; by apply (bool_decide_unpack _).
Defined.

(** A stored vector, of [int] or of [float]. *)
Inductive Entry : Type :=
| IntVec (v : list Z)
| FloatVec (v : list float).

#[global] Instance Entry_eq_dec : EqDecision Entry.
Proof. solve_decision. Defined.

Abbreviation ProfileDataHandler := (gmap VariableName Entry).

(** [get<int>] and [get<float>]: the stored vector, empty when the
    handler has none of that name and type. *)
Definition get_int (h : ProfileDataHandler) (name : VariableName) : list Z :=
  match h !! name with Some (IntVec v) => v | _ => [] end.

Definition get_float (h : ProfileDataHandler) (name : VariableName) : list float :=
  match h !! name with Some (FloatVec v) => v | _ => [] end.

(** [set] *)
Definition set_int (name : VariableName) (v : list Z) (h : ProfileDataHandler) :
    ProfileDataHandler := <[name := IntVec v]> h.

Definition set_float (name : VariableName) (v : list float) (h : ProfileDataHandler) :
    ProfileDataHandler := <[name := FloatVec v]> h.

(** ** The check against the handler *)

(** The eight references [runCheck] obtains from the handler; the
    members of the check and the log are those of [st]. *)
Definition borrow (h : ProfileDataHandler) (st : State) : State :=
  mkState
    (get_float h name_air_pressure)
    (get_float h name_obs_air_temperature)
    (get_float h name_hofx_air_temperature)
    (get_int h name_qc_tFlags)
    (get_int h name_counter_NumAnyErrors)
    (get_int h name_counter_NumInterpErrors)
    (get_int h name_counter_NumInterpErrObs)
    (get_float h name_tObsCorrection)
    (levels st) (LevErrors_ st) (tInterp_ st) (log st).

(** The vectors obtained by non-const reference are the handler's
    own: what [runCheck] wrote in them is in the handler. *)
Definition giveBack (st : State) (h : ProfileDataHandler) : ProfileDataHandler :=
  set_int name_counter_NumInterpErrObs (NumInterpErrObs st)
    (set_int name_counter_NumInterpErrors (NumInterpErrors st)
       (set_int name_counter_NumAnyErrors (NumAnyErrors st)
          (set_int name_qc_tFlags (tFlags st) h))).

(** The members of the check after [std::move]: the vectors are empty,
    the two [int]s are copied. *)
Definition movedLevels (sl : StdLevels) : StdLevels :=
  mkStdLevels (StandardLevels_ sl) (BigGaps_ sl) (NumSig_ sl) (NumStd_ sl) [] [] [] [] [].

Definition movedFrom (st : State) : State :=
  set_tInterp [] (set_LevErrors [] (set_levels (movedLevels (levels st)) st)).

Module ProfileCheck.
Section ProfileCheck.
Context {C : Classifier}.
Variables (opts : Options) (K : Constants).

(** [ProfileCheckInterpolation::ProfileCheckInterpolation] (lines
    16-23): the constructor passes its arguments to the two base
    classes and has an empty body.  The check refers to the handler it
    was given; the members of [ProfileStandardLevels] are what the
    constructor of that class, [base], makes of the options; the
    vectors [LevErrors_] and [tInterp_] of the check itself are
    default-constructed, that is, empty.  No vector of the handler is
    bound before the first call of [runCheck]; [l] is the log so far. *)
Definition new (base : Options → StdLevels) (h : ProfileDataHandler) (l : list Event) :
    ProfileDataHandler * State :=
  (h, mkState [] [] [] [] [] [] [] [] (base opts) [] [] l).

(** [ProfileCheckInterpolation::runCheck] on the handler: the vectors
    are bound, the method runs, and what it wrote through the
    references is in the handler. *)
Definition runOnHandler (numLevelsToCheck : Z) (s : ProfileDataHandler * State) :
    result (ProfileDataHandler * State) :=
  let '(h, st) := s in
  st' ← InterpCheck.runCheck opts K numLevelsToCheck (borrow h st);
  Ok (giveBack st' h, st').

(** [ProfileCheckInterpolation::fillValidator] *)
Definition fillValidator (numLevelsToCheck : Z) (s : ProfileDataHandler * State) :
    result (ProfileDataHandler * State) :=
  let '(h, st) := s in
  let sl := levels st in
  let h := set_int name_StdLev (StdLev_ sl) h in
  let h := set_int name_SigAbove (SigAbove_ sl) h in
  let h := set_int name_SigBelow (SigBelow_ sl) h in
  let h := set_int name_IndStd (IndStd_ sl) h in
  let h := set_int name_LevErrors (LevErrors_ st) h in
  let h := set_float name_tInterp (tInterp_ st) h in
  let h := set_float name_LogP (LogP_ sl) h in
  NumStd ← vec_assign numLevelsToCheck (NumStd_ sl);
  NumSig ← vec_assign numLevelsToCheck (NumSig_ sl);
  let h := set_int name_NumStd NumStd h in
  let h := set_int name_NumSig NumSig h in
  Ok (h, movedFrom st).

End ProfileCheck.
End ProfileCheck.

(** ** Lemmas on the handler *)

Lemma get_set_int name v h : get_int (set_int name v h) name = v.
Proof. unfold get_int, set_int. by rewrite lookup_insert_eq. Qed.

Lemma get_set_float name v h : get_float (set_float name v h) name = v.
Proof. unfold get_float, set_float. by rewrite lookup_insert_eq. Qed.

Lemma lookup_set_int_ne name name' v h :
  name ≠ name' → set_int name v h !! name' = h !! name'.
Proof. apply lookup_insert_ne. Qed.

Lemma lookup_set_float_ne name name' v h :
  name ≠ name' → set_float name v h !! name' = h !! name'.
Proof. apply lookup_insert_ne. Qed.

Lemma lookup_set_int name v h : set_int name v h !! name = Some (IntVec v).
Proof. apply lookup_insert_eq. Qed.

Lemma lookup_set_float name v h : set_float name v h !! name = Some (FloatVec v).
Proof. apply lookup_insert_eq. Qed.

Create Rewrite HintDb handler.
#[export] Hint Rewrite lookup_set_int lookup_set_float : handler.
#[export] Hint Rewrite lookup_set_int_ne lookup_set_float_ne using done : handler.

(** Evaluates the lookups in a handler built by [set]s. *)
Ltac handler := autorewrite with handler; try done.

(** The names [fillValidator] writes. *)
Definition published : list VariableName :=
  [name_StdLev; name_SigAbove; name_SigBelow; name_IndStd; name_LevErrors;
   name_tInterp; name_LogP; name_NumStd; name_NumSig].

(** The handler after [fillValidator], for [n] levels to check. *)
Definition publish (n : Z) (st : State) (h : ProfileDataHandler) : ProfileDataHandler :=
  set_int name_NumSig (replicate (Z.to_nat n) (NumSig_ (levels st)))
    (set_int name_NumStd (replicate (Z.to_nat n) (NumStd_ (levels st)))
       (set_float name_LogP (LogP_ (levels st))
          (set_float name_tInterp (tInterp_ st)
             (set_int name_LevErrors (LevErrors_ st)
                (set_int name_IndStd (IndStd_ (levels st))
                   (set_int name_SigBelow (SigBelow_ (levels st))
                      (set_int name_SigAbove (SigAbove_ (levels st))
                         (set_int name_StdLev (StdLev_ (levels st)) h)))))))).

(** The names [runCheck] writes through its references. *)
Definition mutated : list VariableName :=
  [name_qc_tFlags; name_counter_NumAnyErrors; name_counter_NumInterpErrors;
   name_counter_NumInterpErrObs].

Lemma publish_lookup_ne n st h name :
  name ∉ published → publish n st h !! name = h !! name.
Proof.
  unfold published, publish. rewrite !not_elem_of_cons. intros. destruct_and!. handler.
Qed.

Lemma giveBack_lookup_ne st h name :
  name ∉ mutated → giveBack st h !! name = h !! name.
Proof.
  unfold mutated, giveBack. rewrite !not_elem_of_cons. intros. destruct_and!. handler.
Qed.

(** What [giveBack] leaves under the four names it writes. *)
Lemma giveBack_get st h :
  get_int (giveBack st h) name_qc_tFlags = tFlags st ∧
  get_int (giveBack st h) name_counter_NumAnyErrors = NumAnyErrors st ∧
  get_int (giveBack st h) name_counter_NumInterpErrors = NumInterpErrors st ∧
  get_int (giveBack st h) name_counter_NumInterpErrObs = NumInterpErrObs st.
Proof. unfold get_int, giveBack. repeat split; by handler. Qed.

(** ** Handlers up to the names the check reads *)

(** The names [runCheck] binds (lines 31-46). *)
Definition boundNames : list VariableName :=
  [name_air_pressure; name_obs_air_temperature; name_hofx_air_temperature;
   name_qc_tFlags; name_counter_NumAnyErrors; name_counter_NumInterpErrors;
   name_counter_NumInterpErrObs; name_tObsCorrection].

(** Two handlers hold the same vectors under the names of [names]. *)
Definition agree (names : list VariableName) : relation ProfileDataHandler :=
  λ h h', Forall (λ name, h !! name = h' !! name) names.

#[global] Instance agree_dec names h h' : Decision (agree names h h').
Proof. unfold agree. apply _. Defined.

#[global] Instance agree_equiv names : Equivalence (agree names).
Proof.
  unfold agree. split.
  - intros h. by apply Forall_true.
  - intros h h' H. eapply Forall_impl; [done|]. by intros name ->.
  - intros h1 h2 h3 H12 H23. rewrite Forall_forall in *.
    intros name Hname. by rewrite H12, H23.
Qed.

Lemma agree_lookup names h h' name :
  agree names h h' → name ∈ names → h !! name = h' !! name.
Proof. unfold agree. rewrite Forall_forall. auto. Qed.

(** Writing the same vector under a name keeps two handlers in
    agreement. *)
#[global] Instance insert_agree names name (x : Entry) :
  Proper (agree names ==> agree names) (insert name x).
Proof.
  intros h h' H. eapply Forall_impl; [done|]. intros name' Hname'. simpl.
  destruct (decide (name = name')) as [->|]; [by rewrite !lookup_insert_eq|].
  by rewrite !lookup_insert_ne.
Qed.

#[global] Instance giveBack_agree names st :
  Proper (agree names ==> agree names) (giveBack st).
Proof. intros h h' H. unfold giveBack, set_int. by do 4 apply insert_agree. Qed.

(** The state [runCheck] binds depends on the handler through the
    bound names only. *)
#[global] Instance borrow_agree : Proper (agree boundNames ==> (=) ==> (=)) borrow.
Proof.
  intros h h' H st ? <-. unfold borrow, get_int, get_float.
  by rewrite !(agree_lookup _ _ _ _ H) by (by apply (bool_decide_unpack _)).
Qed.

Section Publication.
Context {C : Classifier}.
Variables (opts : Options) (K : Constants).

(** With a number of levels that is not negative, [fillValidator]
    returns the handler [publish] describes and the moved-from check. *)
Lemma fillValidator_returns n h st :
  0 ≤ n → ProfileCheck.fillValidator n (h, st) = Ok (publish n st h, movedFrom st).
Proof.
  intros Hn. unfold ProfileCheck.fillValidator, vec_assign.
  destruct (decide (0 ≤ n)); [reflexivity|lia].
Qed.

Lemma fillValidator_Ok n h st s' :
  ProfileCheck.fillValidator n (h, st) = Ok s' →
  0 ≤ n ∧ s'.2 = movedFrom st ∧ s'.1 = publish n st h.
Proof.
  unfold ProfileCheck.fillValidator.
  intros (v1 & [Hn ->]%vec_assign_Ok & (v2 & [_ ->]%vec_assign_Ok & [= <-])%bind_Ok)%bind_Ok.
  done.
Qed.

(** C10: [fillValidator] stores the classification and the result
    vectors of the check under their names, and [NumStd_] and [NumSig_]
    repeated once per level to check; every other variable of the
    handler, the inputs of the check among them, is as it was. *)
Theorem fillValidator_publishes n h st h' st' :
  ProfileCheck.fillValidator n (h, st) = Ok (h', st') →
  h' !! name_StdLev = Some (IntVec (StdLev_ (levels st))) ∧
  h' !! name_SigAbove = Some (IntVec (SigAbove_ (levels st))) ∧
  h' !! name_SigBelow = Some (IntVec (SigBelow_ (levels st))) ∧
  h' !! name_IndStd = Some (IntVec (IndStd_ (levels st))) ∧
  h' !! name_LevErrors = Some (IntVec (LevErrors_ st)) ∧
  h' !! name_tInterp = Some (FloatVec (tInterp_ st)) ∧
  h' !! name_LogP = Some (FloatVec (LogP_ (levels st))) ∧
  h' !! name_NumStd = Some (IntVec (replicate (Z.to_nat n) (NumStd_ (levels st)))) ∧
  h' !! name_NumSig = Some (IntVec (replicate (Z.to_nat n) (NumSig_ (levels st)))) ∧
  ∀ name, name ∉ published → h' !! name = h !! name.
Proof.
  intros (_ & _ & Hh)%fillValidator_Ok. simpl in Hh. subst h'.
  repeat split; try by (unfold publish; handler).
  intros name Hname. by apply publish_lookup_ne.
Qed.

(** [fillValidator] leaves every other variable of the handler,
    the inputs of the check among them, as it was. *)
Theorem fillValidator_frame n h st h' st' name :
  ProfileCheck.fillValidator n (h, st) = Ok (h', st') →
  name ∉ published → h' !! name = h !! name.
Proof.
  intros (_ & _ & Hh)%fillValidator_Ok Hname. simpl in Hh. subst h'.
  by apply publish_lookup_ne.
Qed.

(** C11: the vectors are moved, not copied: after [fillValidator] the
    check holds empty vectors, and a second call replaces every vector
    published by the first with an empty one. *)
Theorem fillValidator_once n h st h1 st1 h2 st2 name :
  ProfileCheck.fillValidator n (h, st) = Ok (h1, st1) →
  ProfileCheck.fillValidator n (h1, st1) = Ok (h2, st2) →
  name ∈ [name_StdLev; name_SigAbove; name_SigBelow; name_IndStd; name_LevErrors] →
  h2 !! name = Some (IntVec []).
Proof.
  intros (_ & Hst & _)%fillValidator_Ok (_ & _ & Hh)%fillValidator_Ok Hname.
  simpl in *. subst st1 h2. unfold publish. rewrite !elem_of_cons, elem_of_nil in Hname.
  destruct_or!; subst; try done; handler.
Qed.

(** A negative number of levels makes the construction of the repeated
    vectors fail. *)
Lemma fillValidator_negative n h st :
  n < 0 → ProfileCheck.fillValidator n (h, st) = Fault LengthError.
Proof.
  intros Hn. unfold ProfileCheck.fillValidator, vec_assign.
  destruct (decide (0 ≤ n)); [lia|reflexivity].
Qed.

Lemma runCheck_handler_Ok n h st h' st' :
  ProfileCheck.runOnHandler opts K n (h, st) = Ok (h', st') ↔
  InterpCheck.runCheck opts K n (borrow h st) = Ok st' ∧ h' = giveBack st' h.
Proof.
  unfold ProfileCheck.runOnHandler. rewrite bind_Ok. split.
  - by intros (x & ? & [= <- <-]).
  - intros [? ->]. eauto.
Qed.



End Publication.
