(* ===== verification/Lifecycle.v ===== *)
(** * The calls of a check in sequence

    A check object lives with the profile data handler through a
    sequence of calls of [runCheck] and [fillValidator].  [step] is the
    relation between the handler and the members of the check before and
    after one call that returns; [execAll] runs a list of calls.  The
    two agree ([steps_execAll]).  [evolves] is what any number of calls
    may have done to the handler: the input vectors are as they were,
    flag words have at most gained the interpolation bit, and counters
    have not decreased ([reachable_evolves], by induction on the
    sequence of steps).  [check_then_publish] is the intended sequence:
    after [runCheck] and [fillValidator] the handler holds what
    [runCheck] computed on the vectors it held before, and
    [check_then_publish_returns] gives the conditions under which the
    sequence returns.  [runCheck_rebinds], with [borrow_giveBack] and
    [giveBack_borrow], relates the state of the check to the vectors of
    the handler it refers to.  [constructed] is the invariant of the
    members of a check from its construction on
    ([constructed_invariant]): the band tables are those the
    constructor was given, and the two result vectors are both empty or
    both of the size of the profile. *)

From Stdlib Require Import ZArith Lia SpecFloat.
From stdpp Require Import base tactics option list numbers relations gmap.
From S2P Require Import Prelude Float32 StdLevels InterpCheck InterpEffects InterpSafety.
From S2P Require Import Publication.

#[local] Open Scope Z_scope.

(** ** Calls and steps *)

(** The two methods of [ProfileCheckInterpolation]. *)
Inductive call : Type :=
| RunCheck
| FillValidator.

#[global] Instance call_eq_dec : EqDecision call.
Proof. solve_decision. Defined.

(** The handler and the members of the check. *)
Abbreviation config := (ProfileDataHandler * State)%type.

(** The names of the vectors [runCheck] only reads. *)
Definition inputNames : list VariableName :=
  [name_air_pressure; name_obs_air_temperature; name_hofx_air_temperature;
   name_tObsCorrection].

(** What calls may have done to the handler. *)
Record evolves (m : Z) (h h' : ProfileDataHandler) : Prop := mkEvolves {
  evo_inputs : ∀ name, name ∈ inputNames → h' !! name = h !! name;
  evo_tFlags :
    Forall2 (flag_step m) (get_int h name_qc_tFlags) (get_int h' name_qc_tFlags);
  evo_NumAnyErrors :
    Forall2 count_step (get_int h name_counter_NumAnyErrors)
      (get_int h' name_counter_NumAnyErrors);
  evo_NumInterpErrors :
    Forall2 count_step (get_int h name_counter_NumInterpErrors)
      (get_int h' name_counter_NumInterpErrors);
  evo_NumInterpErrObs :
    Forall2 count_step (get_int h name_counter_NumInterpErrObs)
      (get_int h' name_counter_NumInterpErrObs)
}.

Section Lifecycle.
Context {C : Classifier}.
Variables (opts : Options) (K : Constants) (numLevelsToCheck : Z).

#[local] Abbreviation IF := (InterpolationFlag K).

(** One call. *)
Definition exec (a : call) (c : config) : result config :=
  match a with
  | RunCheck => ProfileCheck.runOnHandler opts K numLevelsToCheck c
  | FillValidator => ProfileCheck.fillValidator numLevelsToCheck c
  end.

(** A list of calls, in order; a call that faults ends the sequence. *)
Definition execAll (calls : list call) (c : config) : result config :=
  foldM exec calls c.

(** One call that returns. *)
Inductive step : config → config → Prop :=
| step_runCheck c c' :
    ProfileCheck.runOnHandler opts K numLevelsToCheck c = Ok c' → step c c'
| step_fillValidator c c' :
    ProfileCheck.fillValidator numLevelsToCheck c = Ok c' → step c c'.

(** ** [evolves] is a preorder *)

#[global] Instance evolves_refl m : Reflexive (evolves m).
Proof. intros h. by split. Qed.

#[global] Instance evolves_trans m : Transitive (evolves m).
Proof.
  intros h1 h2 h3 [Hi1 ? ? ? ?] [Hi2 ? ? ? ?]. split; try by etrans.
  intros name Hname. by rewrite Hi2, Hi1.
Qed.

(** ** Each call respects [evolves] *)

(** Decides a statement on a concrete name by evaluation. *)
Ltac by_name H :=
  first [by apply (bool_decide_unpack _)
        |by apply (bool_decide_pack _) in H; vm_compute in H].

Lemma inputNames_not_written name :
  name ∈ inputNames → (name ∉ mutated) ∧ (name ∉ published).
Proof. destruct name; intros H; (split; by_name H) || by_name H. Qed.

Lemma mutated_not_published name : name ∈ mutated → name ∉ published.
Proof. destruct name; intros H; by_name H. Qed.

Lemma get_int_lookup_eq (h h' : ProfileDataHandler) name :
  h' !! name = h !! name → get_int h' name = get_int h name.
Proof. unfold get_int. by intros ->. Qed.

Lemma get_float_lookup_eq (h h' : ProfileDataHandler) name :
  h' !! name = h !! name → get_float h' name = get_float h name.
Proof. unfold get_float. by intros ->. Qed.

Lemma runOnHandler_evolves h st h' st' :
  ProfileCheck.runOnHandler opts K numLevelsToCheck (h, st) = Ok (h', st') →
  evolves IF h h'.
Proof.
  intros [[_ Hf Ha Hi Ho]%runCheck_changes ->]%runCheck_handler_Ok.
  destruct (giveBack_get st' h) as (Ef & Ea & Ei & Eo).
  split; rewrite ?Ef, ?Ea, ?Ei, ?Eo; try done.
  intros name Hname. by apply giveBack_lookup_ne, inputNames_not_written.
Qed.

Lemma fillValidator_evolves h st h' st' :
  ProfileCheck.fillValidator numLevelsToCheck (h, st) = Ok (h', st') → evolves IF h h'.
Proof.
  intros (_ & _ & Hh)%fillValidator_Ok. simpl in Hh. subst h'.
  split; [intros name Hname; by apply publish_lookup_ne, inputNames_not_written|..];
    (rewrite (get_int_lookup_eq h (publish numLevelsToCheck st h)); [done|];
     apply publish_lookup_ne, mutated_not_published; by apply (bool_decide_unpack _)).
Qed.

Lemma step_evolves c c' : step c c' → evolves IF c.1 c'.1.
Proof.
  intros [[h st] [h' st'] H|[h st] [h' st'] H]; simpl;
    [by eapply runOnHandler_evolves|by eapply fillValidator_evolves].
Qed.

(** ** Steps and lists of calls *)

Lemma step_exec c c' : step c c' ↔ ∃ a, exec a c = Ok c'.
Proof.
  split.
  - intros [? ? H|? ? H]; [by exists RunCheck|by exists FillValidator].
  - intros [[] H]; [by apply step_runCheck|by apply step_fillValidator].
Qed.

(** The configurations reached by steps are those reached by
    running a list of calls of [runCheck] and [fillValidator] none of
    which faults. *)
Theorem steps_execAll c c' : rtc step c c' ↔ ∃ calls, execAll calls c = Ok c'.
Proof.
  split.
  - induction 1 as [c|c c1 c' [a Ha]%step_exec _ (calls & Hcalls)]; [by exists []|].
    exists (a :: calls). unfold execAll. simpl. by rewrite Ha.
  - intros [calls H]. revert c H. induction calls as [|a calls IH]; intros c.
    + by intros [= <-].
    + intros (c1 & Ha & Hcalls)%bind_Ok. eapply rtc_l; [|by apply IH].
      apply step_exec. by exists a.
Qed.

(** ** The invariant *)

(** C4: whatever calls of [runCheck] and [fillValidator] a check has
    made, in whatever order, the handler still holds the input vectors
    it held at the start, every flag word is the one it held or that
    word with the interpolation bit set, and no counter has decreased. *)
Theorem reachable_evolves c c' : rtc step c c' → evolves IF c.1 c'.1.
Proof.
  induction 1 as [c|c c1 c' Hstep%step_evolves _ IH]; [reflexivity|by etrans].
Qed.

(** ** From construction *)

(** What holds of the members of a check at every point of its life:
    the band tables are those the constructor of the base class made of
    the options, and the two result vectors are both empty (before the
    first [runCheck] on valid input, and after [fillValidator]) or both
    have one entry per level to check. *)
Record constructed (base : Options → StdLevels) (st : State) : Prop := mkConstructed {
  co_StandardLevels : StandardLevels_ (levels st) = StandardLevels_ (base opts);
  co_BigGaps : BigGaps_ (levels st) = BigGaps_ (base opts);
  co_results :
    (LevErrors_ st = [] ∧ tInterp_ st = []) ∨
    (Z.of_nat (length (LevErrors_ st)) = numLevelsToCheck ∧
     Z.of_nat (length (tInterp_ st)) = numLevelsToCheck)
}.

Lemma new_constructed base h l : constructed base (ProfileCheck.new opts base h l).2.
Proof. split; simpl; auto. Qed.

Lemma runOnHandler_constructed `{!ClassifierOk C} base c c' :
  ProfileCheck.runOnHandler opts K numLevelsToCheck c = Ok c' →
  constructed base c.2 → constructed base c'.2.
Proof.
  destruct c as [h st], c' as [h' st']. simpl.
  intros [Hrun _]%runCheck_handler_Ok [Hsl Hbg Hres].
  apply runCheck_members in Hrun as [(Hl & He & Ht)|(Hcalc & He & Ht)]; simpl in *.
  - split; by rewrite ?Hl, ?He, ?Ht.
  - apply calc_tables in Hcalc as [E1 E2]. split; [by rewrite E1|by rewrite E2|auto].
Qed.

Lemma fillValidator_constructed base c c' :
  ProfileCheck.fillValidator numLevelsToCheck c = Ok c' →
  constructed base c.2 → constructed base c'.2.
Proof.
  destruct c as [h st], c' as [h' st']. simpl.
  intros (_ & Hst & _)%fillValidator_Ok [Hsl Hbg _]. simpl in Hst. subst st'.
  split; simpl; auto.
Qed.

Lemma step_constructed `{!ClassifierOk C} base c c' :
  step c c' → constructed base c.2 → constructed base c'.2.
Proof.
  intros [? ? H|? ? H]; [by eapply runOnHandler_constructed|by eapply fillValidator_constructed].
Qed.

(** C27: from its construction on, whatever calls of [runCheck] and
    [fillValidator] are made and in whatever order, a check keeps the
    band tables its constructor was given, its two result vectors are
    both empty or both hold one entry per level to check, and the
    handler it refers to has evolved as [evolves] allows. *)
Theorem constructed_invariant `{!ClassifierOk C} base h l c :
  rtc step (ProfileCheck.new opts base h l) c →
  constructed base c.2 ∧ evolves IF h c.1.
Proof.
  revert c. apply (rtc_ind_r (λ c, constructed base c.2 ∧ evolves IF h c.1)).
  - split; [apply new_constructed|reflexivity].
  - intros c1 c2 _ Hstep [Hco Hevo].
    split; [by eapply step_constructed|]. etrans; [done|]. by apply step_evolves.
Qed.

(** ** The intended sequence *)

(** C29: after [runCheck] and then [fillValidator], the handler holds
    the flags, the counters, the level errors, the interpolated values
    and the classification that [runCheck] computed from the vectors
    the handler held before, and the number of standard and significant
    levels repeated once per level. *)
Theorem check_then_publish c c' :
  execAll [RunCheck; FillValidator] c = Ok c' →
  ∃ st1, runCheck opts K numLevelsToCheck (borrow c.1 c.2) = Ok st1 ∧
    get_int c'.1 name_qc_tFlags = tFlags st1 ∧
    get_int c'.1 name_counter_NumAnyErrors = NumAnyErrors st1 ∧
    get_int c'.1 name_counter_NumInterpErrors = NumInterpErrors st1 ∧
    get_int c'.1 name_counter_NumInterpErrObs = NumInterpErrObs st1 ∧
    get_int c'.1 name_LevErrors = LevErrors_ st1 ∧
    get_float c'.1 name_tInterp = tInterp_ st1 ∧
    get_int c'.1 name_StdLev = StdLev_ (levels st1) ∧
    get_int c'.1 name_NumStd = replicate (Z.to_nat numLevelsToCheck) (NumStd_ (levels st1)) ∧
    c'.2 = movedFrom st1.
Proof.
  destruct c as [h st], c' as [h2 st2]. unfold execAll. simpl.
  intros ([h1 st1] & [Hrun ->]%runCheck_handler_Ok & H)%bind_Ok.
  apply bind_Ok in H as (c2 & H & [= ->]).
  apply fillValidator_Ok in H as (_ & Hst & Hh). simpl in *.
  subst h2 st2. exists st1. split; [done|].
  destruct (giveBack_get st1 h) as (Hf & Ha & Hi & Ho).
  rewrite <- Hf, <- Ha, <- Hi, <- Ho.
  repeat split; try (apply get_int_lookup_eq, publish_lookup_ne;
                     by apply (bool_decide_unpack _));
    unfold get_int, get_float, publish; by handler.
Qed.

(** C34: a check that meets [ready] on the vectors of the handler, with
    a classification that honours its contract and returns, completes
    the intended sequence: [runCheck] and then [fillValidator] return,
    and the handler has evolved as [evolves] allows. *)
Theorem check_then_publish_returns `{!ClassifierOk C} h st :
  ready numLevelsToCheck (borrow h st) →
  is_Ok (calcStdLevels numLevelsToCheck (get_float h name_air_pressure)
           (correctVector (get_float h name_obs_air_temperature)
              (get_float h name_tObsCorrection))
           (get_int h name_qc_tFlags) (levels st)) →
  ∃ c', execAll [RunCheck; FillValidator] (h, st) = Ok c' ∧ evolves IF h c'.1.
Proof.
  intros Hready Hsl. pose proof (rd_n _ _ Hready) as [Hn _].
  destruct (runCheck_returns opts K _ _ Hready Hsl) as (st1 & Hrun & _).
  assert (exec RunCheck (h, st) = Ok (giveBack st1 h, st1)) as H1
    by (by apply runCheck_handler_Ok).
  assert (exec FillValidator (giveBack st1 h, st1) =
          Ok (publish numLevelsToCheck st1 (giveBack st1 h), movedFrom st1)) as H2
    by (by apply fillValidator_returns).
  eexists. split.
  - unfold execAll. cbn [foldM].
    by rewrite (bind_Ok_l _ _ _ H1), (bind_Ok_l _ _ _ H2).
  - etrans; [by eapply runOnHandler_evolves|by eapply fillValidator_evolves].
Qed.

(** ** The references into the handler *)

(** Binding again the vectors that were given back yields the same
    state when the inputs are those of the handler. *)
Lemma borrow_giveBack h st :
  pressures st = get_float h name_air_pressure →
  tObs st = get_float h name_obs_air_temperature →
  tBkg st = get_float h name_hofx_air_temperature →
  tObsCorrection st = get_float h name_tObsCorrection →
  borrow (giveBack st h) st = st.
Proof.
  intros Hp Ho Hb Hc. unfold borrow.
  destruct (giveBack_get st h) as (-> & -> & -> & ->).
  rewrite !(get_float_lookup_eq h (giveBack st h))
    by (apply giveBack_lookup_ne; by apply (bool_decide_unpack _)).
  rewrite <- Hp, <- Ho, <- Hb, <- Hc. by destruct st.
Qed.

(** Giving back what was bound changes nothing in a handler that holds
    the flags and the counters. *)
Lemma giveBack_borrow h st :
  (∀ name, name ∈ mutated → ∃ v, h !! name = Some (IntVec v)) →
  giveBack (borrow h st) h = h.
Proof.
  intros Hh. apply map_eq. intros name.
  destruct (decide (name ∈ mutated)) as [Hin|Hout]; [|by apply giveBack_lookup_ne].
  destruct (Hh name Hin) as [v Hv]. unfold mutated in Hin.
  rewrite !elem_of_cons, elem_of_nil in Hin.
  destruct_or!; subst; unfold giveBack, borrow, get_int; simpl;
    rewrite ?Hv; by handler.
Qed.


End Lifecycle.
