(* ===== verification/Scenarios.v ===== *)
(** * Concrete profiles

    The check run on concrete soundings: the five-level profile of the
    specification's scenarios (pressures 1000, 850, 700, 500 and 300 hPa,
    temperatures linear in log-pressure except for an offset of about
    +10 K at 700 hPa), under the reference band table and under a table
    with wider gaps.  The classification is supplied by [table_calc].
    The reference tables are the default bands of the check (standard
    levels from 1000 to 1 hPa, gaps from 150 to 10 hPa); the conversion
    to hPa and the selection of the gap are evaluated on every whole
    pressure from 0 to 1100 hPa.  [linesA] is the debug log of the
    first scenario with the values of its twelve detail lines;
    [isothermal5] and [nanAt] are the profile with one temperature and
    with a NaN observation; [profiles_counted] checks the first
    scenario and the isothermal profile under one set of counters.
    Every theorem of the development that
    has hypotheses is applied here to one of these profiles, to a small
    observation space or to a handler holding the profile. *)

From Stdlib Require Import ZArith Lia SpecFloat.
From stdpp Require Import base tactics option list numbers strings gmap.
From S2P Require Import Prelude Float32 StdLevels InterpCheck Loops InterpEffects InterpSafety.
From S2P Require Import InterpTyping InterpSpec InterpNumerics Background BigGap ObsOperator.
From S2P Require Import Publication Lifecycle InterpCounting OperatorCalls LoopsWf Profiles.

#[local] Open Scope Z_scope.

(** ** Data *)

(** The [float] nearest to [n / d]. *)
Definition fq (n d : Z) : float := F32.div (F32.of_int n) (F32.of_int d).

Definition fi (n : Z) : float := F32.of_int n.

(** The default options: tolerance 1 K, no relaxation. *)
Definition refOptions : Options := mkOptions (fi 1000) (fi 1) (fi 50000) (fi 1).

(** Sample values of the flag bits and of the missing-value indicator
    (the most negative [float] scaled by 0.99 has this order of
    magnitude), and 273.15 K for 0 degrees Celsius. *)
Definition sampleConstants : Constants :=
  mkConstants (2 ^ 4) (2 ^ 13) (S754_finite true 16609443 104)
    (F64.div (F64.of_int 27315) (F64.of_int 100)).

(** The reference tables: standard levels (hPa) and the big gap (hPa) of
    each band. *)
Definition refStandardLevels : list float :=
  fi <$> [1000; 925; 850; 700; 500; 400; 300; 250; 200; 150; 100; 70; 50; 30; 20; 10; 7; 3; 2; 1].

Definition refBigGaps : list float :=
  fi <$> [150; 150; 150; 150; 100; 100; 100; 75; 75; 50; 50; 20; 20; 20; 10; 10; 10; 10; 10; 10].

(** Tables with one band and a gap of 250 hPa. *)
Definition wideStandardLevels : list float := [fi 1].
Definition wideBigGaps : list float := [fi 250].

Definition pressures5 : list float := fi <$> [100000; 85000; 70000; 50000; 30000].

(** log(pressure), to seven digits. *)
Definition logP5 : list float :=
  [fq 11512925 1000000; fq 11350407 1000000; fq 11156251 1000000;
   fq 10819778 1000000; fq 10308953 1000000].

(** Temperatures 300 K - 20 K per unit of log-pressure, plus 10 K at
    level 2. *)
Definition tObs5 : list float :=
  [fq 30000 100; fq 29675 100; fq 30287 100; fq 28614 100; fq 27592 100].

Definition zeros5 : list float := replicate 5 (S754_zero false).

Definition noLevels (sl bg : list float) : StdLevels :=
  mkStdLevels sl bg 0 0 [] [] [] [] [].

(** The state before the check. *)
Definition profile5 (sl bg : list float) (flags : list Z) : State :=
  mkState pressures5 tObs5 tObs5 flags [0] [0] [0] zeros5 (noLevels sl bg) [] [] [].

(** Level 2 is the one standard level; levels 1 and 3 are its brackets,
    and all five levels count as significant. *)
Definition oneStd (below above : Z) : StdLevels :=
  mkStdLevels [] [] 5 1 [2; -1; -1; -1; -1] [below; -1; -1; -1; -1]
    [above; -1; -1; -1; -1] logP5 [-1; -1; 0; -1; -1].

(** Every level is standard and its neighbours are its brackets. *)
Definition allStd : StdLevels :=
  mkStdLevels [] [] 5 5 [0; 1; 2; 3; 4] [-1; 0; 1; 2; 3] [1; 2; 3; 4; -1]
    logP5 [0; 1; 2; 3; 4].

Abbreviation run tbl st :=
  (@runCheck (table_calc 5 tbl) refOptions sampleConstants 5 st) (only parsing).

Definition after (tbl : StdLevels) (st : State) : State :=
  match run tbl st with Ok st' => st' | Fault _ => st end.

(** The state the loop starts from. *)
Definition classifiedAs (tbl : StdLevels) (st : State) : State :=
  match @calcStdLevels (table_calc 5 tbl) 5 (pressures st) (tObs st) (tFlags st) (levels st) with
  | Ok sl => set_levels sl st
  | Fault _ => st
  end.

Definition missing5 : list float := replicate 5 (missingValueFloat sampleConstants).

(** Scenario A: level 2 standard, wide gaps. *)
Definition scenarioA : State := profile5 wideStandardLevels wideBigGaps [0; 0; 0; 0; 0].
Definition scenarioA_after : State := Eval vm_compute in after (oneStd 1 3) scenarioA.

(** Scenario A checked a second time. *)
Definition scenarioA_again : State := Eval vm_compute in after (oneStd 1 3) scenarioA_after.

(** The value interpolated at level 2 of scenario A. *)
Definition tInterpA : float := Eval vm_compute in default (S754_zero false) (tInterp_ scenarioA_after !! 2%nat).

(** The four lines logged for the failure of scenario A: the level and
    its brackets, then for each the pressure in hPa and the
    temperatures in degrees Celsius (the background is the observation
    in these profiles). *)
Definition linesA : list Event :=
  let C := celsius sampleConstants in
  [DebugFailed 2 1 3;
   DebugCentral 2 (hPa (fi 70000)) (C (fq 30287 100)) (C (fq 30287 100)) (C tInterpA)
     (F32.sub tInterpA (fq 30287 100));
   DebugBracket 1 (hPa (fi 85000)) (C (fq 29675 100)) (C (fq 29675 100));
   DebugBracket 3 (hPa (fi 50000)) (C (fq 28614 100)) (C (fq 28614 100))].

(** The state the loop of scenario A starts from, and the state after
    the loop without the events logged. *)
Definition loopStartA : State :=
  set_tInterp missing5 (set_LevErrors (replicate 5 (-1)) (classifiedAs (oneStd 1 3) scenarioA)).

Definition scenarioA_checked : State :=
  mkState pressures5 tObs5 tObs5 [0; 2 ^ 13; 2 ^ 13; 2 ^ 13; 0] [1] [1] [0] zeros5
    (levels loopStartA) [-1; 0; 0; 0; -1] (<[2%nat := tInterpA]> missing5) [].

(** Scenario A read literally: every level standard. *)
Definition scenarioA_all : State := Eval vm_compute in after allStd scenarioA.

(** The loop over the standard levels of that profile, in a given
    order. *)
Definition loopStart5 : State :=
  set_tInterp missing5 (set_LevErrors (replicate 5 (-1)) (classifiedAs allStd scenarioA)).

Definition loopOver (js : list Z) : State * Z :=
  match foldM (checkLevel refOptions sampleConstants tObs5) js (loopStart5, 0) with
  | Ok s => s
  | Fault _ => (loopStart5, 0)
  end.

(** Scenario C: the reference tables. *)
Definition scenarioC : State := profile5 refStandardLevels refBigGaps [0; 0; 0; 0; 0].

(** Scenario D: no pressures. *)
Definition scenarioD : State :=
  mkState [] tObs5 tObs5 [0; 0; 0; 0; 0] [0] [0] [0] zeros5
    (noLevels refStandardLevels refBigGaps) [] [] [].

(** Level 2 is a surface level. *)
Definition surfaceProfile : State :=
  profile5 wideStandardLevels wideBigGaps [0; 0; 2 ^ 4; 0; 0].

(** A profile whose error counter has no entry. *)
Definition noCounter : State :=
  mkState pressures5 tObs5 tObs5 [0; 0; 0; 0; 0] [] [0] [0] zeros5
    (noLevels wideStandardLevels wideBigGaps) [] [] [].

(** A profile whose level 2 has an infinite pressure. *)
Definition hugePressure : State :=
  mkState (<[2%nat := S754_infinity false]> pressures5) tObs5 tObs5 [0; 0; 0; 0; 0]
    [0] [0] [0] zeros5 (noLevels wideStandardLevels wideBigGaps) [] [] [].

(** The profile of scenario A with a NaN for the observation of level
    [i]. *)
Definition nanAt (i : nat) : State :=
  mkState pressures5 (<[i := S754_nan]> tObs5) tObs5 [0; 0; 0; 0; 0] [0] [0] [0] zeros5
    (noLevels wideStandardLevels wideBigGaps) [] [] [].

(** A profile of 280 K at every level. *)
Definition isothermal5 : State :=
  mkState pressures5 (replicate 5 (fi 280)) tObs5 [0; 0; 0; 0; 0] [0] [0] [0] zeros5
    (noLevels wideStandardLevels wideBigGaps) [] [] [].

(** The profile of the first scenario with a model background of 200 K
    at every level. *)
Definition coldModel : State :=
  mkState pressures5 tObs5 (replicate 5 (fi 200)) [0; 0; 0; 0; 0] [0] [0] [0] zeros5
    (noLevels wideStandardLevels wideBigGaps) [] [] [].

(** A band table whose gaps are missing. *)
Definition gaplessTables : StdLevels := noLevels [fi 1000] [].

(** The reference tables as members of the check. *)
Definition refTables : StdLevels := noLevels refStandardLevels refBigGaps.

(** The conversion to whole hPa is exact at [i] hPa and at both ends of
    the interval of pressures that round to [i]. *)
Definition hPaBoundaryAt (i : Z) : bool :=
  bool_decide (roundedHPa (fi (100 * i)) = Ok i)
  && bool_decide (roundedHPa (fi (100 * i + 49)) = Ok i)
  && bool_decide (roundedHPa (fi (100 * i + 50)) = Ok (i + 1)).

(** The gap selected at [p] hPa is at most the gap selected at [p + 1]. *)
Definition gapMonotoneAt (p : Z) : bool :=
  match selectBigGap refOptions refTables p, selectBigGap refOptions refTables (p + 1) with
  | Ok g, Ok g' => F32.leb g g'
  | _, _ => false
  end.

(** An operator that returns [yy] and counts its calls in the
    diagnostics, and a bias correction with one predictor. *)
Definition countingOperator : @ObsOperatorBase Z Z unit unit unit :=
  mkObsOperatorBase (λ _ yy d, (yy, d + 1)) () (λ _ _, ()) "Counting".

Definition sampleBias (active : bool) : @ObsBias Z Z :=
  mkObsBias active ["constant"] (λ _ _ p, p) (λ y _ t, (y, t)).

Definition sampleSpace : ObsSpace := mkObsSpace 2 ["air_temperature"] ∅.

Definition sampleObsOperator : ObsOperator := mkObsOperator countingOperator.

(** The profile of scenario A in a handler, and a check that has not
    run. *)
Definition handler5 : ProfileDataHandler :=
  set_int name_counter_NumInterpErrObs [0]
    (set_int name_counter_NumInterpErrors [0]
       (set_int name_counter_NumAnyErrors [0]
          (set_int name_qc_tFlags [0; 0; 0; 0; 0]
             (set_float name_tObsCorrection zeros5
                (set_float name_hofx_air_temperature tObs5
                   (set_float name_obs_air_temperature tObs5
                      (set_float name_air_pressure pressures5 ∅))))))).

Definition check5 : State :=
  mkState [] [] [] [] [] [] [] [] (noLevels wideStandardLevels wideBigGaps) [] [] [].

Abbreviation runOn h st :=
  (@ProfileCheck.runOnHandler (table_calc 5 (oneStd 1 3)) refOptions sampleConstants 5 (h, st))
  (only parsing).

(** The handler after [runCheck], the handler and the check after
    [fillValidator], and the handler after a second [fillValidator]. *)
Definition handler5_checked : ProfileDataHandler := giveBack scenarioA_after handler5.

Definition handler5_published : ProfileDataHandler :=
  publish 5 scenarioA_after handler5_checked.

Definition check5_published : State := movedFrom scenarioA_after.

Definition handler5_twice : ProfileDataHandler :=
  publish 5 check5_published handler5_published.

(** ** The scenarios of the specification *)

(** Scenario A: the offset observation at level 2 fails the test
    against its brackets 1 and 3. *)
Example scenarioA_runs : run (oneStd 1 3) scenarioA = Ok scenarioA_after.
Proof. vm_compute. reflexivity. Qed.

(** Scenario A with level 2 as the standard level: the three
    levels of the failed test gain the interpolation bit, their level
    errors become 0, each counter grows by one, and the value
    interpolated at level 2 is stored. *)
Example scenarioA_outputs :
  ∃ st', run (oneStd 1 3) scenarioA = Ok st' ∧
    tFlags st' = [0; 2 ^ 13; 2 ^ 13; 2 ^ 13; 0] ∧
    LevErrors_ st' = [-1; 0; 0; 0; -1] ∧
    NumAnyErrors st' = [1] ∧ NumInterpErrors st' = [1] ∧ NumInterpErrObs st' = [1] ∧
    tInterp_ st' = <[2%nat := tInterpA]> missing5 ∧
    log st' = DebugCheck :: linesA.
Proof. exists scenarioA_after. vm_compute. done. Qed.

(** The values those lines print: whole pressures in hPa, and a residual
    [tInterp - tObs] of about -10 K. *)
Example linesA_values :
  hPa (fi 70000) = F64.of_int 700 ∧ hPa (fi 85000) = F64.of_int 850 ∧
  hPa (fi 50000) = F64.of_int 500 ∧
  F32.leb (fq (-101) 10) (F32.sub tInterpA (fq 30287 100)) = true ∧
  F32.leb (F32.sub tInterpA (fq 30287 100)) (fq (-99) 10) = true.
Proof. vm_compute. done. Qed.


(** On the profile of 280 K the three inner levels are evaluated, the
    value interpolated at each is 280 K, and nothing is flagged. *)
Example isothermal5_evaluated :
  ∃ st', run allStd isothermal5 = Ok st' ∧
    tInterp_ st' = [missingValueFloat sampleConstants; fi 280; fi 280; fi 280;
                    missingValueFloat sampleConstants] ∧
    LevErrors_ st' = replicate 5 (-1) ∧ tFlags st' = [0; 0; 0; 0; 0].
Proof. eexists. split; [vm_compute; reflexivity|]. vm_compute. done. Qed.

(** Scenario A with the offset observation of level 2 replaced by a
    NaN: the level is evaluated, and nothing is flagged or counted. *)
Example nanObservation_passes :
  ∃ st', run (oneStd 1 3) (nanAt 2) = Ok st' ∧
    tInterp_ st' = <[2%nat := tInterpA]> missing5 ∧
    tFlags st' = [0; 0; 0; 0; 0] ∧ LevErrors_ st' = replicate 5 (-1) ∧
    NumAnyErrors st' = [0] ∧ NumInterpErrors st' = [0] ∧ NumInterpErrObs st' = [0].
Proof. eexists. split; [vm_compute; reflexivity|]. vm_compute. done. Qed.

(** The check run again on its own output counts the failure again:
    the flags are as after the first run, the error counters have grown
    once more. *)
Example scenarioA_rerun :
  ∃ st', run (oneStd 1 3) scenarioA_after = Ok st' ∧
    tFlags st' = tFlags scenarioA_after ∧
    LevErrors_ st' = LevErrors_ scenarioA_after ∧
    NumAnyErrors st' = [2] ∧ NumInterpErrors st' = [2] ∧ NumInterpErrObs st' = [2].
Proof. exists (after (oneStd 1 3) scenarioA_after). vm_compute. done. Qed.

(** Scenario C: under the reference tables the gap of 200 hPa
    between level 2 and its upper bracket exceeds the 150 hPa of its
    band, and the level is skipped although its observation is off by
    10 K. *)
Example scenarioC_skipped :
  run (oneStd 1 3) scenarioC =
    Ok (mkState pressures5 tObs5 tObs5 [0; 0; 0; 0; 0] [0] [0] [0] zeros5
          (classifiedAs (oneStd 1 3) scenarioC).(levels)
          [-1; -1; -1; -1; -1] missing5 [DebugCheck]).
Proof. vm_compute. reflexivity. Qed.

(** An error counter without an entry is indexed out of range by the
    first failure: the validation of the input does not look at the
    counters. *)
Example noCounter_faults :
  anyVectorEmpty noCounter = false ∧ allVectorsSameSize noCounter = true ∧
  run (oneStd 1 3) noCounter = Fault OutOfBounds.
Proof. vm_compute. done. Qed.

(** A pressure that is not a number of the range of [int] in hPa makes
    the conversion of line 76 undefined, whatever the level is used
    for. *)
Example infinitePressure_faults :
  run (oneStd 1 3) hugePressure = Fault BadIntConversion.
Proof. vm_compute. reflexivity. Qed.

(** The band of 500 hPa in the reference table: the scan selects
    the band at position 4 (gap 100 hPa); the first band whose level is
    at least 500 hPa is the one at position 0 (gap 150 hPa). *)
Example selectedBand_reference :
  selectedBand (noLevels refStandardLevels refBigGaps) 500 = Some 4%nat ∧
  describedBand (noLevels refStandardLevels refBigGaps) 500 = Some 0%nat ∧
  selectBigGap refOptions (noLevels refStandardLevels refBigGaps) 500 = Ok (fi 10000).
Proof. vm_compute. done. Qed.

(** ** Pressures and gaps over the range of a sounding

    The conversion of line 76 and the selection of the gap are computed
    in floating point; the theorems below establish their behaviour for
    every whole pressure from 0 to 1100 hPa by evaluating the model on
    each of them. *)

Example hPaBoundaryAt_checked : forallb hPaBoundaryAt (seqZ 0 1101) = true.
Proof. vm_compute. reflexivity. Qed.

Example gapMonotoneAt_checked : forallb gapMonotoneAt (seqZ 0 1100) = true.
Proof. vm_compute. reflexivity. Qed.

(** For every whole number [i] of hPa up to 1100, the pressure of
    [i] hPa and the pressure 49 Pa above it are converted to
    [IPStd = i], and the pressure 50 Pa above it to [i + 1]: the
    multiplication by the [double] nearest to 0.01 followed by
    [std::round] puts the half-way points on the upper side. *)
Theorem roundedHPa_boundaries i :
  0 ≤ i ≤ 1100 →
  roundedHPa (fi (100 * i)) = Ok i ∧
  roundedHPa (fi (100 * i + 49)) = Ok i ∧
  roundedHPa (fi (100 * i + 50)) = Ok (i + 1).
Proof.
  intros Hi. pose proof (forallb_seqZ _ 0 1101 i hPaBoundaryAt_checked ltac:(lia)) as H.
  unfold hPaBoundaryAt in H. rewrite !andb_true_iff, !bool_decide_eq_true in H.
  by destruct H as [[? ?] ?].
Qed.

(** Under the reference tables the gap selected for a standard
    level does not decrease when its pressure increases by one hPa, for
    every pressure from 0 to 1100 hPa, and the selection never reads
    outside the tables. *)
Theorem refTable_monotone p :
  0 ≤ p < 1100 →
  ∃ g g', selectBigGap refOptions refTables p = Ok g ∧
          selectBigGap refOptions refTables (p + 1) = Ok g' ∧ F32.leb g g' = true.
Proof.
  intros Hp. pose proof (forallb_seqZ _ 0 1100 p gapMonotoneAt_checked ltac:(lia)) as H.
  unfold gapMonotoneAt in H.
  destruct (selectBigGap refOptions refTables p) as [g|]; [|done].
  destruct (selectBigGap refOptions refTables (p + 1)) as [g'|]; [|done]. eauto.
Qed.

(** The comment of lines 78-79: the gap is 50 hPa for the standard
    levels at 150 and 100 hPa. *)
Example refTable_reduced_gap :
  selectBigGap refOptions refTables 150 = Ok (fi 5000) ∧
  selectBigGap refOptions refTables 100 = Ok (fi 5000) ∧
  selectBigGap refOptions refTables 200 = Ok (fi 7500).
Proof. vm_compute. done. Qed.

(** The handler holds the profile of scenario A, and the check run on
    the handler is the check run on the profile. *)
Example borrow_handler5 : borrow handler5 check5 = scenarioA.
Proof. vm_compute. reflexivity. Qed.

Example runOn_handler5 : runOn handler5 check5 = Ok (handler5_checked, scenarioA_after).
Proof.
  apply runCheck_handler_Ok. split; [|done].
  rewrite borrow_handler5. exact scenarioA_runs.
Qed.

(** What a validator reads after the publication. *)
Example published5_outputs :
  get_int handler5_published name_LevErrors = [-1; 0; 0; 0; -1] ∧
  get_int handler5_published name_NumStd = [1; 1; 1; 1; 1] ∧
  get_int handler5_published name_qc_tFlags = [0; 2 ^ 13; 2 ^ 13; 2 ^ 13; 0] ∧
  get_int handler5_published name_counter_NumInterpErrors = [1].
Proof. vm_compute. done. Qed.

(** ** Witnesses *)

Lemma runCheck_effects_witness :
  ∃ fs : list triple,
    failuresLogged (log scenarioA_after) = failuresLogged (log scenarioA) ++ fs ∧
    tFlags scenarioA_after = foldl (mark3 (2 ^ 13)) (tFlags scenarioA) fs ∧
    LevErrors_ scenarioA_after = foldl tally3 (replicate (Z.to_nat 5) (-1)) fs ∧
    NumAnyErrors scenarioA_after = bump (Z.of_nat (length fs)) (NumAnyErrors scenarioA) ∧
    NumInterpErrors scenarioA_after = bump (Z.of_nat (length fs)) (NumInterpErrors scenarioA) ∧
    NumInterpErrObs scenarioA_after = bump (if fs is [] then 0 else 1) (NumInterpErrObs scenarioA) ∧
    same_inputs scenarioA scenarioA_after.
Proof.
  apply (@runCheck_effects (table_calc 5 (oneStd 1 3)) refOptions sampleConstants 5
           scenarioA scenarioA_after); vm_compute; reflexivity.
Defined.

Lemma runCheck_invalid_input_witness :
  run allStd scenarioD =
    Ok (mkState [] tObs5 tObs5 [0; 0; 0; 0; 0] [0] [0] [0] zeros5
          (noLevels refStandardLevels refBigGaps) [] [] [DebugCheck; WarnEmpty]).
Proof.
  apply (@runCheck_invalid_input (table_calc 5 allStd) refOptions sampleConstants 5
           scenarioD).
  left. vm_compute. reflexivity.
Defined.

Lemma reachable_evolves_witness :
  evolves (InterpolationFlag sampleConstants) handler5 handler5_published.
Proof.
  apply (@reachable_evolves (table_calc 5 (oneStd 1 3)) refOptions sampleConstants 5
           (handler5, check5) (handler5_published, check5_published)).
  eapply rtc_l; [apply step_runCheck, runOn_handler5|].
  apply rtc_once, step_fillValidator, fillValidator_returns. lia.
Defined.

Lemma constructed_invariant_witness :
  constructed refOptions 5 (λ _, noLevels wideStandardLevels wideBigGaps)
    (handler5_published, check5_published).2 ∧
  evolves (InterpolationFlag sampleConstants) handler5 (handler5_published, check5_published).1.
Proof.
  apply (@constructed_invariant (table_calc 5 (oneStd 1 3)) refOptions sampleConstants 5
           (table_calc_ok 5 (oneStd 1 3)) (λ _, noLevels wideStandardLevels wideBigGaps)
           handler5 [] (handler5_published, check5_published)).
  eapply rtc_l; [apply step_runCheck, runOn_handler5|].
  apply rtc_once, step_fillValidator, fillValidator_returns. lia.
Defined.

Lemma check_then_publish_witness :
  ∃ st1, run (oneStd 1 3) (borrow handler5 check5) = Ok st1 ∧
    get_int handler5_published name_qc_tFlags = tFlags st1 ∧
    get_int handler5_published name_counter_NumAnyErrors = NumAnyErrors st1 ∧
    get_int handler5_published name_counter_NumInterpErrors = NumInterpErrors st1 ∧
    get_int handler5_published name_counter_NumInterpErrObs = NumInterpErrObs st1 ∧
    get_int handler5_published name_LevErrors = LevErrors_ st1 ∧
    get_float handler5_published name_tInterp = tInterp_ st1 ∧
    get_int handler5_published name_StdLev = StdLev_ (levels st1) ∧
    get_int handler5_published name_NumStd = replicate (Z.to_nat 5) (NumStd_ (levels st1)) ∧
    check5_published = movedFrom st1.
Proof.
  apply (@check_then_publish (table_calc 5 (oneStd 1 3)) refOptions sampleConstants 5
           (handler5, check5) (handler5_published, check5_published)).
  unfold execAll. cbn [foldM]. unfold exec.
  rewrite (bind_Ok_l _ _ _ runOn_handler5).
  rewrite (bind_Ok_l _ _ _ (fillValidator_returns 5 handler5_checked scenarioA_after
                              ltac:(lia))).
  reflexivity.
Defined.

Lemma checkLevelsLoop_terminates_witness :
  checkLevelsLoop refOptions sampleConstants 1 tObs5 loopStartA =
    Some <$> checkLevels refOptions sampleConstants tObs5 loopStartA.
Proof.
  apply (checkLevelsLoop_terminates refOptions sampleConstants 1 tObs5 loopStartA);
    apply (bool_decide_unpack _); vm_compute; exact I.
Defined.

(** The method with its loops by well-founded recursion computes the
    outputs of the first scenario. *)
Example runCheckWf_scenarioA :
  @runCheckWf (table_calc 5 allStd) refOptions sampleConstants 5 scenarioA = Ok scenarioA_all.
Proof. vm_compute. reflexivity. Qed.

Lemma runCheckWf_runCheck_witness :
  @runCheckWf (table_calc 5 allStd) refOptions sampleConstants 5 scenarioA =
    run allStd scenarioA.
Proof.
  apply (@runCheckWf_runCheck (table_calc 5 allStd) refOptions sampleConstants
           (table_calc_ok 5 allStd) 5 scenarioA);
    apply (bool_decide_unpack _); vm_compute; exact I.
Defined.

Lemma selectBigGapLoop_selectBigGap_witness :
  selectBigGapLoop refOptions 20 refTables 500 = Some <$> selectBigGap refOptions refTables 500.
Proof.
  apply (selectBigGapLoop_selectBigGap refOptions 20 refTables 500);
    apply (bool_decide_unpack _); vm_compute; exact I.
Defined.


Lemma check_then_publish_returns_witness :
  ∃ c', @execAll (table_calc 5 (oneStd 1 3)) refOptions sampleConstants 5
          [RunCheck; FillValidator] (handler5, check5) = Ok c' ∧
        evolves (InterpolationFlag sampleConstants) handler5 c'.1.
Proof.
  apply (@check_then_publish_returns (table_calc 5 (oneStd 1 3)) refOptions sampleConstants 5
           (table_calc_ok 5 (oneStd 1 3)) handler5 check5).
  - rewrite borrow_handler5. apply readyb_correct. vm_compute. reflexivity.
  - apply is_Okb_spec. vm_compute. reflexivity.
Defined.

Lemma runCheck_safe_witness : is_Ok (run (oneStd 1 3) scenarioA).
Proof.
  apply (@runCheck_safe (table_calc 5 (oneStd 1 3)) refOptions sampleConstants
           (table_calc_ok 5 (oneStd 1 3)) 5 scenarioA).
  - apply readyb_correct. vm_compute. reflexivity.
  - apply is_Okb_spec. vm_compute. reflexivity.
Defined.

Lemma runCheck_refines_witness :
  ∃ sl vds,
    let tObsFinal := correctVector (tObs scenarioA) (tObsCorrection scenarioA) in
    @calcStdLevels (table_calc 5 (oneStd 1 3)) 5 (pressures scenarioA) tObsFinal
      (tFlags scenarioA) (levels scenarioA) = Ok sl ∧
    mapM (verdict refOptions sampleConstants (set_levels sl scenarioA) tObsFinal)
      (seqZ 0 (NumStd_ sl)) = Ok vds ∧
    scenarioA_after = specState sampleConstants 5 sl vds scenarioA.
Proof.
  apply (@runCheck_refines (table_calc 5 (oneStd 1 3)) refOptions sampleConstants 5
           scenarioA scenarioA_after); vm_compute; reflexivity.
Defined.

Lemma runCheck_counter_missing_witness : run (oneStd 1 3) noCounter = Fault OutOfBounds.
Proof.
  apply (@runCheck_counter_missing (table_calc 5 (oneStd 1 3)) refOptions sampleConstants 5
           noCounter (levels (classifiedAs (oneStd 1 3) noCounter)) 0 2 1 3 tInterpA).
  - vm_compute. reflexivity.
  - vm_compute. reflexivity.
  - vm_compute. reflexivity.
  - apply (bool_decide_unpack _). vm_compute. exact I.
  - intros i Hi. lia.
  - vm_compute. reflexivity.
  - lia.
  - reflexivity.
Defined.

Lemma checkLevel_bad_pressure_witness :
  checkLevel refOptions sampleConstants tObs5 0 (classifiedAs (oneStd 1 3) hugePressure, 0) =
    Fault BadIntConversion.
Proof.
  apply (checkLevel_bad_pressure refOptions sampleConstants tObs5 0
           (classifiedAs (oneStd 1 3) hugePressure) 0 2 0 1 3 (S754_infinity false));
    vm_compute; reflexivity.
Defined.

Lemma runCheck_total_witness :
  ∃ vds,
    mapM (verdict refOptions sampleConstants (set_levels (levels loopStartA) scenarioA)
            (correctVector (tObs scenarioA) (tObsCorrection scenarioA)))
      (seqZ 0 (NumStd_ (levels loopStartA))) = Ok vds ∧
    run (oneStd 1 3) scenarioA =
      Ok (specState sampleConstants 5 (levels loopStartA) vds scenarioA).
Proof.
  apply (@runCheck_total (table_calc 5 (oneStd 1 3)) refOptions sampleConstants
           (table_calc_ok 5 (oneStd 1 3)) 5 scenarioA (levels loopStartA)).
  - vm_compute. reflexivity.
  - vm_compute. reflexivity.
  - vm_compute. reflexivity.
  - apply readyb_correct. vm_compute. reflexivity.
  - vm_compute. reflexivity.
Defined.

Lemma runCheck_isothermal_witness :
  ∃ st', run allStd isothermal5 = Ok st' ∧
    tFlags st' = tFlags isothermal5 ∧ NumAnyErrors st' = NumAnyErrors isothermal5 ∧
    NumInterpErrors st' = NumInterpErrors isothermal5 ∧
    NumInterpErrObs st' = NumInterpErrObs isothermal5 ∧
    (anyVectorEmpty isothermal5 = false → allVectorsSameSize isothermal5 = true →
     LevErrors_ st' = replicate (Z.to_nat 5) (-1)).
Proof.
  apply (@runCheck_isothermal (table_calc 5 allStd) refOptions sampleConstants
           (table_calc_ok 5 allStd) 5 isothermal5 (fi 280)).
  - apply readyb_correct. vm_compute. reflexivity.
  - apply is_Okb_spec. vm_compute. reflexivity.
  - reflexivity.
  - intros p. unfold tolerance. destruct (F32.ltb p _); vm_compute; reflexivity.
  - apply (bool_decide_unpack _). vm_compute. exact I.
Defined.

Lemma runCheck_tInterp_witness :
  ∃ sl vds,
    let tObsFinal := correctVector (tObs scenarioA) (tObsCorrection scenarioA) in
    @calcStdLevels (table_calc 5 (oneStd 1 3)) 5 (pressures scenarioA) tObsFinal
      (tFlags scenarioA) (levels scenarioA) = Ok sl ∧
    mapM (verdict refOptions sampleConstants (set_levels sl scenarioA) tObsFinal)
      (seqZ 0 (NumStd_ sl)) = Ok vds ∧
    ∀ i : nat, (i < Z.to_nat 5)%nat →
      tInterp_ scenarioA_after !! i =
        Some (default (missingValueFloat sampleConstants) (storedAt (omap stored vds) i)).
Proof.
  apply (@runCheck_tInterp (table_calc 5 (oneStd 1 3)) refOptions sampleConstants 5
           scenarioA scenarioA_after); vm_compute; reflexivity.
Defined.

Lemma runCheck_rerun_witness :
  ∃ vds,
    scenarioA_after = specState sampleConstants 5 (levels scenarioA_after) vds scenarioA ∧
    scenarioA_again =
      specState sampleConstants 5 (levels scenarioA_after) vds scenarioA_after ∧
    tFlags scenarioA_again = tFlags scenarioA_after ∧
    LevErrors_ scenarioA_again = LevErrors_ scenarioA_after ∧
    tInterp_ scenarioA_again = tInterp_ scenarioA_after.
Proof.
  apply (@runCheck_rerun (table_calc 5 (oneStd 1 3)) refOptions sampleConstants 5
           scenarioA scenarioA_after scenarioA_again); vm_compute; reflexivity.
Defined.


Lemma roundedHPa_boundaries_witness :
  roundedHPa (fi (100 * 850)) = Ok 850 ∧
  roundedHPa (fi (100 * 850 + 49)) = Ok 850 ∧
  roundedHPa (fi (100 * 850 + 50)) = Ok (850 + 1).
Proof. apply (roundedHPa_boundaries 850). lia. Defined.

Lemma runCheck_background_witness :
  res_rel sameBut (run allStd scenarioA) (run allStd coldModel).
Proof.
  apply (@runCheck_background (table_calc 5 allStd) refOptions sampleConstants 5
           scenarioA coldModel).
  by split.
Defined.

(** Two profiles under one handler whose counters start at 4, 3 and 2:
    the first scenario, which fails at level 2, and the isothermal
    profile, which passes. *)
Example profiles_counted :
  counters (after (oneStd 1 3) (withCounters ([4], [3], [2]) scenarioA)) = ([5], [4], [3]) ∧
  counters (after (oneStd 1 3) (withCounters ([5], [4], [3]) isothermal5)) = ([5], [4], [3]).
Proof. split; vm_compute; reflexivity. Qed.

Lemma profiles_commute_witness :
  let c := ([4], [3], [2]) in
  let A1 := after (oneStd 1 3) (withCounters c scenarioA) in
  let B1 := after (oneStd 1 3) (withCounters (counters A1) isothermal5) in
  let B2 := after (oneStd 1 3) (withCounters c isothermal5) in
  let A2 := after (oneStd 1 3) (withCounters (counters B2) scenarioA) in
  sameButCounters A1 A2 ∧ sameButCounters B1 B2 ∧ counters B1 = counters A2.
Proof.
  apply (@profiles_commute (table_calc 5 (oneStd 1 3)) refOptions sampleConstants
           ([4], [3], [2]) 5 5 scenarioA isothermal5); vm_compute; reflexivity.
Defined.

Lemma refTable_monotone_witness :
  ∃ g g', selectBigGap refOptions refTables 499 = Ok g ∧
          selectBigGap refOptions refTables (499 + 1) = Ok g' ∧ F32.leb g g' = true.
Proof. apply (refTable_monotone 499). lia. Defined.

Lemma checkLevel_surface_witness :
  checkLevel refOptions sampleConstants tObs5 0 (classifiedAs (oneStd 1 3) surfaceProfile, 0) =
    Ok (classifiedAs (oneStd 1 3) surfaceProfile, 0).
Proof.
  apply (checkLevel_surface refOptions sampleConstants tObs5 0 _ 0 2 (2 ^ 4));
    vm_compute; done.
Defined.

Lemma checkLevel_failure_guards_witness :
  ∃ jlev SigB SigA PStd v tj,
    evaluated refOptions sampleConstants loopStartA tObs5 0 jlev SigB SigA PStd v tj ∧
    exceedsTolerance refOptions tj v PStd = true ∧ 1 = 0 + 1.
Proof.
  apply (checkLevel_failure_guards refOptions sampleConstants tObs5 0 loopStartA 0
           (add_logs linesA scenarioA_checked) 1);
    [vm_compute; reflexivity|lia].
Defined.

Lemma checkLevel_evaluated_witness :
  checkLevel refOptions sampleConstants tObs5 0 (loopStartA, 0) =
    ti ← vec_set (tInterp_ loopStartA) 2 tInterpA;
    if exceedsTolerance refOptions (fq 30287 100) tInterpA (fi 70000)
    then flagFailure sampleConstants tObs5 2 1 3 (set_tInterp ti loopStartA, 0)
    else Ok (set_tInterp ti loopStartA, 0).
Proof.
  apply (checkLevel_evaluated refOptions sampleConstants tObs5 0 loopStartA 0 2 1 3).
  split.
  - vm_compute. reflexivity.
  - exists 0. split; vm_compute; reflexivity.
  - split; [vm_compute; reflexivity|discriminate].
  - split; [vm_compute; reflexivity|discriminate].
  - vm_compute. reflexivity.
  - vm_compute. reflexivity.
  - exists 700, (fi 25000). repeat split; vm_compute; reflexivity.
  - vm_compute. reflexivity.
  - vm_compute. reflexivity.
Defined.

Lemma checkLevel_nan_unflagged_witness :
  checkLevel refOptions sampleConstants (<[2%nat := S754_nan]> tObs5) 0 (loopStartA, 0) =
    ti ← vec_set (tInterp_ loopStartA) 2 tInterpA; Ok (set_tInterp ti loopStartA, 0).
Proof.
  apply (checkLevel_nan_unflagged refOptions sampleConstants (<[2%nat := S754_nan]> tObs5)
           0 loopStartA 0 2 1 3 (fi 70000) tInterpA S754_nan (fq 29675 100) (fq 28614 100));
    [split|vm_compute; reflexivity..].
  - vm_compute. reflexivity.
  - exists 0. split; vm_compute; reflexivity.
  - split; [vm_compute; reflexivity|discriminate].
  - split; [vm_compute; reflexivity|discriminate].
  - vm_compute. reflexivity.
  - vm_compute. reflexivity.
  - exists 700, (fi 25000). repeat split; vm_compute; reflexivity.
  - vm_compute. reflexivity.
  - vm_compute. reflexivity.
Defined.

Lemma runCheck_nothing_evaluated_witness :
  @runCheck (table_calc 5 (oneStd (-1) 3)) refOptions sampleConstants 5 scenarioA =
    Ok (set_tInterp (replicate (Z.to_nat 5) (missingValueFloat sampleConstants))
          (set_LevErrors (replicate (Z.to_nat 5) (-1))
             (set_levels (levels (classifiedAs (oneStd (-1) 3) scenarioA))
                (add_log DebugCheck scenarioA)))).
Proof.
  apply (@runCheck_nothing_evaluated (table_calc 5 (oneStd (-1) 3)) refOptions
           sampleConstants 5 scenarioA (levels (classifiedAs (oneStd (-1) 3) scenarioA))).
  - vm_compute. reflexivity.
  - vm_compute. reflexivity.
  - lia.
  - vm_compute. reflexivity.
  - intros j Hj. change (0 ≤ j < 1) in Hj. assert (j = 0) as -> by lia.
    vm_compute. reflexivity.
Defined.

Lemma checkLevels_order_independent_witness :
  (∃ vds vds',
     mapM (verdict refOptions sampleConstants loopStart5 tObs5) [4; 3; 2; 1; 0] = Ok vds ∧
     mapM (verdict refOptions sampleConstants loopStart5 tObs5) (seqZ 0 5) = Ok vds' ∧
     vds ≡ₚ vds') ∧
  tFlags (loopOver [4; 3; 2; 1; 0]).1 = tFlags (loopOver (seqZ 0 5)).1 ∧
  LevErrors_ (loopOver [4; 3; 2; 1; 0]).1 = LevErrors_ (loopOver (seqZ 0 5)).1 ∧
  NumAnyErrors (loopOver [4; 3; 2; 1; 0]).1 = NumAnyErrors (loopOver (seqZ 0 5)).1 ∧
  NumInterpErrors (loopOver [4; 3; 2; 1; 0]).1 = NumInterpErrors (loopOver (seqZ 0 5)).1 ∧
  (loopOver [4; 3; 2; 1; 0]).2 = (loopOver (seqZ 0 5)).2.
Proof.
  apply (checkLevels_order_independent refOptions sampleConstants tObs5
           [4; 3; 2; 1; 0] (seqZ 0 5) loopStart5 0).
  - vm_compute. reflexivity.
  - apply (reverse_Permutation [0; 1; 2; 3; 4]).
  - vm_compute. reflexivity.
  - vm_compute. reflexivity.
Defined.

Lemma checkLevels_level_outcome_witness :
  ∃ fs, 3 = Z.of_nat (length fs) ∧
    failuresLogged (log (loopOver (seqZ 0 5)).1) = failuresLogged (log loopStart5) ++ fs ∧
    ∀ i : nat,
      tFlags (loopOver (seqZ 0 5)).1 !! i =
        (if decide (i ∈ touched fs) then (λ x, Z.lor x (2 ^ 13)) else id)
          <$> tFlags loopStart5 !! i ∧
      LevErrors_ (loopOver (seqZ 0 5)).1 !! i =
        Z.add (participations fs i) <$> LevErrors_ loopStart5 !! i.
Proof.
  apply (checkLevels_level_outcome refOptions sampleConstants tObs5 loopStart5
           (loopOver (seqZ 0 5)).1 3).
  vm_compute. reflexivity.
Defined.

Lemma selectBigGap_short_table_witness :
  selectBigGap refOptions gaplessTables 1000 = Fault OutOfBounds.
Proof.
  apply (selectBigGap_short_table refOptions gaplessTables 1000 0);
    [vm_compute; reflexivity|simpl; lia].
Defined.


Lemma selectedBand_decreasing_witness :
  ∃ l, refStandardLevels !! 4%nat = Some l ∧
    ∀ j y, refStandardLevels !! j = Some y →
      (bandMatches 500 y ↔ (4 ≤ j)%nat) ∧ (bandMatches 500 y → F32.leb y l = true).
Proof.
  apply (selectedBand_decreasing (noLevels refStandardLevels refBigGaps) 500 4);
    [apply (bool_decide_unpack _); vm_compute; exact I|vm_compute; reflexivity].
Defined.

Lemma simulateObs_without_bias_witness :
  (simulateObs sampleObsOperator 0 [] (sampleBias false) 0 sampleSpace).2 = sampleSpace.
Proof. apply (simulateObs_without_bias sampleObsOperator). reflexivity. Defined.

Lemma simulateObs_with_bias_witness :
  let yd := (base_simulateObs (oper_ sampleObsOperator) 0 [] 0).2 in
  let odb' := (simulateObs sampleObsOperator 0 [] (sampleBias true) 0 sampleSpace).2 in
  groups odb' !! "ObsBiasPredictor" =
    Some (SavedData (biasPredictors 0 yd (sampleBias true) sampleSpace)) ∧
  groups odb' !! "ObsBiasTerm" =
    Some (SavedData (biasResult 0 yd (sampleBias true) sampleSpace).2) ∧
  groups odb' !! "ObsBias" =
    Some (SavedVector (biasResult 0 yd (sampleBias true) sampleSpace).1) ∧
  ∀ g, g ∉ ["ObsBiasPredictor"; "ObsBiasTerm"; "ObsBias"] →
       groups odb' !! g = groups sampleSpace !! g.
Proof.
  apply (simulateObs_with_bias sampleObsOperator 0 [] (sampleBias true) 0 sampleSpace).
  reflexivity.
Defined.

(** The calls of [simulateObs] on the sample operator, in order, with
    and without a bias correction. *)
Example sampleRun_calls :
  option_map (λ x, callName <$> x.2)
    (runCalls (collaborators sampleObsOperator (sampleBias true)) 13
       (simulateObsT 0 [] 0) sampleSpace) =
  Some ["ObsOperatorBase::simulateObs"; "ObsBias::operator bool"; "ObsVector::ObsVector";
        "ObsBias::predNames"; "ObsDataVector::ObsDataVector";
        "ObsBias::predNames"; "ObsDataVector::ObsDataVector";
        "ObsBias::computeObsBiasPredictors"; "ObsDataVector::save ObsBiasPredictor";
        "ObsBias::computeObsBias"; "ObsDataVector::save ObsBiasTerm";
        "ObsVector::save ObsBias"] ∧
  option_map (λ x, callName <$> x.2)
    (runCalls (collaborators sampleObsOperator (sampleBias false)) 13
       (simulateObsT 0 [] 0) sampleSpace) =
  Some ["ObsOperatorBase::simulateObs"; "ObsBias::operator bool"].
Proof. split; vm_compute; reflexivity. Qed.

Lemma runCheck_conservation_witness :
  let failed := counter (NumInterpErrors scenarioA_all) - counter (NumInterpErrors scenarioA) in
  sumZ (LevErrors_ scenarioA_all) = 3 * failed - 5 ∧
  counter (NumAnyErrors scenarioA_all) - counter (NumAnyErrors scenarioA) = failed ∧
  counter (NumInterpErrObs scenarioA_all) - counter (NumInterpErrObs scenarioA) =
    (if 0 <? failed then 1 else 0) ∧
  0 ≤ failed ≤ Z.max 0 (NumStd_ (levels scenarioA_all)).
Proof.
  apply (@runCheck_conservation (table_calc 5 allStd) refOptions sampleConstants 5
           scenarioA scenarioA_all); vm_compute; reflexivity.
Defined.


Lemma fillValidator_publishes_witness :
  handler5_published !! name_StdLev = Some (IntVec (StdLev_ (levels scenarioA_after))) ∧
  handler5_published !! name_SigAbove = Some (IntVec (SigAbove_ (levels scenarioA_after))) ∧
  handler5_published !! name_SigBelow = Some (IntVec (SigBelow_ (levels scenarioA_after))) ∧
  handler5_published !! name_IndStd = Some (IntVec (IndStd_ (levels scenarioA_after))) ∧
  handler5_published !! name_LevErrors = Some (IntVec (LevErrors_ scenarioA_after)) ∧
  handler5_published !! name_tInterp = Some (FloatVec (tInterp_ scenarioA_after)) ∧
  handler5_published !! name_LogP = Some (FloatVec (LogP_ (levels scenarioA_after))) ∧
  handler5_published !! name_NumStd =
    Some (IntVec (replicate (Z.to_nat 5) (NumStd_ (levels scenarioA_after)))) ∧
  handler5_published !! name_NumSig =
    Some (IntVec (replicate (Z.to_nat 5) (NumSig_ (levels scenarioA_after)))) ∧
  ∀ name, name ∉ published → handler5_published !! name = handler5_checked !! name.
Proof.
  apply (fillValidator_publishes 5 handler5_checked scenarioA_after handler5_published check5_published).
  apply fillValidator_returns. lia.
Defined.


Lemma fillValidator_frame_witness :
  handler5_published !! name_qc_tFlags = handler5_checked !! name_qc_tFlags.
Proof.
  apply (fillValidator_frame 5 handler5_checked scenarioA_after handler5_published check5_published name_qc_tFlags).
  - apply fillValidator_returns. lia.
  - apply (bool_decide_unpack _). vm_compute. reflexivity.
Defined.

Lemma fillValidator_once_witness :
  handler5_twice !! name_LevErrors = Some (IntVec []).
Proof.
  apply (fillValidator_once 5 handler5_checked scenarioA_after handler5_published check5_published
           handler5_twice (movedFrom check5_published) name_LevErrors).
  - apply fillValidator_returns. lia.
  - apply fillValidator_returns. lia.
  - apply (bool_decide_unpack _). vm_compute. reflexivity.
Defined.
